(** * IBM Z MCP server: the tool-call handler of [index.js]

    A shallow embedding of the request handler that [index.js] registers for
    [CallToolRequestSchema], of the helpers it calls ([getKeyProtectClient],
    [callZosConnect]) and of the tool list it registers for
    [ListToolsRequestSchema], followed by the properties of the handler.

    Conventions of the embedding.
    - JavaScript values that can reach the handler are JSON values and
      [undefined]; numbers are integers ([Z]), each standing for the number
      whose digits JavaScript prints as that integer.
    - Strings are sequences of bytes: UTF-8, in which a surrogate that has
      no partner (a JSON text can hold one, as ["\ud800"]) is written as the
      three bytes of its code point, [ED A0..BF 80..BF].
    - [await] is sequential composition: a promise that rejects is a thrown
      error, a promise that resolves is a returned value.
    - The Key Protect SDK, [fetch] and [URLSearchParams] are not code of the
      repository: they are parameters ([world], [runtime]). *)

From Stdlib Require Import String Ascii List ZArith NArith Bool Lia DecimalString.
Import ListNotations.
Local Open Scope string_scope.
Set Warnings "-register-all".

(** ** JavaScript values *)

Module JS.

(** The values that reach the handler: [undefined] and what [JSON.parse]
    yields.  An object is the list of its own properties in enumeration
    order, with distinct keys.  A number is an integer: the one whose
    decimal digits JavaScript prints for the number (an integer that no
    number prints as, such as [2^53 + 1], stands for no value that the
    handler can receive). *)
Inductive value : Type :=
| VUndef
| VNull
| VBool (b : bool)
| VNum (n : Z)
| VStr (s : string)
| VArr (items : list value)
| VObj (fields : list (string * value)).

(** A thrown [Error]: only its [message] is ever read. *)
Inductive exn : Type :=
| Error (message : string)
| TypeError (message : string)
| SyntaxError (message : string)
| URIError (message : string).

Definition message (e : exn) : string :=
  match e with
  | Error m | TypeError m | SyntaxError m | URIError m => m
  end.

Definition result (A : Type) : Type := (exn + A)%type.

(** ToBoolean. *)
Definition truthy (v : value) : bool :=
  match v with
  | VUndef | VNull => false
  | VBool b => b
  | VNum n => negb (n =? 0)%Z
  | VStr s => negb (s =? "")
  | VArr _ | VObj _ => true
  end.

(** [a || b]. *)
Definition or (a b : value) : value := if truthy a then a else b.

(** [v === "s"] for a string literal. *)
Definition is_string (v : value) (s : string) : bool :=
  match v with
  | VStr t => t =? s
  | _ => false
  end.

Fixpoint lookup (p : string) (fields : list (string * value)) : value :=
  match fields with
  | [] => VUndef
  | (k, v) :: rest => if k =? p then v else lookup p rest
  end.

(** [o.p] for the property names the server reads ([limit], [key_id],
    [result], [resources], ...): none of them is defined on the prototypes
    of strings, numbers, booleans or arrays, so only an object can hold
    one; reading a property of [undefined] or [null] throws. *)
Definition prop (o : value) (p : string) : result value :=
  match o with
  | VUndef =>
      inl (TypeError ("Cannot read properties of undefined (reading '" ++ p ++ "')"))
  | VNull =>
      inl (TypeError ("Cannot read properties of null (reading '" ++ p ++ "')"))
  | VObj fields => inr (lookup p fields)
  | _ => inr VUndef
  end.

Definition string_of_Z (n : Z) : string := NilZero.string_of_int (Z.to_int n).

Definition string_of_nat (n : nat) : string := string_of_Z (Z.of_nat n).

(** The digits of a fraction without its trailing zeros. *)
Fixpoint strip_zeros (s : string) : string :=
  match s with
  | EmptyString => EmptyString
  | String c s' =>
      match strip_zeros s' with
      | EmptyString => if Ascii.eqb c "0" then EmptyString else String c EmptyString
      | r => String c r
      end
  end.

(** Number::toString for an integer: its decimal digits below [10^21],
    from there on the exponent notation ([1e+21], [1.5e+21]). *)
Definition number_text (n : Z) : string :=
  if (Z.abs n <? 10 ^ 21)%Z then string_of_Z n
  else
    match string_of_Z (Z.abs n) with
    | EmptyString => EmptyString
    | String d rest =>
        (if (n <? 0)%Z then "-" else "")
        ++ String d (match strip_zeros rest with
                     | EmptyString => EmptyString
                     | fraction => "." ++ fraction
                     end)
        ++ "e+" ++ string_of_nat (String.length rest)
    end.

(** Whether the object has an own property [p]. *)
Definition has_own (p : string) (fields : list (string * value)) : bool :=
  existsb (fun kv => fst kv =? p) fields.

(** Whether ToString finds a callable [toString] all the way: an own
    property [toString] of a JSON object is never a function and hides
    [Object.prototype.toString]; [Array.prototype.join] converts the
    elements in turn. *)
Fixpoint convertible (v : value) : bool :=
  match v with
  | VObj fields => negb (has_own "toString" fields)
  | VArr items => forallb convertible items
  | _ => true
  end.

(** The string that ToString gives when it does not throw. *)
Fixpoint string_form (v : value) : string :=
  match v with
  | VUndef => "undefined"
  | VNull => "null"
  | VBool true => "true"
  | VBool false => "false"
  | VNum n => number_text n
  | VStr s => s
  | VArr items =>
      (fix join (l : list value) : string :=
         match l with
         | [] => ""
         | x :: rest =>
             (match x with
              | VUndef | VNull => ""
              | _ => string_form x
              end)
             ++ (match rest with
                 | [] => ""
                 | _ :: _ => "," ++ join rest
                 end)
         end) items
  | VObj _ => "[object Object]"
  end.

(** ToString, as [String(v)] and template literals apply it. *)
Definition to_string (v : value) : result string :=
  if convertible v then inr (string_form v)
  else inl (TypeError "Cannot convert object to primitive value").

(** The three bytes of the code unit [u] (from [0x800] up). *)
Definition three_bytes (u : N) : string :=
  String (ascii_of_N (224 + u / 4096))
    (String (ascii_of_N (128 + (u / 64) mod 64))
       (String (ascii_of_N (128 + u mod 64)) "")).

(** The UTF-16 code units of a string, each as a string of its own: a
    character of up to three bytes is one unit, a character of four bytes
    is a pair of surrogates. *)
Fixpoint code_units (s : string) : list string :=
  match s with
  | EmptyString => []
  | String a s1 =>
      let n := N_of_ascii a in
      if (n <? 192)%N then String a "" :: code_units s1
      else
        match s1 with
        | EmptyString => [String a ""]
        | String b s2 =>
            if (n <? 224)%N then String a (String b "") :: code_units s2
            else
              match s2 with
              | EmptyString => [String a (String b "")]
              | String c s3 =>
                  if (n <? 240)%N then String a (String b (String c "")) :: code_units s3
                  else
                    match s3 with
                    | EmptyString => [String a (String b (String c ""))]
                    | String d s4 =>
                        let point :=
                          ((n mod 8) * 262144 + (N_of_ascii b mod 64) * 4096
                           + (N_of_ascii c mod 64) * 64 + N_of_ascii d mod 64)%N in
                        three_bytes (55296 + (point - 65536) / 1024)
                        :: three_bytes (56320 + (point - 65536) mod 1024)
                        :: code_units s4
                    end
              end
        end
  end.

(** [o?.[0]] once [o] is known not to be nullish. *)
Definition index0 (o : value) : value :=
  match o with
  | VArr (x :: _) => x
  | VObj fields => lookup "0" fields
  | VStr s =>
      match code_units s with
      | unit :: _ => VStr unit
      | [] => VUndef
      end
  | _ => VUndef
  end.

Definition nullish (v : value) : bool :=
  match v with
  | VUndef | VNull => true
  | _ => false
  end.

(** [s.startsWith(p)]. *)
Fixpoint startsWith (s p : string) : bool :=
  match p, s with
  | EmptyString, _ => true
  | String _ _, EmptyString => false
  | String a p', String b s' => Ascii.eqb a b && startsWith s' p'
  end.

Fixpoint drop (n : nat) (s : string) : string :=
  match n, s with
  | O, _ => s
  | S n', String _ s' => drop n' s'
  | S _, EmptyString => EmptyString
  end.

(** [s.includes(p)]. *)
Fixpoint includes (s p : string) : bool :=
  if startsWith s p then true
  else match s with
       | EmptyString => false
       | String _ s' => includes s' p
       end.

(** [s.replace(pat, rep)] for a string pattern: only the first occurrence
    is replaced.  The replacement is inserted as it is: the one call site
    passes the result of [encodeURIComponent], which escapes [$], so the
    replacement patterns ([$&], [$$], ...) never occur. *)
Fixpoint replace (s pat rep : string) : string :=
  if startsWith s pat then rep ++ drop (String.length pat) s
  else match s with
       | EmptyString => EmptyString
       | String c s' => String c (replace s' pat rep)
       end.

(** [s.replaceAll(pat, rep)] for a non-empty string pattern; [fuel] bounds
    the scan and [String.length s] is enough. *)
Fixpoint replaceAll_fuel (fuel : nat) (s pat rep : string) : string :=
  match fuel with
  | O => s
  | S fuel' =>
      if startsWith s pat
      then rep ++ replaceAll_fuel fuel' (drop (String.length pat) s) pat rep
      else match s with
           | EmptyString => EmptyString
           | String c s' => String c (replaceAll_fuel fuel' s' pat rep)
           end
  end.

Definition replaceAll (s pat rep : string) : string :=
  replaceAll_fuel (S (String.length s)) s pat rep.

Definition hex_digit (n : N) : ascii :=
  match String.get (N.to_nat n) "0123456789ABCDEF" with
  | Some c => c
  | None => "0"%char
  end.

(** The characters [encodeURIComponent] leaves as they are:
    letters, digits and [- _ . ! ~ * ' ( )]. *)
Definition uri_unreserved (c : ascii) : bool :=
  let n := N_of_ascii c in
  ((65 <=? n) && (n <=? 90) || (97 <=? n) && (n <=? 122)
   || (48 <=? n) && (n <=? 57))%N
  || existsb (Ascii.eqb c) (list_ascii_of_string "-_.!~*'()").

(** Every byte but the unreserved characters as [%XX]. *)
Fixpoint percent_encode (s : string) : string :=
  match s with
  | EmptyString => EmptyString
  | String c s' =>
      if uri_unreserved c then String c (percent_encode s')
      else
        let n := N_of_ascii c in
        String "%" (String (hex_digit (n / 16)) (String (hex_digit (n mod 16))
          (percent_encode s')))
  end.

(** Whether the string holds a surrogate without its partner: the byte [ED]
    followed by a byte of [A0..BF]. *)
Fixpoint lone_surrogate (s : string) : bool :=
  match s with
  | EmptyString => false
  | String c s' =>
      match s' with
      | EmptyString => false
      | String d _ =>
          (N_of_ascii c =? 237)%N && (160 <=? N_of_ascii d)%N && (N_of_ascii d <=? 191)%N
          || lone_surrogate s'
      end
  end.

(** [encodeURIComponent(s)]: throws on a surrogate without its partner. *)
Definition encodeURIComponent (s : string) : result string :=
  if lone_surrogate s then inl (URIError "URI malformed")
  else inr (percent_encode s).

Fixpoint indexed (i : nat) (l : list value) : list (string * value) :=
  match l with
  | [] => []
  | x :: rest => (string_of_nat i, x) :: indexed (S i) rest
  end.

Definition chars (s : string) : list value := map VStr (code_units s).

(** [Object.entries(o)]: an object is the list of its own properties in
    enumeration order; an array and a string enumerate their indices; a
    number and a boolean have no own property. *)
Definition entries (o : value) : result (list (string * value)) :=
  match o with
  | VUndef | VNull => inl (TypeError "Cannot convert undefined or null to object")
  | VObj fields => inr fields
  | VArr items => inr (indexed 0 items)
  | VStr s => inr (indexed 0 (chars s))
  | VBool _ | VNum _ => inr []
  end.

Definition b64_digit (n : N) : ascii :=
  match String.get (N.to_nat n)
          "ABCDEFGHIJKLMNOPQRSTUVWXYZabcdefghijklmnopqrstuvwxyz0123456789+/" with
  | Some c => c
  | None => "="%char
  end.

Fixpoint base64_bytes (l : list N) : string :=
  match l with
  | [] => ""
  | [a] =>
      let n := (a * 65536)%N in
      String (b64_digit (n / 262144)) (String (b64_digit ((n / 4096) mod 64)) "==")
  | [a; b] =>
      let n := (a * 65536 + b * 256)%N in
      String (b64_digit (n / 262144)) (String (b64_digit ((n / 4096) mod 64))
        (String (b64_digit ((n / 64) mod 64)) "="))
  | a :: b :: c :: rest =>
      let n := (a * 65536 + b * 256 + c)%N in
      String (b64_digit (n / 262144)) (String (b64_digit ((n / 4096) mod 64))
        (String (b64_digit ((n / 64) mod 64)) (String (b64_digit (n mod 64))
          (base64_bytes rest))))
  end.

(** [Buffer.from(s).toString("base64")]. *)
Definition base64 (s : string) : string :=
  base64_bytes (map N_of_ascii (list_ascii_of_string s)).

End JS.
Import JS.

(** ** Configuration, backends and the handler's monad *)

(** [process.env]: each variable is a string or absent. *)
Record environment : Type := {
  IBM_CLOUD_API_KEY : option string;
  KEY_PROTECT_INSTANCE_ID : option string;
  env_KEY_PROTECT_URL : option string;
  ZOS_CONNECT_URL : option string;
  ZOS_CONNECT_USERNAME : option string;
  ZOS_CONNECT_PASSWORD : option string
}.

Definition env_value (x : option string) : value :=
  match x with
  | Some s => VStr s
  | None => VUndef
  end.

Definition env_string (x : option string) : string := string_form (env_value x).

Definition env_truthy (x : option string) : bool := truthy (env_value x).

(** [process.env.KEY_PROTECT_URL || "https://us-south.kms.cloud.ibm.com"]. *)
Definition KEY_PROTECT_URL (env : environment) : string :=
  string_form
    (or (env_value (env_KEY_PROTECT_URL env)) (VStr "https://us-south.kms.cloud.ibm.com")).

(** The methods of [IbmKeyProtectApiV2] that the handler calls. *)
Inductive kp_method : Type :=
| getKeys | createKey | getKey | wrapKey | unwrapKey | rotateKey | deleteKey
| getKeyMetadata.

(** What [new IbmKeyProtectApiV2({authenticator, serviceUrl})] was given. *)
Record kp_client : Type := {
  apikey : string;
  serviceUrl : string
}.

(** The [options] and [url] given to [fetch]. *)
Record request : Type := {
  url : string;
  method : value;
  headers : list (string * string);
  body : option value   (* [Some b]: the text [JSON.stringify(b)] *)
}.

Record response : Type := {
  ok : bool;
  status : Z;
  content_type : option string;     (* [headers.get("content-type")] *)
  text_body : result string;        (* [await response.text()] *)
  json_body : result value          (* [await response.json()] *)
}.

(** The backends, over a state [S] of their own. *)
Record world (S : Type) : Type := {
  (** [new IbmKeyProtectApiV2(...)]: [Some e] when the constructor throws. *)
  new_client : kp_client -> option exn;
  (** [await kpClient.m(params)]: the response object, or a rejection. *)
  kp_request : kp_client -> kp_method -> value -> S -> result value * S;
  (** [await fetch(url, options)]. *)
  fetch : request -> S -> result response * S
}.
Arguments new_client {S}.
Arguments kp_request {S}.
Arguments fetch {S}.

(** Run-time library functions whose definition the model leaves open. *)
Record runtime : Type := {
  (** [new URLSearchParams(init).toString()], which throws on some inits. *)
  URLSearchParams_toString : value -> result string
}.

(** A call that crossed the process boundary. *)
Inductive event : Type :=
| KpCall (m : kp_method) (params : value)
| Fetch (req : request).

(** The process: the module-level [keyProtectClient], the backends' state
    and the calls issued so far. *)
Record process (S : Type) : Type := {
  keyProtectClient : option kp_client;
  remote : S;
  calls : list event
}.
Arguments keyProtectClient {S}.
Arguments remote {S}.
Arguments calls {S}.
Arguments Build_process {S}.

(** Computations that read and update the process and may throw. *)
Definition M (S A : Type) : Type := process S -> result A * process S.

Definition ret {S A} (a : A) : M S A := fun st => (inr a, st).

Definition throw {S A} (e : exn) : M S A := fun st => (inl e, st).

Definition bind {S A B} (m : M S A) (k : A -> M S B) : M S B :=
  fun st =>
    match m st with
    | (inr a, st') => k a st'
    | (inl e, st') => (inl e, st')
    end.

(** [try { m } catch (error) { h error }]. *)
Definition try_catch {S A} (m : M S A) (h : exn -> M S A) : M S A :=
  fun st =>
    match m st with
    | (inr a, st') => (inr a, st')
    | (inl e, st') => h e st'
    end.

(** An expression that may throw and touches nothing. *)
Definition eval {S A} (r : result A) : M S A := fun st => (r, st).

Declare Scope js_scope.
Delimit Scope js_scope with js.
Notation "x <- m ;; k" := (bind m (fun x => k))
  (at level 100, m at next level, right associativity) : js_scope.
Local Open Scope js_scope.

(** The text of a content item: [Json v] is the string
    [JSON.stringify(v, null, 2)] ([undefined] when [v] is), [Str s] is [s]. *)
Inductive text : Type :=
| Json (v : value)
| Str (s : string).

Record content_item : Type := {
  type : string;
  text_of : text
}.

Record tool_result : Type := {
  content : list content_item
}.

(** [{ content: [{ type: "text", text: t }] }]. *)
Definition text_result (t : text) : tool_result :=
  {| content := [ {| type := "text"; text_of := t |} ] |}.

(** A parameter's default value: used when the argument is [undefined]. *)
Definition default (v d : value) : value :=
  match v with
  | VUndef => d
  | _ => v
  end.

Definition and_then {A B} (r : result A) (k : A -> result B) : result B :=
  match r with
  | inl e => inl e
  | inr a => k a
  end.

(** [response.result.resources?.[0]]. *)
Definition first_resource (response : value) : result value :=
  and_then (prop response "result") (fun result =>
  and_then (prop result "resources") (fun resources =>
  if nullish resources then inr VUndef else inr (index0 resources))).

(** [response.result.resources?.[0]?.p]. *)
Definition first_resource_prop (response : value) (p : string) : result value :=
  and_then (first_resource response) (fun r =>
  if nullish r then inr VUndef else prop r p).

(** [response.result.p]. *)
Definition result_prop (response : value) (p : string) : result value :=
  and_then (prop response "result") (fun result => prop result p).

(** [obj.p = v]: a new property goes last, an existing one keeps its place. *)
Fixpoint set_prop (fields : list (string * value)) (p : string) (v : value)
  : list (string * value) :=
  match fields with
  | [] => [(p, v)]
  | (k, x) :: rest => if k =? p then (k, v) :: rest else (k, x) :: set_prop rest p v
  end.

(** [if (c) { obj.p = v; }]. *)
Definition set_if (c : value) (fields : list (string * value)) (p : string) (v : value)
  : list (string * value) :=
  if truthy c then set_prop fields p v else fields.

(** The cases of the two [switch (name)] statements. *)
Inductive kp_tool : Type :=
| key_protect_list_keys | key_protect_create_key | key_protect_get_key
| key_protect_wrap_key | key_protect_unwrap_key | key_protect_rotate_key
| key_protect_delete_key | key_protect_get_key_policies.

Inductive zos_tool : Type :=
| zos_connect_list_services | zos_connect_get_service | zos_connect_call_service
| zos_connect_list_apis | zos_connect_health.

Definition kp_case (name : string) : option kp_tool :=
  if name =? "key_protect_list_keys" then Some key_protect_list_keys
  else if name =? "key_protect_create_key" then Some key_protect_create_key
  else if name =? "key_protect_get_key" then Some key_protect_get_key
  else if name =? "key_protect_wrap_key" then Some key_protect_wrap_key
  else if name =? "key_protect_unwrap_key" then Some key_protect_unwrap_key
  else if name =? "key_protect_rotate_key" then Some key_protect_rotate_key
  else if name =? "key_protect_delete_key" then Some key_protect_delete_key
  else if name =? "key_protect_get_key_policies" then Some key_protect_get_key_policies
  else None.

Definition zos_case (name : string) : option zos_tool :=
  if name =? "zos_connect_list_services" then Some zos_connect_list_services
  else if name =? "zos_connect_get_service" then Some zos_connect_get_service
  else if name =? "zos_connect_call_service" then Some zos_connect_call_service
  else if name =? "zos_connect_list_apis" then Some zos_connect_list_apis
  else if name =? "zos_connect_health" then Some zos_connect_health
  else None.

(** The path-parameter loop of [zos_connect_call_service]:
    [for (const [key, value] of Object.entries(args.path_params))
       endpoint = endpoint.replace(`{${key}}`, encodeURIComponent(String(value)))]. *)
Fixpoint substitute (params : list (string * value)) (endpoint : string)
  : result string :=
  match params with
  | [] => inr endpoint
  | (key, value) :: rest =>
      and_then (to_string value) (fun text =>
      and_then (encodeURIComponent text) (fun encoded =>
      substitute rest (replace endpoint ("{" ++ key ++ "}") encoded)))
  end.

Definition dquote : string := String (ascii_of_nat 34) "".

(** ** The server *)

Section Server.

Context {S : Type}.
Variable rt : runtime.
Variable env : environment.
Variable w : world S.

(** [KEY_PROTECT_INSTANCE_ID], as every SDK call passes it. *)
Definition bluemixInstance : value := env_value (KEY_PROTECT_INSTANCE_ID env).

Definition getKeyProtectClient : M S (option kp_client) :=
  fun st =>
    match keyProtectClient st with
    | Some c => (inr (Some c), st)
    | None =>
        if env_truthy (IBM_CLOUD_API_KEY env)
           && env_truthy (KEY_PROTECT_INSTANCE_ID env)
        then
          let c := {| apikey := env_string (IBM_CLOUD_API_KEY env);
                      serviceUrl := KEY_PROTECT_URL env |} in
          match new_client w c with
          | Some e => (inl e, st)
          | None =>
              (inr (Some c),
               {| keyProtectClient := Some c; remote := remote st; calls := calls st |})
          end
        else (inr None, st)
    end.

(** [await kpClient.m(params)]. *)
Definition kp (c : kp_client) (m : kp_method) (params : value) : M S value :=
  fun st =>
    let (r, s') := kp_request w c m params (remote st) in
    (r, {| keyProtectClient := keyProtectClient st;
           remote := s';
           calls := List.app (calls st) [KpCall m params] |}).

(** [await fetch(url, options)]. *)
Definition do_fetch (req : request) : M S response :=
  fun st =>
    let (r, s') := fetch w req (remote st) in
    (r, {| keyProtectClient := keyProtectClient st;
           remote := s';
           calls := List.app (calls st) [Fetch req] |}).

(** The [url] and [options] that [callZosConnect] hands to [fetch]. *)
Definition fetch_request (endpoint : string) (method body : value) : request :=
  {| url := env_string (ZOS_CONNECT_URL env) ++ endpoint;
     method := method;
     headers :=
       List.app
         [("Content-Type", "application/json"); ("Accept", "application/json")]
         (if env_truthy (ZOS_CONNECT_USERNAME env) && env_truthy (ZOS_CONNECT_PASSWORD env)
          then [("Authorization",
                 "Basic " ++ base64 (env_string (ZOS_CONNECT_USERNAME env) ++ ":"
                                     ++ env_string (ZOS_CONNECT_PASSWORD env)))]
          else []);
     body :=
       if truthy body
          && (is_string method "POST" || is_string method "PUT" || is_string method "PATCH")
       then Some body else None |}.

Definition callZosConnect (endpoint : string) (method_arg body_arg : value) : M S value :=
  let method := default method_arg (VStr "GET") in
  let body := default body_arg VNull in
  if negb (env_truthy (ZOS_CONNECT_URL env)) then
    throw (Error "z/OS Connect not configured. Set ZOS_CONNECT_URL environment variable.")
  else
    response <- do_fetch (fetch_request endpoint method body) ;;
    if negb (ok response) then
      errorText <- eval (text_body response) ;;
      throw (Error ("z/OS Connect error " ++ string_of_Z (status response) ++ ": "
                    ++ errorText))
    else
      match content_type response with
      | Some contentType =>
          if negb (contentType =? "") && includes contentType "application/json"
          then eval (json_body response)
          else (t <- eval (text_body response) ;; ret (VStr t))
      | None => t <- eval (text_body response) ;; ret (VStr t)
      end.

(** The arrow function mapped over [resources] by [key_protect_list_keys]. *)
Definition key_summary (k : value) : result value :=
  and_then (prop k "id") (fun id =>
  and_then (prop k "name") (fun name =>
  and_then (prop k "type") (fun type =>
  and_then (prop k "state") (fun state =>
  and_then (prop k "extractable") (fun extractable =>
  and_then (prop k "crn") (fun crn =>
  and_then (prop k "createdBy") (fun createdBy =>
  and_then (prop k "creationDate") (fun creationDate =>
  and_then (prop k "lastRotateDate") (fun lastRotateDate =>
  and_then (prop k "deleted") (fun deleted =>
  inr (VObj [("id", id); ("name", name); ("type", type); ("state", state);
             ("extractable", extractable); ("crn", crn); ("createdBy", createdBy);
             ("creationDate", creationDate); ("lastRotateDate", lastRotateDate);
             ("deleted", deleted)]))))))))))).

Fixpoint map_result (f : value -> result value) (l : list value) : result (list value) :=
  match l with
  | [] => inr []
  | x :: rest =>
      and_then (f x) (fun y =>
      and_then (map_result f rest) (fun ys => inr (y :: ys)))
  end.

(** [response.result.resources?.map(k => ...) || []]. *)
Definition key_summaries (response : value) : result (list value) :=
  and_then (result_prop response "resources") (fun resources =>
  match resources with
  | VUndef | VNull => inr []
  | VArr items => map_result key_summary items
  | _ => inl (TypeError "response.result.resources?.map is not a function")
  end).

Definition list_keys (kpClient : kp_client) (args : value) : M S tool_result :=
  limit <- eval (prop args "limit") ;;
  offset <- eval (prop args "offset") ;;
  state <- eval (prop args "state") ;;
  response <- kp kpClient getKeys
    (VObj [("bluemixInstance", bluemixInstance);
           ("limit", or limit (VNum 100));
           ("offset", or offset (VNum 0));
           ("state", state)]) ;;
  keys <- eval (key_summaries response) ;;
  ret (text_result (Json (VObj [("total", VNum (Z.of_nat (length keys)));
                                ("keys", VArr keys)]))).

Definition create_key (kpClient : kp_client) (args : value) : M S tool_result :=
  type <- eval (prop args "type") ;;
  let isRootKey := is_string type "root_key" in
  name <- eval (prop args "name") ;;
  extractable <- eval (prop args "extractable") ;;
  description <- eval (prop args "description") ;;
  payload <- eval (prop args "payload") ;;
  let keyResource :=
    set_if payload
      (set_if description
         [("type", VStr "application/vnd.ibm.kms.key+json");
          ("name", name);
          ("extractable",
           if isRootKey then VBool false else or extractable (VBool false))]
         "description" description)
      "payload" payload in
  let keyCreateBody :=
    VObj [("metadata",
           VObj [("collectionType", VStr "application/vnd.ibm.kms.key+json");
                 ("collectionTotal", VNum 1)]);
          ("resources", VArr [VObj keyResource])] in
  response <- kp kpClient createKey
    (VObj [("bluemixInstance", bluemixInstance); ("keyCreateBody", keyCreateBody)]) ;;
  name_text <- eval (to_string name) ;;
  id <- eval (first_resource_prop response "id") ;;
  rname <- eval (first_resource_prop response "name") ;;
  rtype <- eval (first_resource_prop response "type") ;;
  crn <- eval (first_resource_prop response "crn") ;;
  ret (text_result (Json (VObj
    [("message", VStr ("Key " ++ dquote ++ name_text ++ dquote
                       ++ " created successfully"));
     ("key", VObj [("id", id); ("name", rname); ("type", rtype); ("crn", crn)])]))).

Definition get_key (kpClient : kp_client) (args : value) : M S tool_result :=
  key_id <- eval (prop args "key_id") ;;
  response <- kp kpClient getKey
    (VObj [("bluemixInstance", bluemixInstance); ("id", key_id)]) ;;
  key <- eval (first_resource response) ;;
  ret (text_result (Json key)).

Definition wrap_key (kpClient : kp_client) (args : value) : M S tool_result :=
  plaintext <- eval (prop args "plaintext") ;;
  aad <- eval (prop args "aad") ;;
  let keyActionWrapBody := set_if aad [("plaintext", plaintext)] "aad" aad in
  key_id <- eval (prop args "key_id") ;;
  response <- kp kpClient wrapKey
    (VObj [("id", key_id); ("bluemixInstance", bluemixInstance);
           ("keyActionWrapBody", VObj keyActionWrapBody)]) ;;
  ciphertext <- eval (result_prop response "ciphertext") ;;
  keyVersion <- eval (result_prop response "keyVersion") ;;
  ret (text_result (Json (VObj [("message", VStr "Key wrapped successfully");
                                ("ciphertext", ciphertext);
                                ("keyVersion", keyVersion)]))).

Definition unwrap_key (kpClient : kp_client) (args : value) : M S tool_result :=
  ciphertext <- eval (prop args "ciphertext") ;;
  aad <- eval (prop args "aad") ;;
  let keyActionUnwrapBody := set_if aad [("ciphertext", ciphertext)] "aad" aad in
  key_id <- eval (prop args "key_id") ;;
  response <- kp kpClient unwrapKey
    (VObj [("id", key_id); ("bluemixInstance", bluemixInstance);
           ("keyActionUnwrapBody", VObj keyActionUnwrapBody)]) ;;
  plaintext <- eval (result_prop response "plaintext") ;;
  keyVersion <- eval (result_prop response "keyVersion") ;;
  ret (text_result (Json (VObj [("message", VStr "Key unwrapped successfully");
                                ("plaintext", plaintext);
                                ("keyVersion", keyVersion)]))).

Definition rotate_key (kpClient : kp_client) (args : value) : M S tool_result :=
  key_id <- eval (prop args "key_id") ;;
  payload <- eval (prop args "payload") ;;
  let params :=
    set_if payload [("id", key_id); ("bluemixInstance", bluemixInstance)]
      "keyActionRotateBody" (VObj [("payload", payload)]) in
  _ <- kp kpClient rotateKey (VObj params) ;;
  key_text <- eval (to_string key_id) ;;
  ret (text_result (Json (VObj
    [("message", VStr ("Key " ++ key_text ++ " rotated successfully"));
     ("keyId", key_id)]))).

Definition delete_key (kpClient : kp_client) (args : value) : M S tool_result :=
  key_id <- eval (prop args "key_id") ;;
  force <- eval (prop args "force") ;;
  _ <- kp kpClient deleteKey
    (VObj [("bluemixInstance", bluemixInstance); ("id", key_id);
           ("force", or force (VBool false))]) ;;
  key_text <- eval (to_string key_id) ;;
  ret (text_result (Json (VObj
    [("message", VStr ("Key " ++ key_text ++ " deleted successfully"));
     ("warning", VStr "This action is irreversible. Data encrypted with this key is now unrecoverable.")]))).

Definition get_key_policies (kpClient : kp_client) (args : value) : M S tool_result :=
  key_id <- eval (prop args "key_id") ;;
  response <- kp kpClient getKeyMetadata
    (VObj [("bluemixInstance", bluemixInstance); ("id", key_id)]) ;;
  result <- eval (prop response "result") ;;
  ret (text_result (Json result)).

(** The body of a [case] of the first [switch]. *)
Definition kp_handler (t : kp_tool) : kp_client -> value -> M S tool_result :=
  match t with
  | key_protect_list_keys => list_keys
  | key_protect_create_key => create_key
  | key_protect_get_key => get_key
  | key_protect_wrap_key => wrap_key
  | key_protect_unwrap_key => unwrap_key
  | key_protect_rotate_key => rotate_key
  | key_protect_delete_key => delete_key
  | key_protect_get_key_policies => get_key_policies
  end.

Definition list_services : M S tool_result :=
  services <- callZosConnect "/zosConnect/services" VUndef VUndef ;;
  ret (text_result (Json services)).

Definition get_service (args : value) : M S tool_result :=
  service_name <- eval (prop args "service_name") ;;
  name_text <- eval (to_string service_name) ;;
  service <- callZosConnect ("/zosConnect/services/" ++ name_text) VUndef VUndef ;;
  ret (text_result (Json service)).

(** The endpoint of [zos_connect_call_service] before the query string:
    the template literal, then the path-parameter loop. *)
Definition call_service_path (service_name operation path_params : value) : result string :=
  and_then (to_string service_name) (fun name_text =>
  and_then (to_string (or operation (VStr "/"))) (fun operation_text =>
  let endpoint := "/zosConnect/services/" ++ name_text ++ operation_text in
  if truthy path_params then
    and_then (entries path_params) (fun params => substitute params endpoint)
  else inr endpoint)).

Definition call_service (args : value) : M S tool_result :=
  service_name <- eval (prop args "service_name") ;;
  operation <- eval (prop args "operation") ;;
  path_params <- eval (prop args "path_params") ;;
  endpoint <- eval (call_service_path service_name operation path_params) ;;
  query_params <- eval (prop args "query_params") ;;
  endpoint <- (if truthy query_params then
                 queryString <- eval (URLSearchParams_toString rt query_params) ;;
                 ret (endpoint ++ "?" ++ queryString)
               else ret endpoint) ;;
  method <- eval (prop args "method") ;;
  payload <- eval (prop args "payload") ;;
  result <- callZosConnect endpoint (or method (VStr "POST")) payload ;;
  ret (text_result (Json (VObj [("service", service_name);
                                ("operation", or operation (VStr "/"));
                                ("method", or method (VStr "POST"));
                                ("response", result)]))).

Definition list_apis : M S tool_result :=
  apis <- callZosConnect "/zosConnect/apis" VUndef VUndef ;;
  ret (text_result (Json apis)).

Definition health : M S tool_result :=
  health <- callZosConnect "/zosConnect/health" VUndef VUndef ;;
  ret (text_result (Json health)).

(** The body of a [case] of the second [switch]. *)
Definition zos_handler (t : zos_tool) (args : value) : M S tool_result :=
  match t with
  | zos_connect_list_services => list_services
  | zos_connect_get_service => get_service args
  | zos_connect_call_service => call_service args
  | zos_connect_list_apis => list_apis
  | zos_connect_health => health
  end.

Definition kp_not_configured : string :=
  "Error: Key Protect not configured. Set IBM_CLOUD_API_KEY and KEY_PROTECT_INSTANCE_ID environment variables.".

Definition zos_not_configured : string :=
  "Error: z/OS Connect not configured. Set ZOS_CONNECT_URL environment variable. This requires access to an IBM mainframe with z/OS Connect EE installed.".

(** [if (name.startsWith("key_protect_")) { ... }]: [Some r] when the block
    returns [r], [None] when control leaves it (no [case] matched, or the
    name has another prefix). *)
Definition key_protect_block (name : string) (args : value) : M S (option tool_result) :=
  if startsWith name "key_protect_" then
    kpClient <- getKeyProtectClient ;;
    match kpClient with
    | None => ret (Some (text_result (Str kp_not_configured)))
    | Some c =>
        match kp_case name with
        | Some t => r <- kp_handler t c args ;; ret (Some r)
        | None => ret None
        end
    end
  else ret None.

(** [if (name.startsWith("zos_connect_")) { ... }]. *)
Definition zos_connect_block (name : string) (args : value) : M S (option tool_result) :=
  if startsWith name "zos_connect_" then
    if negb (env_truthy (ZOS_CONNECT_URL env)) then
      ret (Some (text_result (Str zos_not_configured)))
    else
      match zos_case name with
      | Some t => r <- zos_handler t args ;; ret (Some r)
      | None => ret None
      end
  else ret None.

(** The statements inside [try]. *)
Definition call_tool_body (name : string) (args : value) : M S tool_result :=
  r <- key_protect_block name args ;;
  match r with
  | Some res => ret res
  | None =>
      r <- zos_connect_block name args ;;
      match r with
      | Some res => ret res
      | None => ret (text_result (Str ("Unknown tool: " ++ name)))
      end
  end.

(** The handler registered for [CallToolRequestSchema], applied to
    [request.params.name] (a string, by the request schema) and
    [request.params.arguments] (any value, [undefined] when omitted). *)
Definition call_tool (name : string) (args : value) : M S tool_result :=
  try_catch (call_tool_body name args)
    (fun error => ret (text_result (Str ("Error: " ++ message error)))).

(** Successive requests, each handled to completion before the next. *)
Fixpoint serve (requests : list (string * value)) (st : process S) : process S :=
  match requests with
  | [] => st
  | (name, args) :: rest => serve rest (snd (call_tool name args st))
  end.

End Server.

(** ** The tool list *)

(** The [type] of a property in an [inputSchema]. *)
Inductive json_type : Type :=
| TNumber
| TString
| TBoolean
| TObject
| TArray (items : json_type).

Record property : Type := {
  ptype : json_type;
  enum : option (list string);
  pdefault : option value
}.

(** A tool of the list registered for [ListToolsRequestSchema]: its [name]
    and the [properties] and [required] of its [inputSchema] (descriptions
    are left out). *)
Record tool : Type := {
  name : string;
  properties : list (string * property);
  required : list string
}.

Definition plain (t : json_type) : property :=
  {| ptype := t; enum := None; pdefault := None |}.

Definition with_default (t : json_type) (d : value) : property :=
  {| ptype := t; enum := None; pdefault := Some d |}.

Definition tools : list tool :=
  [ {| name := "key_protect_list_keys";
       properties := [("limit", with_default TNumber (VNum 100));
                      ("offset", with_default TNumber (VNum 0));
                      ("state", plain (TArray TNumber))];
       required := [] |};
    {| name := "key_protect_create_key";
       properties := [("name", plain TString);
                      ("description", plain TString);
                      ("type", {| ptype := TString;
                                  enum := Some ["root_key"; "standard_key"];
                                  pdefault := Some (VStr "standard_key") |});
                      ("extractable", with_default TBoolean (VBool false));
                      ("payload", plain TString)];
       required := ["name"] |};
    {| name := "key_protect_get_key";
       properties := [("key_id", plain TString)];
       required := ["key_id"] |};
    {| name := "key_protect_wrap_key";
       properties := [("key_id", plain TString);
                      ("plaintext", plain TString);
                      ("aad", plain (TArray TString))];
       required := ["key_id"; "plaintext"] |};
    {| name := "key_protect_unwrap_key";
       properties := [("key_id", plain TString);
                      ("ciphertext", plain TString);
                      ("aad", plain (TArray TString))];
       required := ["key_id"; "ciphertext"] |};
    {| name := "key_protect_rotate_key";
       properties := [("key_id", plain TString);
                      ("payload", plain TString)];
       required := ["key_id"] |};
    {| name := "key_protect_delete_key";
       properties := [("key_id", plain TString);
                      ("force", with_default TBoolean (VBool false))];
       required := ["key_id"] |};
    {| name := "key_protect_get_key_policies";
       properties := [("key_id", plain TString)];
       required := ["key_id"] |};
    {| name := "zos_connect_list_services"; properties := []; required := [] |};
    {| name := "zos_connect_get_service";
       properties := [("service_name", plain TString)];
       required := ["service_name"] |};
    {| name := "zos_connect_call_service";
       properties := [("service_name", plain TString);
                      ("operation", with_default TString (VStr "/"));
                      ("method", {| ptype := TString;
                                    enum := Some ["GET"; "POST"; "PUT"; "DELETE"; "PATCH"];
                                    pdefault := Some (VStr "POST") |});
                      ("payload", plain TObject);
                      ("path_params", plain TObject);
                      ("query_params", plain TObject)];
       required := ["service_name"] |};
    {| name := "zos_connect_list_apis"; properties := []; required := [] |};
    {| name := "zos_connect_health"; properties := []; required := [] |} ].

Definition tool_names : list string := map name tools.

Definition find_tool (n : string) : option tool :=
  find (fun t => name t =? n) tools.

(** *** What validation against an [inputSchema] would require

    The handler never reads an [inputSchema]; these definitions follow the
    specification's words (required fields present, type-correct,
    enum-constrained) so that they can be compared with the handler. *)

Fixpoint has_type (t : json_type) (v : value) : bool :=
  match t, v with
  | TNumber, VNum _ => true
  | TString, VStr _ => true
  | TBoolean, VBool _ => true
  | TObject, VObj _ => true
  | TArray it, VArr items => forallb (has_type it) items
  | _, _ => false
  end.

Definition in_enum (e : option (list string)) (v : value) : bool :=
  match e with
  | None => true
  | Some allowed => existsb (is_string v) allowed
  end.

(** The field that fails a declared property, if any. *)
Fixpoint ill_typed_field (props : list (string * property)) (fields : list (string * value))
  : option string :=
  match props with
  | [] => None
  | (p, s) :: rest =>
      match lookup p fields with
      | VUndef => ill_typed_field rest fields
      | v => if has_type (ptype s) v && in_enum (enum s) v
             then ill_typed_field rest fields
             else Some p
      end
  end.

Definition missing_field (req : list string) (fields : list (string * value))
  : option string :=
  find (fun p => match lookup p fields with VUndef => true | _ => false end) req.

(** The offending field of [args] against the schema of [t]. *)
Definition schema_violation (t : tool) (args : value) : option string :=
  let check fields :=
    match missing_field (required t) fields with
    | Some p => Some p
    | None => ill_typed_field (properties t) fields
    end in
  match args with
  | VObj fields => check fields
  | VUndef => check []
  | _ => Some "arguments"
  end.

(** ** A sample deployment

    A small backend on which the handler can be run: one root key
    [root-1] whose state is its current version number, one standard key
    [std-1], and a gateway that answers every request with a JSON body. *)

Module Sample.

Definition config : environment :=
  {| IBM_CLOUD_API_KEY := Some "api-key";
     KEY_PROTECT_INSTANCE_ID := Some "instance-1";
     env_KEY_PROTECT_URL := None;
     ZOS_CONNECT_URL := Some "https://mainframe:9443";
     ZOS_CONNECT_USERNAME := Some "user";
     ZOS_CONNECT_PASSWORD := Some "pass" |}.

(** Nothing configured. *)
Definition no_config : environment :=
  {| IBM_CLOUD_API_KEY := None;
     KEY_PROTECT_INSTANCE_ID := None;
     env_KEY_PROTECT_URL := None;
     ZOS_CONNECT_URL := None;
     ZOS_CONNECT_USERNAME := None;
     ZOS_CONNECT_PASSWORD := None |}.

Definition key_resource (id kname : string) (extractable : bool) : value :=
  VObj [("id", VStr id); ("name", VStr kname);
        ("type", VStr "application/vnd.ibm.kms.key+json");
        ("extractable", VBool extractable);
        ("crn", VStr ("crn:v1:bluemix:public:kms:us-south:a/1:instance-1:key:" ++ id))].

Definition resources (l : list value) : value :=
  VObj [("result", VObj [("resources", VArr l)])].

(** The text after the first [:] of [s], and the text before it. *)
Fixpoint after_colon (s : string) : string :=
  match s with
  | EmptyString => EmptyString
  | String c s' => if Ascii.eqb c ":" then s' else after_colon s'
  end.

Fixpoint before_colon (s : string) : string :=
  match s with
  | EmptyString => EmptyString
  | String c s' => if Ascii.eqb c ":" then EmptyString else String c (before_colon s')
  end.

(** The key-custody backend; its state is the version of [root-1].  A
    ciphertext is the wrapping version, a colon and the plaintext, so that
    unwrapping selects the version from the ciphertext. *)
Definition key_custody (c : kp_client) (m : kp_method) (params : value) (version : Z)
  : result value * Z :=
  let id := match prop params "id" with inr v => v | inl _ => VUndef end in
  let on_root (k : result value * Z) : result value * Z :=
    if is_string id "root-1" then k
    else if is_string id "std-1"
         then (inl (Error "Bad Request: the key is not a root key"), version)
         else (inl (Error "Not Found: key could not be found"), version) in
  match m with
  | getKeys =>
      (inr (resources [key_resource "root-1" "kek" false;
                       key_resource "std-1" "dek" true]), version)
  | createKey =>
      match prop params "keyCreateBody" with
      | inr (VObj [_; (_, VArr [VObj ((_ :: (_, VStr kname) :: (_, VBool e) :: _))])]) =>
          (inr (resources [key_resource "new-1" kname e]), version)
      | _ => (inl (Error "Bad Request: malformed body"), version)
      end
  | getKey | getKeyMetadata =>
      if is_string id "root-1" then (inr (resources [key_resource "root-1" "kek" false]), version)
      else if is_string id "std-1"
           then (inr (resources [key_resource "std-1" "dek" true]), version)
           else (inl (Error "Not Found: key could not be found"), version)
  | wrapKey =>
      on_root
        match prop params "keyActionWrapBody" with
        | inr (VObj ((_, VStr p) :: _)) =>
            (inr (VObj [("result",
                         VObj [("ciphertext", VStr (string_of_Z version ++ ":" ++ p));
                               ("keyVersion", VObj [("id", VStr (string_of_Z version))])])]),
             version)
        | _ => (inl (Error "Bad Request: plaintext missing"), version)
        end
  | unwrapKey =>
      on_root
        match prop params "keyActionUnwrapBody" with
        | inr (VObj ((_, VStr ct) :: _)) =>
            (inr (VObj [("result",
                         VObj [("plaintext", VStr (after_colon ct));
                               ("keyVersion", VObj [("id", VStr (before_colon ct))])])]),
             version)
        | _ => (inl (Error "Bad Request: ciphertext missing"), version)
        end
  | rotateKey => on_root (inr (VObj [("result", VUndef)]), (version + 1)%Z)
  | deleteKey => (inr (VObj [("result", VUndef)]), version)
  end.

(** The gateway: status 200 and a JSON body that echoes the URL. *)
Definition gateway (req : request) (version : Z) : result response * Z :=
  (inr {| ok := true; status := 200;
          content_type := Some "application/json; charset=utf-8";
          text_body := inr "";
          json_body := inr (VObj [("requested", VStr (url req))]) |},
   version).

Definition backends : world Z :=
  {| new_client := fun _ => None; kp_request := key_custody; fetch := gateway |}.

(** [key=value] pairs joined with an ampersand, for an object whose keys and
    values need no escaping; other inits are not needed by the examples. *)
Fixpoint query_pairs (fields : list (string * value)) : string :=
  match fields with
  | [] => ""
  | [(k, v)] => k ++ "=" ++ string_form v
  | (k, v) :: rest => k ++ "=" ++ string_form v ++ "&" ++ query_pairs rest
  end.

Definition node : runtime :=
  {| URLSearchParams_toString := fun init =>
       match init with
       | VObj fields => inr (query_pairs fields)
       | _ => inl (TypeError "unsupported init")
       end |}.

(** A fresh process: no client yet, [root-1] at version 1, nothing sent. *)
Definition start : process Z :=
  {| keyProtectClient := None; remote := 1%Z; calls := [] |}.

(** One request against the sample deployment, from a fresh process. *)
Definition run (name : string) (args : value) : result tool_result * process Z :=
  call_tool node config backends name args start.

(** The client that the first Key Protect request creates. *)
Definition client : kp_client :=
  {| apikey := "api-key"; serviceUrl := "https://us-south.kms.cloud.ibm.com" |}.

Definition with_client : process Z :=
  {| keyProtectClient := Some client; remote := 1%Z; calls := [] |}.

(** A data encryption key, wrapped under [root-1] and then left behind by
    a rotation of [root-1]. *)
Definition dek : value := VStr "c2VjcmV0LWRlaw==".

Definition wrap_dek : list (string * value) :=
  [("key_id", VStr "root-1"); ("plaintext", dek); ("aad", VUndef)].

Definition rotated : process Z :=
  serve node config backends
    [("key_protect_wrap_key", VObj wrap_dek);
     ("key_protect_rotate_key", VObj [("key_id", VStr "root-1")])]
    start.

(** The arguments of an unwrap that also names a key version. *)
Definition unwrap_dek (keyVersion : value) : list (string * value) :=
  [("key_id", VStr "root-1"); ("ciphertext", VStr "1:c2VjcmV0LWRlaw==");
   ("aad", VUndef); ("keyVersion", keyVersion)].

(** A call of a service operation whose path has a placeholder. *)
Definition customer_call (path_params : value) : list (string * value) :=
  [("service_name", VStr "accounts"); ("operation", VStr "/customers/{id}");
   ("method", VStr "GET"); ("path_params", path_params)].

Definition create_root_key : list (string * value) :=
  [("name", VStr "k1"); ("type", VStr "root_key"); ("extractable", VBool true)].

End Sample.

(** ** Properties *)

Definition kp_configured (env : environment) : bool :=
  env_truthy (IBM_CLOUD_API_KEY env) && env_truthy (KEY_PROTECT_INSTANCE_ID env).

Definition zos_configured (env : environment) : bool :=
  env_truthy (ZOS_CONNECT_URL env).

(** The SDK method that the [case] of a Key Protect tool calls. *)
Definition kp_method_of (t : kp_tool) : kp_method :=
  match t with
  | key_protect_list_keys => getKeys
  | key_protect_create_key => createKey
  | key_protect_get_key => getKey
  | key_protect_wrap_key => wrapKey
  | key_protect_unwrap_key => unwrapKey
  | key_protect_rotate_key => rotateKey
  | key_protect_delete_key => deleteKey
  | key_protect_get_key_policies => getKeyMetadata
  end.

(** What the [catch] block makes of the outcome of the [try] block. *)
Definition caught {S : Type} (r : result tool_result * process S)
  : result tool_result * process S :=
  match r with
  | (inr res, st) => (inr res, st)
  | (inl e, st) => (inr (text_result (Str ("Error: " ++ message e))), st)
  end.

(** The [keyResource] that [key_protect_create_key] builds from the fields
    of its arguments. *)
Definition keyResource_of (fs : list (string * value)) : list (string * value) :=
  set_if (lookup "payload" fs)
    (set_if (lookup "description" fs)
       [("type", VStr "application/vnd.ibm.kms.key+json");
        ("name", lookup "name" fs);
        ("extractable",
         if is_string (lookup "type" fs) "root_key" then VBool false
         else or (lookup "extractable" fs) (VBool false))]
       "description" (lookup "description" fs))
    "payload" (lookup "payload" fs).

(** The parameters that the [case] of a Key Protect tool passes to the SDK,
    for an arguments object with fields [fs] ([kp_handler_run] below shows
    that these are the parameters sent). *)
Definition kp_params (env : environment) (t : kp_tool) (fs : list (string * value))
  : value :=
  match t with
  | key_protect_list_keys =>
      VObj [("bluemixInstance", bluemixInstance env);
            ("limit", or (lookup "limit" fs) (VNum 100));
            ("offset", or (lookup "offset" fs) (VNum 0));
            ("state", lookup "state" fs)]
  | key_protect_create_key =>
      VObj [("bluemixInstance", bluemixInstance env);
            ("keyCreateBody",
             VObj [("metadata",
                    VObj [("collectionType", VStr "application/vnd.ibm.kms.key+json");
                          ("collectionTotal", VNum 1)]);
                   ("resources", VArr [VObj (keyResource_of fs)])])]
  | key_protect_get_key | key_protect_get_key_policies =>
      VObj [("bluemixInstance", bluemixInstance env); ("id", lookup "key_id" fs)]
  | key_protect_wrap_key =>
      VObj [("id", lookup "key_id" fs); ("bluemixInstance", bluemixInstance env);
            ("keyActionWrapBody",
             VObj (set_if (lookup "aad" fs) [("plaintext", lookup "plaintext" fs)]
                     "aad" (lookup "aad" fs)))]
  | key_protect_unwrap_key =>
      VObj [("id", lookup "key_id" fs); ("bluemixInstance", bluemixInstance env);
            ("keyActionUnwrapBody",
             VObj (set_if (lookup "aad" fs) [("ciphertext", lookup "ciphertext" fs)]
                     "aad" (lookup "aad" fs)))]
  | key_protect_rotate_key =>
      VObj (set_if (lookup "payload" fs)
              [("id", lookup "key_id" fs); ("bluemixInstance", bluemixInstance env)]
              "keyActionRotateBody" (VObj [("payload", lookup "payload" fs)]))
  | key_protect_delete_key =>
      VObj [("bluemixInstance", bluemixInstance env); ("id", lookup "key_id" fs);
            ("force", or (lookup "force" fs) (VBool false))]
  end.

(** The process after one SDK call. *)
Definition after_kp {S : Type} (w : world S) (c : kp_client) (m : kp_method)
    (params : value) (st : process S) : process S :=
  {| keyProtectClient := keyProtectClient st;
     remote := snd (kp_request w c m params (remote st));
     calls := List.app (calls st) [KpCall m params] |}.

(** The process after one request to the gateway. *)
Definition after_fetch {S : Type} (w : world S) (req : request) (st : process S)
  : process S :=
  {| keyProtectClient := keyProtectClient st;
     remote := snd (fetch w req (remote st));
     calls := List.app (calls st) [Fetch req] |}.

(** The endpoint that the [case] of a z/OS Connect tool passes to
    [callZosConnect], for an arguments object with fields [fs]. *)
Definition zos_endpoint (rt : runtime) (t : zos_tool) (fs : list (string * value))
  : result string :=
  match t with
  | zos_connect_list_services => inr "/zosConnect/services"
  | zos_connect_get_service =>
      and_then (to_string (lookup "service_name" fs)) (fun name_text =>
      inr ("/zosConnect/services/" ++ name_text))
  | zos_connect_call_service =>
      and_then (call_service_path (lookup "service_name" fs) (lookup "operation" fs)
                  (lookup "path_params" fs)) (fun endpoint =>
      if truthy (lookup "query_params" fs) then
        and_then (URLSearchParams_toString rt (lookup "query_params" fs)) (fun q =>
        inr (endpoint ++ "?" ++ q))
      else inr endpoint)
  | zos_connect_list_apis => inr "/zosConnect/apis"
  | zos_connect_health => inr "/zosConnect/health"
  end.

(** The request that the tool has [callZosConnect] send ([zos_handler_run]
    below shows that it is the request sent). *)
Definition zos_request (rt : runtime) (env : environment) (t : zos_tool)
    (fs : list (string * value)) : result request :=
  and_then (zos_endpoint rt t fs) (fun endpoint =>
  match t with
  | zos_connect_call_service =>
      inr (fetch_request env endpoint (or (lookup "method" fs) (VStr "POST"))
             (default (lookup "payload" fs) VNull))
  | _ => inr (fetch_request env endpoint (VStr "GET") VNull)
  end).


(** [encodeURIComponent(String(v))]. *)
Definition encoded (v : value) : result string :=
  and_then (to_string v) encodeURIComponent.

(** The parameters with their values encoded, up to the first value whose
    conversion or encoding throws. *)
Fixpoint encode_all (params : list (string * value)) : result (list (string * string)) :=
  match params with
  | [] => inr []
  | (key, v) :: rest =>
      and_then (encoded v) (fun text =>
      and_then (encode_all rest) (fun texts => inr ((key, text) :: texts)))
  end.


(** [m] can only return values that satisfy [P]. *)
Definition returns {S A : Type} (P : A -> Prop) (m : M S A) : Prop :=
  forall st a st', m st = (inr a, st') -> P a.

(** [m] leaves the module-level [keyProtectClient] as it is. *)
Definition keeps_client {S A : Type} (m : M S A) : Prop :=
  forall st, keyProtectClient (snd (m st)) = keyProtectClient st.

(** The client that [getKeyProtectClient] creates. *)
Definition configured_client (env : environment) : kp_client :=
  {| apikey := env_string (IBM_CLOUD_API_KEY env); serviceUrl := KEY_PROTECT_URL env |}.

(** The client handle is only ever the one made from the configuration. *)
Definition client_coherent {S : Type} (env : environment) (st : process S) : Prop :=
  keyProtectClient st = None
  \/ (kp_configured env = true /\ keyProtectClient st = Some (configured_client env)).

(** The text of a success: the JSON text of some payload. *)
Definition json_result (r : tool_result) : Prop :=
  exists payload, r = text_result (Json payload).

(** Whether the text of a content item is a string:
    [JSON.stringify(undefined)] is [undefined], not a string. *)
Definition is_text (t : text) : bool :=
  match t with
  | Json VUndef => false
  | _ => true
  end.

(** The three kinds of text the handler builds. *)
Definition built_text (name : string) (t : text) : Prop :=
  (exists payload, t = Json payload)
  \/ (exists diagnostic, t = Str ("Error: " ++ diagnostic))
  \/ t = Str ("Unknown tool: " ++ name).

(** A structured result: one text item whose text is a string, the JSON
    text of a payload or a diagnostic. *)
Definition structured (name : string) (r : tool_result) : Prop :=
  exists t, r = text_result t /\ is_text t = true /\ built_text name t.

(** The two tools that serialise what they find in the backend's response
    as it is. *)
Definition lookup_tool (name : string) : bool :=
  match kp_case name with
  | Some key_protect_get_key | Some key_protect_get_key_policies => true
  | _ => false
  end.

(** What the handler can return for [name]: a text of one of the three
    kinds, which is a string unless the tool is one of the two lookups. *)
Definition answer (name : string) (r : tool_result) : Prop :=
  exists t, r = text_result t
            /\ built_text name t
            /\ (lookup_tool name = false -> is_text t = true).

Definition answer_or_none (name : string) (o : option tool_result) : Prop :=
  match o with
  | Some r => answer name r
  | None => True
  end.

(** The text of a success with a payload that is not [undefined]. *)
Definition defined_json (r : tool_result) : Prop :=
  exists payload, r = text_result (Json payload) /\ payload <> VUndef.

(** [response.json()] parses a JSON text: it never gives [undefined]. *)
Definition json_bodies_defined {S : Type} (w : world S) : Prop :=
  forall req s resp v,
    fst (fetch w req s) = inr resp -> json_body resp = inr v -> v <> VUndef.

(** [m] leaves the client handle as it is, or creates it from the
    configuration when there was none. *)
Definition creates_client_at_most {S A : Type} (env : environment) (m : M S A) : Prop :=
  forall st,
    keyProtectClient (snd (m st)) = keyProtectClient st
    \/ (keyProtectClient st = None /\ kp_configured env = true
        /\ keyProtectClient (snd (m st)) = Some (configured_client env)).

(** [m] issues no backend call. *)
Definition silent {S A : Type} (m : M S A) : Prop :=
  forall st, calls (snd (m st)) = calls st.

(** [m] issues no backend call, or one call that satisfies [Q]. *)
Definition at_most_one_call {S A : Type} (Q : event -> Prop) (m : M S A) : Prop :=
  forall st,
    calls (snd (m st)) = calls st
    \/ exists ev, calls (snd (m st)) = (calls st ++ [ev])%list /\ Q ev.

(** An SDK call made for the tool [name]: the method of its [case], with
    the configured instance id as [bluemixInstance]. *)
Definition kp_event (env : environment) (name : string) (ev : event) : Prop :=
  exists t params,
    kp_case name = Some t
    /\ ev = KpCall (kp_method_of t) params
    /\ prop params "bluemixInstance" = inr (bluemixInstance env).

(** A request made by [callZosConnect]: the gateway is configured and the
    request is [fetch_request] of an endpoint under [/zosConnect/]. *)
Definition zos_event (env : environment) (ev : event) : Prop :=
  zos_configured env = true
  /\ exists endpoint method body,
       ev = Fetch (fetch_request env endpoint method body)
       /\ startsWith endpoint "/zosConnect/" = true.

Definition is_fetch (ev : event) : bool :=
  match ev with
  | Fetch _ => true
  | KpCall _ _ => false
  end.

Definition is_kp_call (ev : event) : bool :=
  match ev with
  | KpCall _ _ => true
  | Fetch _ => false
  end.

(** [c] occurs in [s]. *)
Fixpoint has_char (c : ascii) (s : string) : bool :=
  match s with
  | EmptyString => false
  | String x s' => Ascii.eqb c x || has_char c s'
  end.


(** *** Path templates with distinct placeholders

    A path seen as literal text and placeholders; [render] gives back the
    path, and [fill] is what the path-parameter loop should make of it. *)

Inductive piece : Type :=
| Lit (s : string)
| Hole (key : string).

Fixpoint render (t : list piece) : string :=
  match t with
  | [] => ""
  | Lit s :: rest => s ++ render rest
  | Hole key :: rest => "{" ++ key ++ "}" ++ render rest
  end.

Fixpoint holes (t : list piece) : list string :=
  match t with
  | [] => []
  | Lit _ :: rest => holes rest
  | Hole key :: rest => key :: holes rest
  end.

(** The placeholder [key] replaced by the text [rep]. *)
Fixpoint fill1 (key rep : string) (t : list piece) : list piece :=
  match t with
  | [] => []
  | Lit s :: rest => Lit s :: fill1 key rep rest
  | Hole k :: rest => (if k =? key then Lit rep else Hole k) :: fill1 key rep rest
  end.

(** Each parameter in turn replaces its placeholder by its encoded value. *)
Fixpoint fill (params : list (string * string)) (t : list piece) : list piece :=
  match params with
  | [] => t
  | (key, text) :: rest => fill rest (fill1 key text t)
  end.

Definition brace_free (s : string) : bool :=
  negb (has_char "{" s) && negb (has_char "}" s).

Definition piece_text (p : piece) : string :=
  match p with
  | Lit s => s
  | Hole key => key
  end.

(** Neither the literal text nor a placeholder's name holds a brace, and
    no placeholder occurs twice. *)
Definition well_formed (t : list piece) : Prop :=
  Forall (fun p => brace_free (piece_text p) = true) t /\ NoDup (holes t).




(** [k.p] for a key [k] that is neither [undefined] nor [null]. *)
Definition field (k : value) (p : string) : value :=
  match prop k p with
  | inr v => v
  | inl _ => VUndef
  end.

(** The summary of a key that [key_protect_list_keys] returns. *)
Definition summary_of (k : value) : value :=
  VObj [("id", field k "id"); ("name", field k "name"); ("type", field k "type");
        ("state", field k "state"); ("extractable", field k "extractable");
        ("crn", field k "crn"); ("createdBy", field k "createdBy");
        ("creationDate", field k "creationDate");
        ("lastRotateDate", field k "lastRotateDate"); ("deleted", field k "deleted")].

(** The payload that a z/OS Connect tool returns around the value [v] that
    [callZosConnect] gave it. *)
Definition zos_reply (t : zos_tool) (fs : list (string * value)) (v : value) : value :=
  match t with
  | zos_connect_call_service =>
      VObj [("service", lookup "service_name" fs);
            ("operation", or (lookup "operation" fs) (VStr "/"));
            ("method", or (lookup "method" fs) (VStr "POST"));
            ("response", v)]
  | _ => v
  end.

(** What [callZosConnect] makes of the response to its request. *)
Definition response_value (resp : response) : result value :=
  if negb (ok resp) then
    and_then (text_body resp) (fun errorText =>
    inl (Error ("z/OS Connect error " ++ string_of_Z (status resp) ++ ": " ++ errorText)))
  else
    match content_type resp with
    | Some contentType =>
        if negb (contentType =? "") && includes contentType "application/json"
        then json_body resp
        else and_then (text_body resp) (fun t => inr (VStr t))
    | None => and_then (text_body resp) (fun t => inr (VStr t))
    end.


(** ** Further sample deployments

    Environments with one integration configured, a gateway with trouble
    and a Key Protect constructor that throws, on which the properties
    below are run. *)

Module Cases.

(** Only the gateway configured. *)
Definition gateway_only : environment :=
  {| IBM_CLOUD_API_KEY := None;
     KEY_PROTECT_INSTANCE_ID := None;
     env_KEY_PROTECT_URL := None;
     ZOS_CONNECT_URL := Some "https://mainframe:9443";
     ZOS_CONNECT_USERNAME := None;
     ZOS_CONNECT_PASSWORD := None |}.

(** Only Key Protect configured. *)
Definition key_protect_only : environment :=
  {| IBM_CLOUD_API_KEY := Some "api-key";
     KEY_PROTECT_INSTANCE_ID := Some "instance-1";
     env_KEY_PROTECT_URL := None;
     ZOS_CONNECT_URL := None;
     ZOS_CONNECT_USERNAME := None;
     ZOS_CONNECT_PASSWORD := None |}.

(** A gateway with trouble: the health endpoint cannot be reached, the
    API list answers 503, the service [legacy] answers in plain text, and
    everything else answers as [gateway] does. *)
Definition troubled_gateway (req : request) (version : Z) : result response * Z :=
  if includes (url req) "/zosConnect/health" then
    (inl (TypeError "fetch failed"), version)
  else if includes (url req) "/zosConnect/apis" then
    (inr {| ok := false; status := 503; content_type := Some "text/plain";
            text_body := inr "Service Unavailable";
            json_body := inl (SyntaxError "Unexpected token S in JSON at position 0") |},
     version)
  else if includes (url req) "/zosConnect/services/legacy" then
    (inr {| ok := true; status := 200; content_type := Some "text/plain";
            text_body := inr "RC=0";
            json_body := inl (SyntaxError "Unexpected token R in JSON at position 0") |},
     version)
  else Sample.gateway req version.

Definition troubled_backends : world Z :=
  {| new_client := fun _ => None; kp_request := Sample.key_custody; fetch := troubled_gateway |}.

(** A client whose constructor rejects the API key. *)
Definition rejecting_backends : world Z :=
  {| new_client := fun _ => Some (Error "apikey property is invalid");
     kp_request := Sample.key_custody; fetch := Sample.gateway |}.

(** A key-custody backend that answers a lookup with an empty result:
    [getKey] without [resources], [getKeyMetadata] without [result]. *)
Definition bare_custody (c : kp_client) (m : kp_method) (params : value) (version : Z)
  : result value * Z :=
  match m with
  | getKey => (inr (VObj [("result", VObj [])]), version)
  | getKeyMetadata => (inr (VObj [("status", VNum 204)]), version)
  | _ => Sample.key_custody c m params version
  end.

Definition bare_backends : world Z :=
  {| new_client := fun _ => None; kp_request := bare_custody; fetch := Sample.gateway |}.

(** A path with two distinct placeholders. *)
Definition order_path : list piece :=
  [Lit "/zosConnect/services/accounts/customers/"; Hole "id"; Lit "/orders/";
   Hole "order"].

End Cases.


(** *** Strings *)

Example base64_basic_auth : base64 "user:pass" = "dXNlcjpwYXNz".
Proof. reflexivity. Qed.

Example encodeURIComponent_reserved :
  encodeURIComponent "a b/{c}$&=~" = inr "a%20b%2F%7Bc%7D%24%26%3D~".
Proof. reflexivity. Qed.

(** The string ["\ud800"] of a JSON text: one surrogate without partner. *)
Definition lone_d800 : string :=
  String (ascii_of_nat 237) (String (ascii_of_nat 160) (String (ascii_of_nat 128) "")).

Example encodeURIComponent_lone_surrogate :
  encodeURIComponent lone_d800 = inl (URIError "URI malformed").
Proof. reflexivity. Qed.

(** U+D7FF, the last code point before the surrogates, is encoded. *)
Example encodeURIComponent_before_surrogates :
  encodeURIComponent
    (String (ascii_of_nat 237) (String (ascii_of_nat 159) (String (ascii_of_nat 191) "")))
  = inr "%ED%9F%BF".
Proof. reflexivity. Qed.

(** The code units of ["a"], e-acute and an emoji (U+1F600, the surrogates
    [D83D] and [DE00]). *)
Example code_units_of_characters :
  code_units
    (String "a" (String (ascii_of_nat 195) (String (ascii_of_nat 169)
       (String (ascii_of_nat 240) (String (ascii_of_nat 159)
          (String (ascii_of_nat 152) (String (ascii_of_nat 128) "")))))))
  = ["a";
     String (ascii_of_nat 195) (String (ascii_of_nat 169) "");
     String (ascii_of_nat 237) (String (ascii_of_nat 160) (String (ascii_of_nat 189) ""));
     String (ascii_of_nat 237) (String (ascii_of_nat 184) (String (ascii_of_nat 128) ""))]%list.
Proof. reflexivity. Qed.

Example to_string_array :
  to_string (VArr [VNum 1; VNull; VStr "x"; VArr [VBool true; VObj []]])
  = inr "1,,x,true,[object Object]".
Proof. reflexivity. Qed.

Example to_string_own_toString :
  to_string (VObj [("toString", VNum 1)])
  = inl (TypeError "Cannot convert object to primitive value")
  /\ to_string (VArr [VStr "a"; VObj [("toString", VNull)]])
     = inl (TypeError "Cannot convert object to primitive value")
  /\ to_string (VObj [("valueOf", VNum 1)]) = inr "[object Object]".
Proof. repeat split; reflexivity. Qed.

Example to_string_numbers :
  to_string (VNum 42) = inr "42"
  /\ to_string (VNum (-7)) = inr "-7"
  /\ to_string (VNum 999999999999999900000) = inr "999999999999999900000"
  /\ to_string (VNum 1000000000000000000000) = inr "1e+21"
  /\ to_string (VNum (-1500000000000000000000)) = inr "-1.5e+21"
  /\ to_string (VNum 12300000000000000000000000) = inr "1.23e+25"
  /\ encoded (VNum 1000000000000000000000) = inr "1e%2B21".
Proof. repeat split; reflexivity. Qed.

Lemma hex_digit_not_dollar (n : N) : Ascii.eqb "$" (hex_digit n) = false.
Proof.
  unfold hex_digit. generalize (N.to_nat n). intros k.
  do 16 (destruct k as [|k]; [reflexivity|]). reflexivity.
Qed.

(** [encodeURIComponent] escapes [$], so its result holds no replacement
    pattern and [replace] inserts it as it is. *)
Lemma percent_encode_no_dollar (s : string) :
  includes (percent_encode s) "$" = false.
Proof.
  induction s as [|c s IH]; [reflexivity|].
  cbn [percent_encode]. destruct (uri_unreserved c) eqn:E.
  - cbn [includes startsWith].
    destruct (Ascii.eqb_spec "$" c) as [<-|_]; [discriminate E|].
    cbn [andb]. exact IH.
  - cbn [includes startsWith]. rewrite !hex_digit_not_dollar. cbn [andb Ascii.eqb].
    exact IH.
Qed.

Lemma prefixes_disjoint (name : string) :
  startsWith name "zos_connect_" = true -> startsWith name "key_protect_" = false.
Proof.
  destruct name as [|c rest]; cbn [startsWith]; [discriminate|].
  destruct (Ascii.eqb_spec "z" c) as [<-|]; [reflexivity | discriminate].
Qed.

Lemma kp_case_in (name : string) (t : kp_tool) :
  kp_case name = Some t -> In name tool_names.
Proof.
  unfold kp_case.
  repeat match goal with
         | |- context [?a =? ?b] =>
             destruct (String.eqb_spec a b) as [->|_]; [intros _; simpl; tauto|]
         end.
  discriminate.
Qed.

Lemma zos_case_in (name : string) (t : zos_tool) :
  zos_case name = Some t -> In name tool_names.
Proof.
  unfold zos_case.
  repeat match goal with
         | |- context [?a =? ?b] =>
             destruct (String.eqb_spec a b) as [->|_]; [intros _; simpl; tauto|]
         end.
  discriminate.
Qed.

Lemma kp_case_prefix (name : string) (t : kp_tool) :
  kp_case name = Some t -> startsWith name "key_protect_" = true.
Proof.
  unfold kp_case.
  repeat match goal with
         | |- context [?a =? ?b] =>
             destruct (String.eqb_spec a b) as [->|_]; [intros _; reflexivity|]
         end.
  discriminate.
Qed.

Lemma zos_case_prefix (name : string) (t : zos_tool) :
  zos_case name = Some t -> startsWith name "zos_connect_" = true.
Proof.
  unfold zos_case.
  repeat match goal with
         | |- context [?a =? ?b] =>
             destruct (String.eqb_spec a b) as [->|_]; [intros _; reflexivity|]
         end.
  discriminate.
Qed.

Lemma not_in_kp_case (name : string) : ~ In name tool_names -> kp_case name = None.
Proof.
  intros H. destruct (kp_case name) eqn:E; [|reflexivity].
  elim H. eapply kp_case_in; eassumption.
Qed.

Lemma not_in_zos_case (name : string) : ~ In name tool_names -> zos_case name = None.
Proof.
  intros H. destruct (zos_case name) eqn:E; [|reflexivity].
  elim H. eapply zos_case_in; eassumption.
Qed.

Section Properties.

Context {S : Type}.
Variable rt : runtime.
Variable env : environment.
Variable w : world S.

(** *** The client handle *)

Lemma getKeyProtectClient_unconfigured (st : process S) :
  keyProtectClient st = None -> kp_configured env = false ->
  getKeyProtectClient env w st = (inr None, st).
Proof.
  unfold getKeyProtectClient, kp_configured. intros -> ->. reflexivity.
Qed.

Lemma getKeyProtectClient_ready (st st1 : process S) (c : kp_client) :
  getKeyProtectClient env w st = (inr (Some c), st1) ->
  keyProtectClient st1 = Some c /\ remote st1 = remote st /\ calls st1 = calls st.
Proof.
  unfold getKeyProtectClient.
  destruct (keyProtectClient st) as [c0|] eqn:E.
  - intros [= <- <-]. auto.
  - destruct (_ && _); [|discriminate].
    destruct (new_client w _); [discriminate|].
    intros [= <- <-]. auto.
Qed.

Lemma getKeyProtectClient_cached (st : process S) (c : kp_client) :
  keyProtectClient st = Some c -> getKeyProtectClient env w st = (inr (Some c), st).
Proof. unfold getKeyProtectClient. intros ->. reflexivity. Qed.

(** *** The shape of the handler's run *)

Lemma call_tool_kp_unconfigured (name : string) (args : value) (st : process S) :
  startsWith name "key_protect_" = true ->
  getKeyProtectClient env w st = (inr None, st) ->
  call_tool rt env w name args st = (inr (text_result (Str kp_not_configured)), st).
Proof.
  intros Hp Hc.
  unfold call_tool, try_catch, call_tool_body, bind, key_protect_block.
  rewrite Hp. unfold bind. rewrite Hc. reflexivity.
Qed.

Lemma call_tool_zos_unconfigured (name : string) (args : value) (st : process S) :
  startsWith name "zos_connect_" = true ->
  zos_configured env = false ->
  call_tool rt env w name args st = (inr (text_result (Str zos_not_configured)), st).
Proof.
  intros Hp Hc.
  unfold call_tool, try_catch, call_tool_body, bind, key_protect_block, zos_connect_block.
  rewrite (prefixes_disjoint _ Hp), Hp.
  unfold zos_configured in Hc. rewrite Hc. reflexivity.
Qed.

(** A Key Protect tool with a client at hand: the [case] runs, and the
    [catch] block turns a thrown error into a diagnostic. *)
Lemma call_tool_kp (name : string) (t : kp_tool) (args : value)
    (st st1 : process S) (c : kp_client) :
  kp_case name = Some t ->
  getKeyProtectClient env w st = (inr (Some c), st1) ->
  call_tool rt env w name args st = caught (kp_handler env w t c args st1).
Proof.
  intros Ht Hc.
  unfold call_tool, try_catch, call_tool_body, bind, key_protect_block.
  rewrite (kp_case_prefix _ _ Ht). unfold bind. rewrite Hc, Ht.
  unfold bind, caught, ret.
  destruct (kp_handler env w t c args st1) as [[e|r] st']; reflexivity.
Qed.

Lemma call_tool_zos (name : string) (t : zos_tool) (args : value) (st : process S) :
  zos_case name = Some t ->
  zos_configured env = true ->
  call_tool rt env w name args st = caught (zos_handler rt env w t args st).
Proof.
  intros Ht Hc.
  unfold call_tool, try_catch, call_tool_body, bind, key_protect_block, zos_connect_block.
  rewrite (prefixes_disjoint _ (zos_case_prefix _ _ Ht)), (zos_case_prefix _ _ Ht).
  unfold zos_configured in Hc. rewrite Hc, Ht. cbn [negb ret].
  unfold bind, caught, ret.
  destruct (zos_handler rt env w t args st) as [[e|r] st']; reflexivity.
Qed.

(** A name that matches no [case]: control reaches the last [return]
    unless a configuration check returned first. *)
Lemma call_tool_no_case (name : string) (args : value) (st : process S) :
  kp_case name = None -> zos_case name = None ->
  (startsWith name "key_protect_" = true ->
   exists c st1, getKeyProtectClient env w st = (inr (Some c), st1)) ->
  (startsWith name "zos_connect_" = true -> zos_configured env = true) ->
  exists st1,
    call_tool rt env w name args st
    = (inr (text_result (Str ("Unknown tool: " ++ name))), st1)
    /\ remote st1 = remote st /\ calls st1 = calls st.
Proof.
  intros Hk Hz Hkp Hzos.
  unfold call_tool, try_catch, call_tool_body, bind, key_protect_block, zos_connect_block.
  rewrite Hk, Hz.
  destruct (startsWith name "key_protect_") eqn:Ep.
  - destruct (Hkp eq_refl) as (c & st1 & Hc).
    unfold bind. rewrite Hc. cbn [ret].
    destruct (getKeyProtectClient_ready _ _ _ Hc) as (_ & Hr & Hl).
    destruct (startsWith name "zos_connect_") eqn:Eq.
    + unfold zos_configured in Hzos. rewrite (Hzos eq_refl). cbn [negb ret]. eauto.
    + cbn [ret]. eauto.
  - cbn [ret].
    destruct (startsWith name "zos_connect_") eqn:Eq.
    + unfold zos_configured in Hzos. rewrite (Hzos eq_refl). cbn [negb ret]. eauto.
    + cbn [ret]. eauto.
Qed.

(** *** What a computation can return *)

Lemma returns_ret {A : Type} (P : A -> Prop) (a : A) : P a -> returns P (ret a : M S A).
Proof. intros H st a' st' [= <- _]. exact H. Qed.

Lemma returns_throw {A : Type} (P : A -> Prop) (e : exn) : returns P (throw e : M S A).
Proof. intros st a st' [=]. Qed.

Lemma returns_bind {A B : Type} (P : B -> Prop) (m : M S A) (k : A -> M S B) :
  (forall a, returns P (k a)) -> returns P (bind m k).
Proof.
  intros H st b st'. unfold bind.
  destruct (m st) as [[e|a] st1]; [discriminate|]. apply H.
Qed.

Lemma returns_weaken {A : Type} (P Q : A -> Prop) (m : M S A) :
  (forall a, P a -> Q a) -> returns P m -> returns Q m.
Proof. intros H Hm st a st' E. eauto. Qed.

Lemma returns_bind_val {A B : Type} (R : A -> Prop) (P : B -> Prop)
    (m : M S A) (k : A -> M S B) :
  returns R m -> (forall a, R a -> returns P (k a)) -> returns P (bind m k).
Proof.
  intros Hm Hk st b st'. unfold bind.
  destruct (m st) as [[e|a] st1] eqn:E; [discriminate|].
  apply Hk. exact (Hm _ _ _ E).
Qed.

Ltac returns_json :=
  repeat (apply returns_bind; intro);
  apply returns_ret; eexists; reflexivity.

Ltac returns_defined :=
  repeat (apply returns_bind; intro);
  apply returns_ret; eexists; split; [reflexivity | discriminate].

Lemma kp_handler_json (t : kp_tool) (c : kp_client) (args : value) :
  returns json_result (kp_handler env w t c args).
Proof.
  destruct t; cbn [kp_handler];
    unfold list_keys, create_key, get_key, wrap_key, unwrap_key, rotate_key,
      delete_key, get_key_policies;
    returns_json.
Qed.

(** Every Key Protect tool but the two lookups builds its payload itself. *)
Lemma kp_handler_defined (t : kp_tool) (c : kp_client) (args : value) :
  t <> key_protect_get_key -> t <> key_protect_get_key_policies ->
  returns defined_json (kp_handler env w t c args).
Proof.
  intros H1 H2.
  destruct t; try contradiction; cbn [kp_handler];
    unfold list_keys, create_key, wrap_key, unwrap_key, rotate_key, delete_key;
    returns_defined.
Qed.

(** What [callZosConnect] returns is the parsed body or a string. *)
Lemma callZosConnect_defined (endpoint : string) (method body : value) :
  json_bodies_defined w ->
  returns (fun v => v <> VUndef) (callZosConnect env w endpoint method body).
Proof.
  intros Hw st v st'. unfold callZosConnect.
  destruct (negb (env_truthy (ZOS_CONNECT_URL env))); [discriminate|].
  unfold bind, do_fetch, eval, ret, throw.
  destruct (fetch w _ (remote st)) as [[e|resp] s'] eqn:Ef; [discriminate|].
  assert (fst (fetch w (fetch_request env endpoint (default method (VStr "GET"))
                          (default body VNull)) (remote st)) = inr resp) as Hf
      by (rewrite Ef; reflexivity).
  destruct (negb (ok resp)).
  - destruct (text_body resp); discriminate.
  - assert (forall t0 : result string,
              match t0 with
              | inl e => (inl e, {| keyProtectClient := keyProtectClient st;
                                    remote := s';
                                    calls := List.app (calls st)
                                               [Fetch (fetch_request env endpoint
                                                         (default method (VStr "GET"))
                                                         (default body VNull))] |})
              | inr a => (inr (VStr a), {| keyProtectClient := keyProtectClient st;
                                          remote := s';
                                          calls := List.app (calls st)
                                                     [Fetch (fetch_request env endpoint
                                                               (default method (VStr "GET"))
                                                               (default body VNull))] |})
              end = (inr v, st') -> v <> VUndef) as Htext.
    { intros [e|a] E; [discriminate E|]. injection E as <- _. discriminate. }
    destruct (content_type resp) as [ct|]; [|apply Htext].
    destruct (negb (ct =? "") && includes ct "application/json"); [|apply Htext].
    intros E. destruct (json_body resp) as [e|v0] eqn:Ej; [discriminate E|].
    injection E as <- _. exact (Hw _ _ _ _ Hf Ej).
Qed.

Lemma zos_handler_json (t : zos_tool) (args : value) :
  returns json_result (zos_handler rt env w t args).
Proof.
  destruct t; cbn [zos_handler];
    unfold list_services, get_service, call_service, list_apis, health;
    returns_json.
Qed.

Lemma zos_handler_defined (t : zos_tool) (args : value) :
  json_bodies_defined w ->
  returns defined_json (zos_handler rt env w t args).
Proof.
  intros Hw.
  assert (forall endpoint,
            returns defined_json
              (bind (callZosConnect env w endpoint VUndef VUndef)
                 (fun v => ret (text_result (Json v))))) as Hpass.
  { intros endpoint.
    eapply returns_bind_val; [apply callZosConnect_defined; exact Hw|].
    intros v Hv. apply returns_ret. exists v. split; [reflexivity | exact Hv]. }
  destruct t; cbn [zos_handler];
    unfold list_services, get_service, call_service, list_apis, health;
    try apply Hpass.
  - do 2 (apply returns_bind; intro). apply Hpass.
  - returns_defined.
Qed.

Lemma is_text_defined (payload : value) : payload <> VUndef -> is_text (Json payload) = true.
Proof. destruct payload; try reflexivity. intros H. elim H. reflexivity. Qed.

Lemma defined_answer (name : string) (r : tool_result) : defined_json r -> answer name r.
Proof.
  intros (payload & -> & Hp). exists (Json payload). split; [reflexivity|].
  split; [left; eauto | intros _; exact (is_text_defined _ Hp)].
Qed.

Lemma diagnostic_answer (name diagnostic : string) :
  answer name (text_result (Str ("Error: " ++ diagnostic))).
Proof.
  eexists. split; [reflexivity|]. split; [right; left; eauto | reflexivity].
Qed.

Lemma key_protect_block_answer (name : string) (args : value) :
  returns (answer_or_none name) (key_protect_block env w name args).
Proof.
  unfold key_protect_block.
  destruct (startsWith name "key_protect_"); [|apply returns_ret; exact I].
  apply returns_bind. intros [c|].
  - destruct (kp_case name) as [t|] eqn:Ht; [|apply returns_ret; exact I].
    intros st o st'. unfold bind.
    destruct (kp_handler env w t c args st) as [[e|r] st1] eqn:E; [discriminate|].
    intros [= <- _]. cbn [answer_or_none].
    destruct (kp_handler_json _ _ _ _ _ _ E) as [payload ->].
    exists (Json payload). split; [reflexivity|]. split; [left; eauto|].
    unfold lookup_tool. rewrite Ht. intros Hl.
    assert (defined_json (text_result (Json payload))) as (p & Hp & Hd).
    { eapply kp_handler_defined; [| |exact E]; intros ->; discriminate Hl. }
    injection Hp as ->. exact (is_text_defined _ Hd).
  - apply returns_ret. exact (diagnostic_answer name _).
Qed.

Lemma zos_connect_block_answer (name : string) (args : value) :
  json_bodies_defined w ->
  returns (answer_or_none name) (zos_connect_block rt env w name args).
Proof.
  intros Hw. unfold zos_connect_block.
  destruct (startsWith name "zos_connect_"); [|apply returns_ret; exact I].
  destruct (negb _).
  - apply returns_ret. exact (diagnostic_answer name _).
  - destruct (zos_case name) as [t|]; [|apply returns_ret; exact I].
    intros st o st'. unfold bind.
    destruct (zos_handler rt env w t args st) as [[e|r] st1] eqn:E; [discriminate|].
    intros [= <- _]. apply defined_answer. eapply zos_handler_defined; eassumption.
Qed.

Lemma call_tool_body_answer (name : string) (args : value) :
  json_bodies_defined w ->
  returns (answer name) (call_tool_body rt env w name args).
Proof.
  intros Hw. unfold call_tool_body. intros st r st'. unfold bind.
  destruct (key_protect_block env w name args st) as [[e|[r1|]] st1] eqn:E1;
    [discriminate| |].
  - intros [= <- _]. exact (key_protect_block_answer _ _ _ _ _ E1).
  - destruct (zos_connect_block rt env w name args st1) as [[e|[r2|]] st2] eqn:E2;
      [discriminate| |].
    + intros [= <- _]. exact (zos_connect_block_answer _ _ Hw _ _ _ E2).
    + intros [= <- _]. eexists. split; [reflexivity|].
      split; [right; right; reflexivity | reflexivity].
Qed.

(** What holds of every invocation.  For every name and every argument
    value, against any backends and from any state of the process, the
    handler returns (it never throws) one content item of type [text]
    whose text is built as the JSON text of a payload, as a diagnostic
    that starts with [Error: ], or as [Unknown tool: ] followed by the
    name; whatever the [try] block throws becomes the diagnostic; and for
    every name but the two lookup tools the text is a string, so that the
    result is a structured one. *)
Lemma call_tool_returns_one_text_item (name : string) (args : value) (st : process S) :
  json_bodies_defined w ->
  exists (t : text) (st' : process S),
    call_tool rt env w name args st = (inr (text_result t), st')
    /\ built_text name t
    /\ (lookup_tool name = false -> structured name (text_result t))
    /\ (forall e st1,
          call_tool_body rt env w name args st = (inl e, st1) ->
          t = Str ("Error: " ++ message e) /\ st' = st1).
Proof.
  intros Hw. unfold call_tool, try_catch.
  destruct (call_tool_body rt env w name args st) as [[e|r] st'] eqn:E.
  - eexists _, st'. split; [reflexivity|]. split; [right; left; eauto|].
    split.
    + intros _. eexists. split; [reflexivity|]. split; [reflexivity|].
      right; left; eauto.
    + intros e0 st1 [= <- <-]. split; reflexivity.
  - destruct (call_tool_body_answer _ _ Hw _ _ _ E) as (t & -> & Hb & Ht).
    exists t, st'. split; [reflexivity|]. split; [exact Hb|]. split.
    + intros Hl. exists t. split; [reflexivity|]. split; [exact (Ht Hl) | exact Hb].
    + intros e0 st1 H. discriminate H.
Qed.

(** C5, evaluated at a lookup that the backend answers without a key.
    When the response to [getKey] has no first resource, or the response
    to [getKeyMetadata] has no [result], the handler serialises
    [undefined]: the content item it returns has no text, which is neither
    the JSON text of a payload nor a diagnostic, and the result is not a
    structured one. *)
Theorem lookup_without_result_returns_no_text :
  forall (fs : list (string * value)) (st st1 : process S) (c : kp_client),
    getKeyProtectClient env w st = (inr (Some c), st1) ->
    (forall (resp : value) (s' : S),
       kp_request w c getKey (kp_params env key_protect_get_key fs) (remote st)
       = (inr resp, s') ->
       first_resource resp = inr VUndef ->
       fst (call_tool rt env w "key_protect_get_key" (VObj fs) st)
       = inr (text_result (Json VUndef)))
    /\ (forall (resp : value) (s' : S),
          kp_request w c getKeyMetadata (kp_params env key_protect_get_key_policies fs)
            (remote st)
          = (inr resp, s') ->
          prop resp "result" = inr VUndef ->
          fst (call_tool rt env w "key_protect_get_key_policies" (VObj fs) st)
          = inr (text_result (Json VUndef)))
    /\ is_text (Json VUndef) = false
    /\ (forall name, ~ structured name (text_result (Json VUndef))).
Proof.
  intros fs st st1 c Hc.
  destruct (getKeyProtectClient_ready _ _ _ Hc) as (_ & Hr & _).
  split; [|split; [|split]].
  - intros resp s' Hk Hf.
    rewrite (call_tool_kp "key_protect_get_key" key_protect_get_key _ _ _ _ eq_refl Hc).
    cbn [kp_handler]. unfold get_key, bind, eval, kp, ret. cbn [prop].
    cbn [kp_params] in Hk. rewrite <- Hr in Hk. rewrite Hk, Hf. reflexivity.
  - intros resp s' Hk Hf.
    rewrite (call_tool_kp "key_protect_get_key_policies" key_protect_get_key_policies
               _ _ _ _ eq_refl Hc).
    cbn [kp_handler]. unfold get_key_policies, bind, eval, kp, ret. cbn [prop].
    cbn [kp_params] in Hk. rewrite <- Hr in Hk. rewrite Hk, Hf. reflexivity.
  - reflexivity.
  - intros name (t & Ht & Hs & _).
    assert (t = Json VUndef) as -> by (unfold text_result in Ht; congruence).
    discriminate Hs.
Qed.

(** C10. For a name with the prefix [key_protect_] (respectively
    [zos_connect_]) that is not in the tool list, when that backend is not
    configured the handler returns the backend's configuration diagnostic,
    not the unknown-tool text: the configuration check comes before the
    [switch] on the name.  (The process is in any state it can reach: its
    client handle, if any, was made from the configuration.) *)
Theorem configuration_check_precedes_name_check :
  forall (name : string) (args : value) (st : process S),
    ~ In name tool_names ->
    client_coherent env st ->
    (startsWith name "key_protect_" = true ->
     kp_configured env = false ->
     call_tool rt env w name args st = (inr (text_result (Str kp_not_configured)), st))
    /\ (startsWith name "zos_connect_" = true ->
        zos_configured env = false ->
        call_tool rt env w name args st = (inr (text_result (Str zos_not_configured)), st)).
Proof.
  intros name args st _ Hst. split.
  - intros Hp Hc. apply call_tool_kp_unconfigured; [exact Hp|].
    apply getKeyProtectClient_unconfigured; [|exact Hc].
    destruct Hst as [Hn|[Hk _]]; [exact Hn | congruence].
  - intros Hp Hc. apply call_tool_zos_unconfigured; assumption.
Qed.

(** C6 (amended). For a name that is not in the tool list the handler
    returns [Unknown tool: ] followed by the literal name, and calls no
    backend, provided that, for a name with the prefix [key_protect_],
    [getKeyProtectClient] returns a client (the configuration is present
    and the constructor of the client did not throw) and, for a name with
    the prefix [zos_connect_], the gateway is configured; a name with
    neither prefix gets this result whatever the configuration. *)
Theorem unknown_tool_echoes_name :
  forall (name : string) (args : value) (st : process S),
    ~ In name tool_names ->
    (startsWith name "key_protect_" = true ->
     exists c st1, getKeyProtectClient env w st = (inr (Some c), st1)) ->
    (startsWith name "zos_connect_" = true -> zos_configured env = true) ->
    exists st1,
      call_tool rt env w name args st
      = (inr (text_result (Str ("Unknown tool: " ++ name))), st1)
      /\ remote st1 = remote st /\ calls st1 = calls st.
Proof.
  intros name args st Hn Hkp Hzos.
  apply call_tool_no_case; auto using not_in_kp_case, not_in_zos_case.
Qed.

(** *** The one SDK call of a Key Protect tool *)

Ltac case_split :=
  repeat match goal with
         | |- context [match ?x with _ => _ end] =>
             lazymatch x with
             | context [match _ with _ => _ end] => fail
             | _ => destruct x; cbn [fst snd]
             end
         end.

(** Whatever the fields of the arguments object, the [case] of a Key
    Protect tool issues its SDK call, with [kp_params]; when the SDK
    rejects, the [case] throws that error. *)
Lemma kp_handler_run (t : kp_tool) (c : kp_client) (fs : list (string * value))
    (st : process S) :
  snd (kp_handler env w t c (VObj fs) st)
  = after_kp w c (kp_method_of t) (kp_params env t fs) st
  /\ forall e, fst (kp_request w c (kp_method_of t) (kp_params env t fs) (remote st)) = inl e ->
               fst (kp_handler env w t c (VObj fs) st) = inl e.
Proof.
  unfold after_kp.
  destruct t; cbn [kp_handler kp_method_of kp_params];
    unfold list_keys, create_key, get_key, wrap_key, unwrap_key, rotate_key,
      delete_key, get_key_policies, keyResource_of, bind, eval, kp, ret;
    cbn [prop];
    match goal with
    | |- context [kp_request w c ?m ?p (remote st)] =>
        destruct (kp_request w c m p (remote st)) as [[e|resp] s']
    end; cbn [fst snd];
    (split; [case_split; reflexivity | intros e0 [=]; subst; try reflexivity]).
Qed.

Lemma call_tool_kp_run (name : string) (t : kp_tool) (fs : list (string * value))
    (st st1 : process S) (c : kp_client) :
  kp_case name = Some t ->
  getKeyProtectClient env w st = (inr (Some c), st1) ->
  calls (snd (call_tool rt env w name (VObj fs) st))
  = (calls st ++ [KpCall (kp_method_of t) (kp_params env t fs)])%list
  /\ remote (snd (call_tool rt env w name (VObj fs) st))
     = snd (kp_request w c (kp_method_of t) (kp_params env t fs) (remote st))
  /\ forall e,
       fst (kp_request w c (kp_method_of t) (kp_params env t fs) (remote st)) = inl e ->
       fst (call_tool rt env w name (VObj fs) st)
       = inr (text_result (Str ("Error: " ++ message e))).
Proof.
  intros Ht Hc. rewrite (call_tool_kp _ _ _ _ _ _ Ht Hc).
  destruct (getKeyProtectClient_ready _ _ _ Hc) as (_ & Hr & Hl).
  destruct (kp_handler_run t c fs st1) as [Hs He].
  rewrite Hr in He. unfold after_kp in Hs. rewrite Hr, Hl in Hs.
  destruct (kp_handler env w t c (VObj fs) st1) as [[e|r] st'];
    cbn [caught fst snd] in *; subst st'; cbn [calls remote].
  - repeat split. intros e0 H0. specialize (He _ H0). congruence.
  - repeat split. intros e0 H0. specialize (He _ H0). discriminate.
Qed.

Lemma wrap_key_reply (c : kp_client) (fs : list (string * value)) (st : process S)
    (resp ct kv : value) (s' : S) :
  kp_request w c wrapKey (kp_params env key_protect_wrap_key fs) (remote st) = (inr resp, s') ->
  result_prop resp "ciphertext" = inr ct ->
  result_prop resp "keyVersion" = inr kv ->
  fst (wrap_key env w c (VObj fs) st)
  = inr (text_result (Json (VObj [("message", VStr "Key wrapped successfully");
                                  ("ciphertext", ct); ("keyVersion", kv)]))).
Proof.
  intros H Hc Hk. unfold wrap_key, bind, eval, kp, ret. cbn [prop].
  cbn [kp_params] in H. rewrite H, Hc, Hk. reflexivity.
Qed.

Lemma unwrap_key_reply (c : kp_client) (fs : list (string * value)) (st : process S)
    (resp p kv : value) (s' : S) :
  kp_request w c unwrapKey (kp_params env key_protect_unwrap_key fs) (remote st)
  = (inr resp, s') ->
  result_prop resp "plaintext" = inr p ->
  result_prop resp "keyVersion" = inr kv ->
  fst (unwrap_key env w c (VObj fs) st)
  = inr (text_result (Json (VObj [("message", VStr "Key unwrapped successfully");
                                  ("plaintext", p); ("keyVersion", kv)]))).
Proof.
  intros H Hp Hk. unfold unwrap_key, bind, eval, kp, ret. cbn [prop].
  cbn [kp_params] in H. rewrite H, Hp, Hk. reflexivity.
Qed.

Lemma create_key_reply (c : kp_client) (fs : list (string * value)) (st : process S)
    (resp id rname rtype crn : value) (name_text : string) (s' : S) :
  kp_request w c createKey (kp_params env key_protect_create_key fs) (remote st)
  = (inr resp, s') ->
  to_string (lookup "name" fs) = inr name_text ->
  first_resource_prop resp "id" = inr id ->
  first_resource_prop resp "name" = inr rname ->
  first_resource_prop resp "type" = inr rtype ->
  first_resource_prop resp "crn" = inr crn ->
  fst (create_key env w c (VObj fs) st)
  = inr (text_result (Json (VObj
      [("message", VStr ("Key " ++ dquote ++ name_text ++ dquote
                         ++ " created successfully"));
       ("key", VObj [("id", id); ("name", rname); ("type", rtype); ("crn", crn)])]))).
Proof.
  intros H Hn H1 H2 H3 H4. unfold create_key, bind, eval, kp, ret. cbn [prop].
  cbn [kp_params] in H. unfold keyResource_of in H. rewrite H, Hn, H1, H2, H3, H4.
  reflexivity.
Qed.

(** The message is built after the SDK call: a [name] that cannot be
    converted to a string makes the [case] throw once the key exists. *)
Lemma create_key_name_throws (c : kp_client) (fs : list (string * value)) (st : process S)
    (resp : value) (e : exn) (s' : S) :
  kp_request w c createKey (kp_params env key_protect_create_key fs) (remote st)
  = (inr resp, s') ->
  to_string (lookup "name" fs) = inl e ->
  fst (create_key env w c (VObj fs) st) = inl e.
Proof.
  intros H Hn. unfold create_key, bind, eval, kp, ret. cbn [prop].
  cbn [kp_params] in H. unfold keyResource_of in H. rewrite H, Hn. reflexivity.
Qed.

Lemma caught_fst (r : tool_result) (x : result tool_result * process S) :
  fst x = inr r -> fst (caught x) = inr r.
Proof. destruct x as [[e|r0] st']; cbn; congruence. Qed.

Lemma caught_snd (x : result tool_result * process S) : snd (caught x) = snd x.
Proof. destruct x as [[e|r0] st']; reflexivity. Qed.

(** C1 (amended). The handlers add nothing to and take nothing from the
    backend's round trip: when the backend wraps [p] under key [k] into the
    ciphertext [ct], the wrap tool returns [ct]; and when, in any later
    state of the backend (after rotations of [k] or not), the backend
    unwraps [ct] under [k] to [p], the unwrap tool given [ct] returns [p].
    The unwrap tool sends the backend the key id, the instance and the
    ciphertext (with the [aad], if any) and nothing else: a [keyVersion]
    in its arguments is not forwarded, so the version is selected by the
    backend alone. *)
Theorem unwrap_round_trip_is_the_backends :
  forall (c : kp_client) (k p aad supplied_version ct kv kv' resp1 resp2 : value)
         (st1 st1' st2 st2' : process S) (s1 s2 : S),
    getKeyProtectClient env w st1 = (inr (Some c), st1') ->
    getKeyProtectClient env w st2 = (inr (Some c), st2') ->
    kp_request w c wrapKey
      (VObj [("id", k); ("bluemixInstance", bluemixInstance env);
             ("keyActionWrapBody", VObj (set_if aad [("plaintext", p)] "aad" aad))])
      (remote st1) = (inr resp1, s1) ->
    result_prop resp1 "ciphertext" = inr ct ->
    result_prop resp1 "keyVersion" = inr kv ->
    kp_request w c unwrapKey
      (VObj [("id", k); ("bluemixInstance", bluemixInstance env);
             ("keyActionUnwrapBody", VObj (set_if aad [("ciphertext", ct)] "aad" aad))])
      (remote st2) = (inr resp2, s2) ->
    result_prop resp2 "plaintext" = inr p ->
    result_prop resp2 "keyVersion" = inr kv' ->
    fst (call_tool rt env w "key_protect_wrap_key"
           (VObj [("key_id", k); ("plaintext", p); ("aad", aad)]) st1)
    = inr (text_result (Json (VObj [("message", VStr "Key wrapped successfully");
                                    ("ciphertext", ct); ("keyVersion", kv)])))
    /\ fst (call_tool rt env w "key_protect_unwrap_key"
              (VObj [("key_id", k); ("ciphertext", ct); ("aad", aad);
                     ("keyVersion", supplied_version)]) st2)
       = inr (text_result (Json (VObj [("message", VStr "Key unwrapped successfully");
                                       ("plaintext", p); ("keyVersion", kv')])))
    /\ calls (snd (call_tool rt env w "key_protect_unwrap_key"
                     (VObj [("key_id", k); ("ciphertext", ct); ("aad", aad);
                            ("keyVersion", supplied_version)]) st2))
       = (calls st2
          ++ [KpCall unwrapKey
                (VObj [("id", k); ("bluemixInstance", bluemixInstance env);
                       ("keyActionUnwrapBody",
                        VObj (set_if aad [("ciphertext", ct)] "aad" aad))])])%list.
Proof.
  intros c k p aad sv ct kv kv' resp1 resp2 st1 st1' st2 st2' s1 s2
    Hc1 Hc2 Hw Hct Hkv Hu Hp Hkv'.
  destruct (getKeyProtectClient_ready _ _ _ Hc1) as (_ & Hr1 & _).
  destruct (getKeyProtectClient_ready _ _ _ Hc2) as (_ & Hr2 & _).
  split; [|split].
  - rewrite (call_tool_kp "key_protect_wrap_key" key_protect_wrap_key _ _ _ _ eq_refl Hc1).
    apply caught_fst. cbn [kp_handler].
    eapply wrap_key_reply; [rewrite Hr1; exact Hw | exact Hct | exact Hkv].
  - rewrite (call_tool_kp "key_protect_unwrap_key" key_protect_unwrap_key _ _ _ _ eq_refl Hc2).
    apply caught_fst. cbn [kp_handler].
    eapply unwrap_key_reply; [rewrite Hr2; exact Hu | exact Hp | exact Hkv'].
  - exact (proj1 (call_tool_kp_run "key_protect_unwrap_key" key_protect_unwrap_key
                    _ _ _ _ eq_refl Hc2)).
Qed.

(** *** The one request of a z/OS Connect tool *)

Lemma or_truthy_default (v : value) (s : string) :
  s <> "" -> default (or v (VStr s)) (VStr "GET") = or v (VStr s).
Proof.
  intros Hs. unfold or. destruct (truthy v) eqn:E.
  - destruct v; try reflexivity. discriminate.
  - reflexivity.
Qed.

Lemma zos_handler_run (t : zos_tool) (fs : list (string * value)) (st : process S)
    (req : request) :
  zos_configured env = true ->
  zos_request rt env t fs = inr req ->
  snd (zos_handler rt env w t (VObj fs) st) = after_fetch w req st.
Proof.
  unfold zos_configured, after_fetch. intros Hc.
  destruct t; cbn [zos_handler];
    unfold zos_request, zos_endpoint, list_services, get_service, call_service,
      list_apis, health, bind, eval, ret;
    cbn [prop and_then].
  2: destruct (to_string _) as [e|name_text]; cbn [and_then]; [discriminate|].
  3: {
    destruct (call_service_path _ _ _) as [e|endpoint]; cbn [and_then]; [discriminate|].
    destruct (truthy (lookup "query_params" fs));
      [destruct (URLSearchParams_toString rt _) as [e|q]; cbn [and_then];
       [discriminate|] |];
      intros [= <-]; unfold callZosConnect; rewrite Hc; cbn [negb];
      rewrite or_truthy_default by discriminate;
      unfold bind, do_fetch, eval, ret, throw;
      destruct (fetch w _ (remote st)) as [[e|resp] s']; cbn [fst snd];
      case_split; reflexivity.
  }
  all: intros [= <-]; unfold callZosConnect;
    rewrite Hc; cbn [negb default];
    unfold bind, do_fetch, eval, ret, throw;
    destruct (fetch w _ (remote st)) as [[e|resp] s']; cbn [fst snd];
    case_split; reflexivity.
Qed.

Lemma call_tool_zos_run (name : string) (t : zos_tool) (fs : list (string * value))
    (st : process S) (req : request) :
  zos_case name = Some t ->
  zos_configured env = true ->
  zos_request rt env t fs = inr req ->
  calls (snd (call_tool rt env w name (VObj fs) st)) = (calls st ++ [Fetch req])%list.
Proof.
  intros Ht Hc Hr. rewrite (call_tool_zos _ _ _ _ Ht Hc), caught_snd.
  rewrite (zos_handler_run _ _ _ _ Hc Hr). reflexivity.
Qed.

(** *** Path templates *)


Lemma substitute_step (key : string) (v : value) (rest : list (string * value))
    (endpoint : string) :
  substitute ((key, v) :: rest) endpoint
  = and_then (encoded v) (fun text =>
      substitute rest (replace endpoint ("{" ++ key ++ "}") text)).
Proof.
  cbn [substitute]. unfold encoded.
  destruct (to_string v) as [e|s]; reflexivity.
Qed.

(** The loop throws what the first failing conversion or encoding throws. *)
Lemma substitute_throws (params : list (string * value)) (endpoint : string) (e : exn) :
  encode_all params = inl e -> substitute params endpoint = inl e.
Proof.
  revert endpoint. induction params as [|[key v] rest IH]; intros endpoint He.
  - discriminate He.
  - rewrite substitute_step. cbn [encode_all] in He.
    destruct (encoded v) as [e1|text]; cbn [and_then] in *; [congruence|].
    apply IH. destruct (encode_all rest) as [e1|texts']; cbn [and_then] in He;
      [congruence | discriminate He].
Qed.






(** When the request cannot be built, the [case] throws before any call. *)
Lemma zos_handler_no_request (t : zos_tool) (fs : list (string * value)) (st : process S)
    (e : exn) :
  zos_request rt env t fs = inl e ->
  zos_handler rt env w t (VObj fs) st = (inl e, st).
Proof.
  destruct t; cbn [zos_handler];
    unfold zos_request, zos_endpoint, list_services, get_service, call_service,
      list_apis, health, bind, eval, ret;
    cbn [prop and_then]; try discriminate.
  - destruct (to_string _) as [e1|name_text]; cbn [and_then]; [congruence | discriminate].
  - destruct (call_service_path _ _ _) as [e1|endpoint]; cbn [and_then]; [congruence|].
    destruct (truthy (lookup "query_params" fs)); [|discriminate].
    destruct (URLSearchParams_toString rt _) as [e1|q]; cbn [and_then];
      [congruence | discriminate].
Qed.

Lemma call_tool_zos_no_request (name : string) (t : zos_tool) (fs : list (string * value))
    (st : process S) (e : exn) :
  zos_case name = Some t ->
  zos_configured env = true ->
  zos_request rt env t fs = inl e ->
  call_tool rt env w name (VObj fs) st
  = (inr (text_result (Str ("Error: " ++ message e))), st).
Proof.
  intros Ht Hc Hr. rewrite (call_tool_zos _ _ _ _ Ht Hc).
  rewrite (zos_handler_no_request _ _ _ _ Hr). reflexivity.
Qed.


(** C3 (amended). [key_protect_wrap_key], [key_protect_unwrap_key] and
    [key_protect_rotate_key] do not look at the type of the key: when
    [getKeyProtectClient] returns a client (the configuration is present
    and the constructor of the client did not throw), each issues its SDK
    call with [id] set to the [key_id] it was given; a failure such as a
    wrong key type is whatever the backend rejects the call with, returned
    as [Error: ] followed by the backend's message. *)
Theorem key_type_is_left_to_the_backend :
  forall (name : string) (t : kp_tool) (fs : list (string * value))
         (st st1 : process S) (c : kp_client),
    In t [key_protect_wrap_key; key_protect_unwrap_key; key_protect_rotate_key] ->
    kp_case name = Some t ->
    getKeyProtectClient env w st = (inr (Some c), st1) ->
    prop (kp_params env t fs) "id" = inr (lookup "key_id" fs)
    /\ calls (snd (call_tool rt env w name (VObj fs) st))
       = (calls st ++ [KpCall (kp_method_of t) (kp_params env t fs)])%list
    /\ forall e,
         fst (kp_request w c (kp_method_of t) (kp_params env t fs) (remote st)) = inl e ->
         fst (call_tool rt env w name (VObj fs) st)
         = inr (text_result (Str ("Error: " ++ message e))).
Proof.
  intros name t fs st st1 c Hin Ht Hc. split.
  - cbn [In] in Hin. destruct Hin as [<-|[<-|[<-|[]]]]; cbn [kp_params prop];
      try reflexivity.
    unfold set_if. destruct (truthy _); reflexivity.
  - destruct (call_tool_kp_run name t fs st st1 c Ht Hc) as (H1 & _ & H3). auto.
Qed.

Lemma in_tool_names (name : string) :
  In name tool_names ->
  (exists t, kp_case name = Some t) \/ (exists t, zos_case name = Some t).
Proof.
  cbn. intros H.
  repeat (destruct H as [<-|H]; [solve [left; eexists; reflexivity
                                       | right; eexists; reflexivity] |]).
  destruct H.
Qed.

(** C4 (amended). For every tool of the list and every arguments object,
    whether it satisfies the tool's [inputSchema] or not, the handler goes
    on into the [case] of the tool and calls the backend with what the
    [case] builds from the fields.  When [getKeyProtectClient] returns a
    client, a [key_protect_] tool issues exactly one SDK call, with the
    parameters that its [case] builds ([kp_params]).  With the gateway
    configured, a [zos_connect_] tool issues exactly one request, the one
    its [case] builds from the fields ([zos_request]); when building it
    throws (a value that cannot be converted to a string or encoded, a
    [query_params] that [URLSearchParams] rejects), no request is issued
    and the result is [Error: ] followed by the message thrown. *)
Theorem arguments_are_not_validated :
  forall (name : string) (fs : list (string * value)) (st : process S),
    In name tool_names ->
    (startsWith name "key_protect_" = true ->
     exists c st1, getKeyProtectClient env w st = (inr (Some c), st1)) ->
    (startsWith name "zos_connect_" = true -> zos_configured env = true) ->
    (exists t,
       kp_case name = Some t
       /\ calls (snd (call_tool rt env w name (VObj fs) st))
          = (calls st ++ [KpCall (kp_method_of t) (kp_params env t fs)])%list)
    \/ (exists t,
          zos_case name = Some t
          /\ match zos_request rt env t fs with
             | inr req =>
                 calls (snd (call_tool rt env w name (VObj fs) st))
                 = (calls st ++ [Fetch req])%list
             | inl e =>
                 call_tool rt env w name (VObj fs) st
                 = (inr (text_result (Str ("Error: " ++ message e))), st)
             end).
Proof.
  intros name fs st Hin Hkp Hzos.
  destruct (in_tool_names _ Hin) as [[t Ht]|[t Ht]].
  - destruct (Hkp (kp_case_prefix _ _ Ht)) as (c & st1 & Hc).
    left. exists t. split; [exact Ht|].
    exact (proj1 (call_tool_kp_run name t fs st st1 c Ht Hc)).
  - pose proof (Hzos (zos_case_prefix _ _ Ht)) as Hc.
    right. exists t. split; [exact Ht|].
    destruct (zos_request rt env t fs) as [e|req] eqn:Hr.
    + exact (call_tool_zos_no_request name t fs st e Ht Hc Hr).
    + exact (call_tool_zos_run name t fs st req Ht Hc Hr).
Qed.

(** *** Creating and listing keys *)

Lemma keyResource_extractable (fs : list (string * value)) :
  is_string (lookup "type" fs) "root_key" = true ->
  lookup "extractable" (keyResource_of fs) = VBool false.
Proof.
  intros H. unfold keyResource_of, set_if. rewrite H.
  destruct (truthy (lookup "payload" fs)), (truthy (lookup "description" fs));
    reflexivity.
Qed.

(** C8 (amended). For every create invocation whose [type] is [root_key],
    the [extractable] flag sent to the backend is [false] whatever the
    caller supplied.  The record returned to the caller holds the [id],
    [name], [type] and [crn] that the backend reports for the new key and
    nothing else: it has no [extractable] field, and its [type] is the
    backend's.  The message quotes the [name] argument as a string; a
    [name] that cannot be converted to one makes the invocation end in
    [Error: ] and the conversion's message, after the key was created. *)
Theorem root_key_is_sent_not_extractable :
  forall (fs : list (string * value)) (st st1 : process S) (c : kp_client),
    is_string (lookup "type" fs) "root_key" = true ->
    getKeyProtectClient env w st = (inr (Some c), st1) ->
    lookup "extractable" (keyResource_of fs) = VBool false
    /\ calls (snd (call_tool rt env w "key_protect_create_key" (VObj fs) st))
       = (calls st
          ++ [KpCall createKey
                (VObj [("bluemixInstance", bluemixInstance env);
                       ("keyCreateBody",
                        VObj [("metadata",
                               VObj [("collectionType",
                                      VStr "application/vnd.ibm.kms.key+json");
                                     ("collectionTotal", VNum 1)]);
                              ("resources", VArr [VObj (keyResource_of fs)])])])])%list
    /\ (forall (resp id rname rtype crn : value) (name_text : string) (s' : S),
          kp_request w c createKey (kp_params env key_protect_create_key fs) (remote st)
          = (inr resp, s') ->
          to_string (lookup "name" fs) = inr name_text ->
          first_resource_prop resp "id" = inr id ->
          first_resource_prop resp "name" = inr rname ->
          first_resource_prop resp "type" = inr rtype ->
          first_resource_prop resp "crn" = inr crn ->
          fst (call_tool rt env w "key_protect_create_key" (VObj fs) st)
          = inr (text_result (Json (VObj
              [("message", VStr ("Key " ++ dquote ++ name_text ++ dquote
                                 ++ " created successfully"));
               ("key", VObj [("id", id); ("name", rname); ("type", rtype);
                             ("crn", crn)])]))))
    /\ (forall (s : string),
          lookup "name" fs = VStr s -> to_string (lookup "name" fs) = inr s)
    /\ (forall (resp : value) (e : exn) (s' : S),
          kp_request w c createKey (kp_params env key_protect_create_key fs) (remote st)
          = (inr resp, s') ->
          to_string (lookup "name" fs) = inl e ->
          fst (call_tool rt env w "key_protect_create_key" (VObj fs) st)
          = inr (text_result (Str ("Error: " ++ message e)))).
Proof.
  intros fs st st1 c Hroot Hc. split; [|split; [|split; [|split]]].
  - exact (keyResource_extractable _ Hroot).
  - exact (proj1 (call_tool_kp_run "key_protect_create_key" key_protect_create_key
                    fs st st1 c eq_refl Hc)).
  - intros resp id rname rtype crn name_text s' H Hn H1 H2 H3 H4.
    rewrite (call_tool_kp "key_protect_create_key" key_protect_create_key
               _ _ _ _ eq_refl Hc).
    apply caught_fst. cbn [kp_handler].
    destruct (getKeyProtectClient_ready _ _ _ Hc) as (_ & Hr & _).
    eapply create_key_reply; [rewrite Hr; exact H | assumption..].
  - intros s ->. reflexivity.
  - intros resp e s' H Hn.
    rewrite (call_tool_kp "key_protect_create_key" key_protect_create_key
               _ _ _ _ eq_refl Hc).
    cbn [kp_handler].
    destruct (getKeyProtectClient_ready _ _ _ Hc) as (_ & Hr & _).
    rewrite <- Hr in H.
    pose proof (create_key_name_throws c fs st1 resp e s' H Hn) as Hf.
    destruct (create_key env w c (VObj fs) st1) as [[e1|r] st2]; cbn [fst] in Hf;
      [|discriminate].
    injection Hf as ->. reflexivity.
Qed.

Lemma or_nonzero (n : Z) (d : value) : n <> 0%Z -> or (VNum n) d = VNum n.
Proof.
  intros H. unfold or. cbn [truthy].
  destruct (Z.eqb_spec n 0); [contradiction | reflexivity].
Qed.

Lemma or_omitted (d : value) : or VUndef d = d.
Proof. reflexivity. Qed.

(** What [key_protect_list_keys] sends for [limit] and [offset]: the
    caller's numbers when they are not zero, the defaults when they are
    omitted. *)
Lemma list_keys_paging (fs : list (string * value)) (c : kp_client) (st : process S) :
  calls (snd (list_keys env w c (VObj fs) st))
  = (calls st
     ++ [KpCall getKeys
           (VObj [("bluemixInstance", bluemixInstance env);
                  ("limit", or (lookup "limit" fs) (VNum 100));
                  ("offset", or (lookup "offset" fs) (VNum 0));
                  ("state", lookup "state" fs)])])%list.
Proof.
  pose proof (proj1 (kp_handler_run key_protect_list_keys c fs st)) as H.
  cbn [kp_handler] in H. rewrite H. reflexivity.
Qed.

(** C9, evaluated at [limit = 0], [offset = 0]: the request carries
    [limit = 100], not the [0] the caller supplied. *)
Theorem list_keys_limit_zero_is_sent_as_100 :
  forall (c : kp_client) (st : process S),
    calls (snd (list_keys env w c (VObj [("limit", VNum 0); ("offset", VNum 0)]) st))
    = (calls st
       ++ [KpCall getKeys
             (VObj [("bluemixInstance", bluemixInstance env);
                    ("limit", VNum 100);
                    ("offset", VNum 0);
                    ("state", VUndef)])])%list.
Proof. intros c st. rewrite list_keys_paging. reflexivity. Qed.

(** *** The client handle is created lazily and at most once *)

Lemma keeps_ret {A : Type} (a : A) : keeps_client (ret a : M S A).
Proof. intros st. reflexivity. Qed.

Lemma keeps_throw {A : Type} (e : exn) : keeps_client (throw e : M S A).
Proof. intros st. reflexivity. Qed.

Lemma keeps_eval {A : Type} (r : result A) : keeps_client (eval r : M S A).
Proof. intros st. reflexivity. Qed.

Lemma keeps_bind {A B : Type} (m : M S A) (k : A -> M S B) :
  keeps_client m -> (forall a, keeps_client (k a)) -> keeps_client (bind m k).
Proof.
  intros Hm Hk st. unfold bind. specialize (Hm st).
  destruct (m st) as [[e|a] st1]; cbn [snd] in *; [exact Hm|].
  rewrite Hk. exact Hm.
Qed.

Lemma keeps_kp (c : kp_client) (m : kp_method) (params : value) :
  keeps_client (kp w c m params).
Proof. intros st. unfold kp. destruct (kp_request w c m params (remote st)). reflexivity. Qed.

Lemma keeps_fetch (req : request) : keeps_client (do_fetch w req).
Proof. intros st. unfold do_fetch. destruct (fetch w req (remote st)). reflexivity. Qed.

Ltac keeps :=
  repeat first
    [ apply keeps_ret | apply keeps_throw | apply keeps_eval
    | apply keeps_kp | apply keeps_fetch
    | apply keeps_bind; [|intro]
    | match goal with
      | |- keeps_client (if ?b then _ else _) => destruct b
      | |- keeps_client (match ?x with _ => _ end) => destruct x
      end ].

Lemma callZosConnect_keeps (endpoint : string) (method body : value) :
  keeps_client (callZosConnect env w endpoint method body).
Proof. unfold callZosConnect. keeps. Qed.

Lemma kp_handler_keeps (t : kp_tool) (c : kp_client) (args : value) :
  keeps_client (kp_handler env w t c args).
Proof.
  destruct t; cbn [kp_handler];
    unfold list_keys, create_key, get_key, wrap_key, unwrap_key, rotate_key,
      delete_key, get_key_policies;
    keeps.
Qed.

Lemma zos_handler_keeps (t : zos_tool) (args : value) :
  keeps_client (zos_handler rt env w t args).
Proof.
  destruct t; cbn [zos_handler];
    unfold list_services, get_service, call_service, list_apis, health;
    repeat first [ apply callZosConnect_keeps | progress keeps ].
Qed.

Lemma zos_connect_block_keeps (name : string) (args : value) :
  keeps_client (zos_connect_block rt env w name args).
Proof.
  unfold zos_connect_block.
  repeat first [ apply zos_handler_keeps | progress keeps ].
Qed.

Lemma getKeyProtectClient_creates_at_most :
  creates_client_at_most env (getKeyProtectClient env w).
Proof.
  intros st. unfold getKeyProtectClient.
  destruct (keyProtectClient st) as [c|] eqn:E; [left; cbn [snd]; exact E|].
  fold (kp_configured env). destruct (kp_configured env); [|left; cbn [snd]; exact E].
  fold (configured_client env).
  destruct (new_client w _); [left; cbn [snd]; exact E|].
  right. auto.
Qed.

Lemma creates_bind {A B : Type} (m : M S A) (k : A -> M S B) :
  creates_client_at_most env m -> (forall a, keeps_client (k a)) ->
  creates_client_at_most env (bind m k).
Proof.
  intros Hm Hk st. unfold bind. specialize (Hm st).
  destruct (m st) as [[e|a] st1]; cbn [snd] in *; [exact Hm|].
  rewrite Hk. exact Hm.
Qed.

Lemma keeps_creates {A : Type} (m : M S A) :
  keeps_client m -> creates_client_at_most env m.
Proof. intros H st. left. apply H. Qed.

Lemma key_protect_block_creates_at_most (name : string) (args : value) :
  creates_client_at_most env (key_protect_block env w name args).
Proof.
  unfold key_protect_block.
  destruct (startsWith name "key_protect_"); [|apply keeps_creates, keeps_ret].
  apply creates_bind; [apply getKeyProtectClient_creates_at_most|].
  intros [c|]; [|apply keeps_ret].
  destruct (kp_case name); [|apply keeps_ret].
  apply keeps_bind; [apply kp_handler_keeps | intro; apply keeps_ret].
Qed.

(** One request leaves the client handle as it was, or creates it from the
    configuration when there was none and Key Protect is configured. *)
Lemma call_tool_creates_at_most (name : string) (args : value) :
  creates_client_at_most env (call_tool rt env w name args).
Proof.
  assert (creates_client_at_most env (call_tool_body rt env w name args)) as Hb.
  { unfold call_tool_body. apply creates_bind;
      [apply key_protect_block_creates_at_most|].
    intros [r|]; [apply keeps_ret|].
    apply keeps_bind; [apply zos_connect_block_keeps|].
    intros [r|]; apply keeps_ret. }
  intros st. specialize (Hb st). unfold call_tool, try_catch.
  destruct (call_tool_body rt env w name args st) as [[e|r] st1]; exact Hb.
Qed.

(** X19. The client is created at most once: a client, once created, is
    the handle that every later request of the session finds, whatever the
    requests are and however they end. *)
Lemma serve_reuses_client (requests : list (string * value)) (st : process S)
    (c : kp_client) :
  keyProtectClient st = Some c ->
  keyProtectClient (serve rt env w requests st) = Some c.
Proof.
  revert st. induction requests as [|[name args] rest IH]; intros st H; [exact H|].
  cbn [serve]. apply IH.
  destruct (call_tool_creates_at_most name args st) as [->|(Hn & _)]; congruence.
Qed.

(** Without the Key Protect configuration no client is ever created. *)
Lemma serve_unconfigured (requests : list (string * value)) (st : process S) :
  kp_configured env = false -> keyProtectClient st = None ->
  keyProtectClient (serve rt env w requests st) = None.
Proof.
  intros Hc. revert st.
  induction requests as [|[name args] rest IH]; intros st H; [exact H|].
  cbn [serve]. apply IH.
  destruct (call_tool_creates_at_most name args st) as [->|(_ & Hk & _)]; congruence.
Qed.

Lemma serve_coherent (requests : list (string * value)) (st : process S) :
  client_coherent env st -> client_coherent env (serve rt env w requests st).
Proof.
  revert st. induction requests as [|[name args] rest IH]; intros st H; [exact H|].
  cbn [serve]. apply IH. unfold client_coherent in *.
  destruct (call_tool_creates_at_most name args st) as [->|(_ & Hk & ->)]; auto.
Qed.

(** *** Backend calls of one request *)

Lemma silent_ret {A : Type} (a : A) : silent (ret a : M S A).
Proof. intros st. reflexivity. Qed.

Lemma silent_throw {A : Type} (e : exn) : silent (throw e : M S A).
Proof. intros st. reflexivity. Qed.

Lemma silent_eval {A : Type} (r : result A) : silent (eval r : M S A).
Proof. intros st. reflexivity. Qed.

Lemma silent_bind {A B : Type} (m : M S A) (k : A -> M S B) :
  silent m -> (forall a, silent (k a)) -> silent (bind m k).
Proof.
  intros Hm Hk st. unfold bind. specialize (Hm st).
  destruct (m st) as [[e|a] st1]; cbn [snd] in *; [exact Hm|].
  rewrite Hk. exact Hm.
Qed.

Lemma silent_getKeyProtectClient : silent (getKeyProtectClient env w).
Proof.
  intros st. unfold getKeyProtectClient.
  destruct (keyProtectClient st); [reflexivity|].
  destruct (_ && _); [|reflexivity].
  destruct (new_client w _); reflexivity.
Qed.

Lemma one_call_silent {A : Type} (Q : event -> Prop) (m : M S A) :
  silent m -> at_most_one_call Q m.
Proof. intros H st. left. apply H. Qed.

Lemma one_call_bind_l {A B : Type} (Q : event -> Prop) (m : M S A) (k : A -> M S B) :
  silent m -> (forall a, at_most_one_call Q (k a)) -> at_most_one_call Q (bind m k).
Proof.
  intros Hm Hk st. unfold bind. specialize (Hm st).
  destruct (m st) as [[e|a] st1]; cbn [snd] in *; [left; exact Hm|].
  rewrite <- Hm. apply Hk.
Qed.

Lemma one_call_bind_r {A B : Type} (Q : event -> Prop) (m : M S A) (k : A -> M S B) :
  at_most_one_call Q m -> (forall a, silent (k a)) -> at_most_one_call Q (bind m k).
Proof.
  intros Hm Hk st. unfold bind. specialize (Hm st).
  destruct (m st) as [[e|a] st1]; cbn [snd] in *; [exact Hm|].
  rewrite (Hk a st1). exact Hm.
Qed.

Lemma one_call_kp (Q : event -> Prop) (c : kp_client) (m : kp_method) (params : value) :
  Q (KpCall m params) -> at_most_one_call Q (kp w c m params).
Proof.
  intros H st. right. exists (KpCall m params). split; [|exact H].
  unfold kp. destruct (kp_request w c m params (remote st)). reflexivity.
Qed.

Lemma one_call_fetch (Q : event -> Prop) (req : request) :
  Q (Fetch req) -> at_most_one_call Q (do_fetch w req).
Proof.
  intros H st. right. exists (Fetch req). split; [|exact H].
  unfold do_fetch. destruct (fetch w req (remote st)). reflexivity.
Qed.

Lemma one_call_weaken {A : Type} (Q R : event -> Prop) (m : M S A) :
  (forall ev, Q ev -> R ev) -> at_most_one_call Q m -> at_most_one_call R m.
Proof.
  intros H Hm st. destruct (Hm st) as [E|(ev & E & Hq)]; [left; exact E|].
  right. eauto.
Qed.

Ltac quiet :=
  repeat first
    [ apply silent_ret | apply silent_throw | apply silent_eval
    | apply silent_bind; [|intro]
    | match goal with
      | |- silent (if ?b then _ else _) => destruct b
      | |- silent (match ?x with _ => _ end) => destruct x
      end ].

Ltac one_call :=
  repeat first
    [ apply one_call_bind_l; [solve [quiet] | intro]
    | apply one_call_bind_r; [ | intro; solve [quiet] ] ].

Lemma kp_handler_one_call (name : string) (t : kp_tool) (c : kp_client) (args : value) :
  kp_case name = Some t ->
  at_most_one_call (kp_event env name) (kp_handler env w t c args).
Proof.
  intros Ht.
  destruct t; cbn [kp_handler];
    unfold list_keys, create_key, get_key, wrap_key, unwrap_key, rotate_key, delete_key,
      get_key_policies;
    one_call; apply one_call_kp; eexists _, _;
    (split; [exact Ht|]); (split; [reflexivity|]);
    cbn [prop]; unfold set_if; try destruct (truthy _); reflexivity.
Qed.


Lemma one_call_bind_val {A B : Type} (Q : event -> Prop) (R : A -> Prop)
    (m : M S A) (k : A -> M S B) :
  silent m -> returns R m -> (forall a, R a -> at_most_one_call Q (k a)) ->
  at_most_one_call Q (bind m k).
Proof.
  intros Hm Hr Hk st. unfold bind. specialize (Hm st).
  destruct (m st) as [[e|a] st1] eqn:E; cbn [snd] in *; [left; exact Hm|].
  rewrite <- Hm. apply Hk. exact (Hr _ _ _ E).
Qed.

Lemma startsWith_app_l (s p x : string) :
  startsWith s p = true -> startsWith (s ++ x) p = true.
Proof.
  revert s. induction p as [|a p IH]; intros s H; [destruct (s ++ x); reflexivity|].
  destruct s as [|b s]; [discriminate H|].
  cbn [append startsWith] in *. apply andb_true_iff in H. destruct H as [H1 H2].
  rewrite H1, (IH _ H2). reflexivity.
Qed.

(** Replacing a placeholder leaves a prefix without an opening brace as it
    is. *)
Lemma replace_keeps_prefix (s p pat rep : string) :
  has_char "{" p = false -> startsWith s p = true ->
  startsWith (replace s (String "{" pat) rep) p = true.
Proof.
  revert s. induction p as [|a p IH]; intros s Hp H.
  - destruct (replace s _ rep); reflexivity.
  - destruct s as [|b s]; [discriminate H|].
    cbn [has_char] in Hp. apply orb_false_iff in Hp. destruct Hp as [Ha Hp].
    cbn [startsWith] in H. apply andb_true_iff in H. destruct H as [H1 H2].
    apply Ascii.eqb_eq in H1. subst b.
    cbn [replace startsWith]. rewrite Ha. cbn [andb startsWith].
    rewrite Ascii.eqb_refl, (IH _ Hp H2). reflexivity.
Qed.

Lemma substitute_keeps_prefix (params : list (string * value)) (s p r : string) :
  has_char "{" p = false -> startsWith s p = true ->
  substitute params s = inr r -> startsWith r p = true.
Proof.
  intros Hp. revert s.
  induction params as [|[key v] rest IH]; intros s H; cbn [substitute].
  - intros E. assert (r = s) as -> by congruence. exact H.
  - destruct (to_string v) as [e|text]; cbn [and_then]; [discriminate|].
    destruct (encodeURIComponent text) as [e|enc]; cbn [and_then]; [discriminate|].
    apply IH. apply (replace_keeps_prefix s p (key ++ "}")); assumption.
Qed.

Lemma call_service_path_prefix (service_name operation path_params : value) :
  returns (fun endpoint => startsWith endpoint "/zosConnect/" = true)
    (eval (call_service_path service_name operation path_params) : M S string).
Proof.
  intros st endpoint st'. unfold eval, call_service_path.
  destruct (to_string service_name) as [e|a]; cbn [and_then]; [discriminate|].
  destruct (to_string (or _ _)) as [e|b]; cbn [and_then]; [discriminate|].
  destruct (truthy path_params).
  - destruct (entries path_params) as [e|params]; cbn [and_then]; [discriminate|].
    intros E.
    assert (substitute params ("/zosConnect/services/" ++ a ++ b) = inr endpoint) as E1
      by congruence.
    apply (substitute_keeps_prefix params ("/zosConnect/services/" ++ a ++ b)
             "/zosConnect/" endpoint); [reflexivity | reflexivity | exact E1].
  - intros E.
    assert (endpoint = "/zosConnect/services/" ++ a ++ b) as -> by congruence.
    reflexivity.
Qed.

Lemma callZosConnect_one_call (endpoint : string) (method body : value) :
  startsWith endpoint "/zosConnect/" = true ->
  at_most_one_call (zos_event env) (callZosConnect env w endpoint method body).
Proof.
  intros He. unfold callZosConnect.
  destruct (env_truthy (ZOS_CONNECT_URL env)) eqn:Hc; cbn [negb].
  - apply one_call_bind_r; [|intro; solve [quiet]].
    apply one_call_fetch. split; [exact Hc|]. eauto.
  - apply one_call_silent, silent_throw.
Qed.

Lemma zos_handler_one_call (t : zos_tool) (args : value) :
  at_most_one_call (zos_event env) (zos_handler rt env w t args).
Proof.
  destruct t; cbn [zos_handler];
    unfold list_services, get_service, call_service, list_apis, health.
  3: {
    do 3 (apply one_call_bind_l; [solve [quiet] | intro]).
    eapply one_call_bind_val;
      [apply silent_eval | apply call_service_path_prefix | intros endpoint He].
    apply one_call_bind_l; [solve [quiet] | intro].
    eapply (one_call_bind_val _ (fun e => startsWith e "/zosConnect/" = true)).
    - quiet.
    - destruct (truthy _).
      + apply returns_bind. intros q. apply returns_ret.
        apply startsWith_app_l. exact He.
      + apply returns_ret. exact He.
    - intros endpoint' He'.
      do 2 (apply one_call_bind_l; [solve [quiet] | intro]).
      apply one_call_bind_r; [|intro; solve [quiet]].
      apply callZosConnect_one_call. exact He'.
  }
  all: one_call; apply callZosConnect_one_call; reflexivity.
Qed.

(** The backend call that a request for [name] may issue: an SDK call of
    the tool's own method, or a request of [callZosConnect] for a name with
    the gateway's prefix. *)
Lemma call_tool_one_call (name : string) (args : value) :
  at_most_one_call
    (fun ev => kp_event env name ev
               \/ (startsWith name "zos_connect_" = true /\ zos_event env ev))
    (call_tool rt env w name args).
Proof.
  assert (at_most_one_call
            (fun ev => kp_event env name ev
                       \/ (startsWith name "zos_connect_" = true /\ zos_event env ev))
            (call_tool_body rt env w name args)) as Hb.
  { unfold call_tool_body, key_protect_block, zos_connect_block.
    destruct (startsWith name "key_protect_") eqn:Ekp.
    - assert (startsWith name "zos_connect_" = false) as ->.
      { destruct (startsWith name "zos_connect_") eqn:Ez; [|reflexivity].
        rewrite (prefixes_disjoint _ Ez) in Ekp. discriminate Ekp. }
      apply one_call_bind_r.
      + apply one_call_bind_l; [apply silent_getKeyProtectClient|].
        intros [c|]; [|apply one_call_silent, silent_ret].
        destruct (kp_case name) as [t|] eqn:Ht; [|apply one_call_silent, silent_ret].
        apply one_call_bind_r; [|intro; apply silent_ret].
        eapply one_call_weaken; [|apply (kp_handler_one_call name t c args Ht)].
        intros ev H. left. exact H.
      + intros [r|]; quiet.
    - apply one_call_bind_l; [apply silent_ret|]. intros [r|]; [apply one_call_silent; quiet|].
      apply one_call_bind_r; [|intros [r|]; apply silent_ret].
      destruct (startsWith name "zos_connect_") eqn:Ez; [|apply one_call_silent, silent_ret].
      destruct (negb _); [apply one_call_silent, silent_ret|].
      destruct (zos_case name) as [t|]; [|apply one_call_silent, silent_ret].
      apply one_call_bind_r; [|intro; apply silent_ret].
      eapply one_call_weaken; [|apply zos_handler_one_call].
      intros ev H. right. split; [reflexivity | exact H]. }
  intros st. specialize (Hb st). unfold call_tool, try_catch.
  destruct (call_tool_body rt env w name args st) as [[e|r] st1]; exact Hb.
Qed.

(** The calls of a session: one list of new calls, each an SDK call with
    the configured instance id or a request of [callZosConnect], and no
    more calls than requests. *)
Lemma serve_calls (requests : list (string * value)) (st : process S) :
  exists l,
    calls (serve rt env w requests st) = (calls st ++ l)%list
    /\ Forall (fun ev => (exists name, kp_event env name ev) \/ zos_event env ev) l
    /\ length l <= length requests.
Proof.
  revert st. induction requests as [|[name args] rest IH]; intros st.
  - exists []. rewrite app_nil_r. repeat split; [constructor | apply le_n].
  - cbn [serve]. destruct (IH (snd (call_tool rt env w name args st))) as (l & E & Hl & Hn).
    destruct (call_tool_one_call name args st) as [E1|(ev & E1 & Hev)]; rewrite E1 in E.
    + exists l. repeat split; [exact E | exact Hl | cbn [length]; lia].
    + exists (ev :: l). rewrite <- app_assoc in E. repeat split; [exact E | | cbn [length]; lia].
      constructor; [|exact Hl]. destruct Hev as [H|[_ H]]; [left; eauto | right; exact H].
Qed.

(** X1. One invocation issues at most one backend call, never a second
    one or a retry, whatever the backend answers; and the call goes to the
    backend that the prefix of the name selects: an SDK call only for a
    catalogued [key_protect_] tool (with that tool's method), a request to
    the gateway only for a [zos_connect_] name. *)
Theorem call_tool_calls_backend_at_most_once :
  forall (name : string) (args : value) (st : process S),
    calls (snd (call_tool rt env w name args st)) = calls st
    \/ exists ev,
         calls (snd (call_tool rt env w name args st)) = (calls st ++ [ev])%list
         /\ ((exists t params, kp_case name = Some t
                               /\ ev = KpCall (kp_method_of t) params)
             \/ (exists req, startsWith name "zos_connect_" = true /\ ev = Fetch req)).
Proof.
  intros name args st.
  destruct (call_tool_one_call name args st) as [E|(ev & E & H)]; [left; exact E|].
  right. exists ev. split; [exact E|].
  destruct H as [(t & params & Ht & -> & _) | (Hz & _ & endpoint & m & b & -> & _)].
  - left. eauto.
  - right. eauto.
Qed.

(** X2. Over any session, every request that reaches the gateway is the
    one [callZosConnect] builds: the gateway is configured, the URL is
    [ZOS_CONNECT_URL] followed by an endpoint under [/zosConnect/], the
    JSON headers are set, and the [Authorization] header is present
    exactly when both the user name and the password are configured. *)
Theorem serve_requests_go_to_the_configured_gateway :
  forall (requests : list (string * value)) (st : process S),
  exists l,
    calls (serve rt env w requests st) = (calls st ++ l)%list
    /\ forall req, In (Fetch req) l ->
         zos_configured env = true
         /\ (exists endpoint,
               url req = env_string (ZOS_CONNECT_URL env) ++ endpoint
               /\ startsWith endpoint "/zosConnect/" = true)
         /\ headers req
            = List.app
                [("Content-Type", "application/json"); ("Accept", "application/json")]
                (if env_truthy (ZOS_CONNECT_USERNAME env)
                    && env_truthy (ZOS_CONNECT_PASSWORD env)
                 then [("Authorization",
                        "Basic " ++ base64 (env_string (ZOS_CONNECT_USERNAME env) ++ ":"
                                            ++ env_string (ZOS_CONNECT_PASSWORD env)))]
                 else []).
Proof.
  intros requests st. destruct (serve_calls requests st) as (l & E & Hl & _).
  exists l. split; [exact E|]. intros req Hin.
  rewrite Forall_forall in Hl.
  destruct (Hl _ Hin) as [(name & t & params & _ & H & _) | (Hc & endpoint & m & b & H & He)];
    [discriminate H|].
  injection H as ->. split; [exact Hc|]. split; [|reflexivity].
  exists endpoint. split; [reflexivity | exact He].
Qed.

(** X3. Over any session, every SDK call carries the configured
    [KEY_PROTECT_INSTANCE_ID] as [bluemixInstance], whatever the arguments
    of the request were. *)
Theorem serve_sdk_calls_carry_the_instance_id :
  forall (requests : list (string * value)) (st : process S),
  exists l,
    calls (serve rt env w requests st) = (calls st ++ l)%list
    /\ forall m params, In (KpCall m params) l ->
         prop params "bluemixInstance" = inr (env_value (KEY_PROTECT_INSTANCE_ID env)).
Proof.
  intros requests st. destruct (serve_calls requests st) as (l & E & Hl & _).
  exists l. split; [exact E|]. intros m params Hin.
  rewrite Forall_forall in Hl.
  destruct (Hl _ Hin) as [(name & t & params' & _ & H & Hb) | (_ & endpoint & m' & b & H & _)];
    [|discriminate H].
  injection H as -> ->. exact Hb.
Qed.

(** *** Declared defaults *)

Lemma lookup_set_prop (fs : list (string * value)) (p q : string) (v : value) :
  lookup q (set_prop fs p v) = if q =? p then v else lookup q fs.
Proof.
  induction fs as [|[k x] fs IH]; cbn [set_prop lookup].
  - rewrite (String.eqb_sym p q). reflexivity.
  - destruct (String.eqb_spec k p) as [->|Hkp]; cbn [lookup].
    + rewrite (String.eqb_sym q p). destruct (p =? q); reflexivity.
    + rewrite IH. destruct (String.eqb_spec k q) as [->|Hkq]; [|reflexivity].
      destruct (String.eqb_spec q p) as [->|_]; [contradiction | reflexivity].
Qed.

(** The arguments reach the outcome through the [case] of the tool only. *)
Lemma call_tool_ext (n : string) (a1 a2 : value) (st : process S) :
  (forall t c st1, kp_case n = Some t ->
                   kp_handler env w t c a1 st1 = kp_handler env w t c a2 st1) ->
  (forall t st1, zos_case n = Some t ->
                 zos_handler rt env w t a1 st1 = zos_handler rt env w t a2 st1) ->
  call_tool rt env w n a1 st = call_tool rt env w n a2 st.
Proof.
  intros Hk Hz.
  unfold call_tool, try_catch, call_tool_body, key_protect_block, zos_connect_block, bind.
  assert (forall st1,
            match zos_case n with
            | Some t => fun st0 => match zos_handler rt env w t a1 st0 with
                                   | (inl e, st') => (inl e, st')
                                   | (inr a, st') => ret (Some a) st'
                                   end
            | None => ret None
            end st1
            = match zos_case n with
              | Some t => fun st0 => match zos_handler rt env w t a2 st0 with
                                     | (inl e, st') => (inl e, st')
                                     | (inr a, st') => ret (Some a) st'
                                     end
              | None => ret None
              end st1) as Hz'.
  { intros st1. destruct (zos_case n) as [t|]; [|reflexivity].
    rewrite (Hz t st1 eq_refl). reflexivity. }
  destruct (startsWith n "key_protect_").
  - destruct (getKeyProtectClient env w st) as [[e|[c|]] st1]; [reflexivity| |].
    + destruct (kp_case n) as [t|].
      * rewrite (Hk t c st1 eq_refl).
        destruct (kp_handler env w t c a2 st1) as [[e|r] st2]; reflexivity.
      * cbn [ret]. destruct (startsWith n "zos_connect_"); [|reflexivity].
        destruct (negb _); [reflexivity|]. rewrite Hz'. reflexivity.
    + reflexivity.
  - cbn [ret]. destruct (startsWith n "zos_connect_"); [|reflexivity].
    destruct (negb _); [reflexivity|]. rewrite Hz'. reflexivity.
Qed.

Ltac use_default H :=
  cbn [kp_handler zos_handler];
  unfold list_keys, create_key, delete_key, call_service;
  cbn [prop]; rewrite !lookup_set_prop; cbn [String.eqb Ascii.eqb Bool.eqb];
  rewrite H; reflexivity.

(** X5. The defaults that the tool list declares are the ones the handler
    applies: for every tool and every property with a declared [default],
    a request that omits the property has the same outcome, call for call,
    as the request that supplies the declared default. *)
Theorem declared_defaults_are_applied :
  forall (n p : string) (t : tool) (s : property) (d : value)
         (fs : list (string * value)) (st : process S),
    find_tool n = Some t ->
    In (p, s) (properties t) ->
    pdefault s = Some d ->
    lookup p fs = VUndef ->
    call_tool rt env w n (VObj (set_prop fs p d)) st = call_tool rt env w n (VObj fs) st.
Proof.
  intros n p t s d fs st Hfind Hin Hd Hundef.
  unfold find_tool, tools in Hfind. cbn [find name] in Hfind.
  repeat match type of Hfind with
         | (if ?a =? ?b then _ else _) = _ =>
             destruct (String.eqb_spec a b) as [<-|_]
         end;
    try discriminate Hfind;
    injection Hfind as <-; cbn [properties In] in Hin;
    repeat (destruct Hin as [Hin|Hin]; [injection Hin as <- <-|]);
    try contradiction;
    cbn in Hd; try discriminate Hd; injection Hd as <-;
    (apply call_tool_ext;
     [ intros t c st1 Ht; vm_compute in Ht; try discriminate Ht; injection Ht as <-
     | intros t st1 Ht; vm_compute in Ht; try discriminate Ht; injection Ht as <- ]);
    use_default Hundef.
Qed.

(** *** The answer of the gateway *)

Lemma zos_handler_outcome (t : zos_tool) (fs : list (string * value)) (st : process S)
    (req : request) :
  zos_configured env = true ->
  zos_request rt env t fs = inr req ->
  fst (zos_handler rt env w t (VObj fs) st)
  = match fst (fetch w req (remote st)) with
    | inl e => inl e
    | inr resp =>
        and_then (response_value resp) (fun v =>
        inr (text_result (Json (zos_reply t fs v))))
    end.
Proof.
  unfold zos_configured, response_value. intros Hc.
  destruct t; cbn [zos_handler zos_reply];
    unfold zos_request, zos_endpoint, list_services, get_service, call_service,
      list_apis, health, bind, eval, ret;
    cbn [prop and_then].
  2: destruct (to_string _) as [e|name_text]; cbn [and_then]; [discriminate|].
  3: {
    destruct (call_service_path _ _ _) as [e|endpoint]; cbn [and_then]; [discriminate|].
    destruct (truthy (lookup "query_params" fs));
      [destruct (URLSearchParams_toString rt _) as [e|q]; cbn [and_then];
       [discriminate|] |];
      intros [= <-]; unfold callZosConnect; rewrite Hc; cbn [negb];
      rewrite or_truthy_default by discriminate;
      unfold bind, do_fetch, eval, ret, throw;
      destruct (fetch w _ (remote st)) as [[e|resp] s']; cbn [fst snd];
      case_split; reflexivity.
  }
  all: intros [= <-]; unfold callZosConnect;
    rewrite Hc; cbn [negb default];
    unfold bind, do_fetch, eval, ret, throw;
    destruct (fetch w _ (remote st)) as [[e|resp] s']; cbn [fst snd];
    case_split; reflexivity.
Qed.

Lemma call_tool_zos_outcome (n : string) (t : zos_tool) (fs : list (string * value))
    (st : process S) (req : request) :
  zos_case n = Some t ->
  zos_configured env = true ->
  zos_request rt env t fs = inr req ->
  fst (call_tool rt env w n (VObj fs) st)
  = match fst (fetch w req (remote st)) with
    | inl e => inr (text_result (Str ("Error: " ++ message e)))
    | inr resp =>
        match response_value resp with
        | inl e => inr (text_result (Str ("Error: " ++ message e)))
        | inr v => inr (text_result (Json (zos_reply t fs v)))
        end
    end.
Proof.
  intros Ht Hc Hr. rewrite (call_tool_zos _ _ _ _ Ht Hc).
  pose proof (zos_handler_outcome t fs st req Hc Hr) as H.
  destruct (zos_handler rt env w t (VObj fs) st) as [[e|r] st']; cbn [caught fst] in *;
    destruct (fst (fetch w req (remote st))) as [e'|resp]; cbn [and_then] in H.
  - congruence.
  - destruct (response_value resp); cbn [and_then] in H; congruence.
  - discriminate H.
  - destruct (response_value resp); cbn [and_then] in H; congruence.
Qed.

(** X6. A failure of the gateway is never returned as a success: when
    [fetch] rejects, the tool returns [Error: ] and the rejection's
    message; when the response is not [ok], it returns
    [Error: z/OS Connect error <status>: <body>] with the status and the
    body text of the response. *)
Theorem gateway_failure_is_reported_as_error :
  forall (n : string) (t : zos_tool) (fs : list (string * value)) (st : process S)
         (req : request),
    zos_case n = Some t ->
    zos_configured env = true ->
    zos_request rt env t fs = inr req ->
    (forall e, fst (fetch w req (remote st)) = inl e ->
               fst (call_tool rt env w n (VObj fs) st)
               = inr (text_result (Str ("Error: " ++ message e))))
    /\ (forall resp errorText,
          fst (fetch w req (remote st)) = inr resp ->
          ok resp = false ->
          text_body resp = inr errorText ->
          fst (call_tool rt env w n (VObj fs) st)
          = inr (text_result (Str ("Error: z/OS Connect error "
                                   ++ string_of_Z (status resp) ++ ": " ++ errorText)))).
Proof.
  intros n t fs st req Ht Hc Hr.
  rewrite (call_tool_zos_outcome n t fs st req Ht Hc Hr). split.
  - intros e ->. reflexivity.
  - intros resp errorText -> Hok Hbody. unfold response_value.
    rewrite Hok, Hbody. reflexivity.
Qed.

(** X7. The content type of an [ok] response decides what the tool
    returns: the parsed JSON body when the [content-type] header contains
    [application/json], the body as a string otherwise, also when the
    header is absent. *)
Theorem content_type_decides_json_or_text :
  forall (n : string) (t : zos_tool) (fs : list (string * value)) (st : process S)
         (req : request) (resp : response),
    zos_case n = Some t ->
    zos_configured env = true ->
    zos_request rt env t fs = inr req ->
    fst (fetch w req (remote st)) = inr resp ->
    ok resp = true ->
    (forall contentType v,
       content_type resp = Some contentType ->
       includes contentType "application/json" = true ->
       json_body resp = inr v ->
       fst (call_tool rt env w n (VObj fs) st) = inr (text_result (Json (zos_reply t fs v))))
    /\ (forall body,
          (content_type resp = None
           \/ exists contentType, content_type resp = Some contentType
                                  /\ includes contentType "application/json" = false) ->
          text_body resp = inr body ->
          fst (call_tool rt env w n (VObj fs) st)
          = inr (text_result (Json (zos_reply t fs (VStr body))))).
Proof.
  intros n t fs st req resp Ht Hc Hr Hf Hok.
  rewrite (call_tool_zos_outcome n t fs st req Ht Hc Hr), Hf.
  unfold response_value. rewrite Hok. cbn [negb]. split.
  - intros ct v -> Hin Hv.
    destruct (String.eqb_spec ct "") as [->|_]; [discriminate Hin|].
    cbn [negb andb]. rewrite Hin, Hv. reflexivity.
  - intros body [->|(ct & -> & Hin)] Hb.
    + rewrite Hb. reflexivity.
    + rewrite Hin, andb_false_r, Hb. reflexivity.
Qed.


(** *** What the requests carry *)

Lemma is_string_eq (v : value) (s : string) : is_string v s = true <-> v = VStr s.
Proof.
  destruct v; cbn [is_string]; split; try discriminate.
  - intros H. apply String.eqb_eq in H. congruence.
  - intros H. injection H as ->. apply String.eqb_refl.
Qed.

(** X8. What a z/OS Connect tool sends.  The parameterless tools and
    [zos_connect_get_service] send a [GET] without a body.
    [zos_connect_call_service] sends the method it was given, [POST] when
    none was; the payload goes along as the JSON body exactly when it is
    truthy and the method is [POST], [PUT] or [PATCH], and in no other
    case: a [GET] or a [DELETE] carries no body even when a payload was
    supplied. *)
Theorem request_method_and_body :
  forall (n : string) (t : zos_tool) (fs : list (string * value)) (st : process S)
         (req : request),
    zos_case n = Some t ->
    zos_configured env = true ->
    zos_request rt env t fs = inr req ->
    calls (snd (call_tool rt env w n (VObj fs) st)) = (calls st ++ [Fetch req])%list
    /\ (t <> zos_connect_call_service -> method req = VStr "GET" /\ body req = None)
    /\ (t = zos_connect_call_service ->
        method req = or (lookup "method" fs) (VStr "POST")
        /\ (body req = Some (lookup "payload" fs)
            <-> truthy (lookup "payload" fs) = true
                /\ (method req = VStr "POST" \/ method req = VStr "PUT"
                    \/ method req = VStr "PATCH"))
        /\ (body req = None
            <-> truthy (lookup "payload" fs) = false
                \/ (method req <> VStr "POST" /\ method req <> VStr "PUT"
                    /\ method req <> VStr "PATCH"))
        /\ (truthy (lookup "method" fs) = false -> truthy (lookup "payload" fs) = true ->
            method req = VStr "POST" /\ body req = Some (lookup "payload" fs))
        /\ (is_string (lookup "method" fs) "GET" = true
            \/ is_string (lookup "method" fs) "DELETE" = true ->
            body req = None)).
Proof.
  intros n t fs st req Ht Hc Hr.
  split; [exact (call_tool_zos_run n t fs st req Ht Hc Hr)|].
  unfold zos_request in Hr.
  destruct (zos_endpoint rt t fs) as [e|endpoint]; cbn [and_then] in Hr; [discriminate Hr|].
  split.
  - intros Hne. destruct t; try contradiction; injection Hr as <-; split; reflexivity.
  - intros ->. injection Hr as <-. cbn [method body fetch_request].
    set (m := or (lookup "method" fs) (VStr "POST")).
    set (payload := lookup "payload" fs).
    assert (Hd : truthy (default payload VNull) = truthy payload)
      by (destruct payload; reflexivity).
    assert (Hd' : truthy payload = true -> default payload VNull = payload)
      by (destruct payload; try discriminate; reflexivity).
    assert (Hb : (is_string m "POST" || is_string m "PUT" || is_string m "PATCH") = true
                 <-> m = VStr "POST" \/ m = VStr "PUT" \/ m = VStr "PATCH").
    { rewrite !orb_true_iff, !is_string_eq. tauto. }
    rewrite Hd.
    assert (Hsome : (if truthy payload
                        && (is_string m "POST" || is_string m "PUT" || is_string m "PATCH")
                     then Some (default payload VNull) else None) = Some payload
                    <-> truthy payload = true
                        /\ (m = VStr "POST" \/ m = VStr "PUT" \/ m = VStr "PATCH")).
    { rewrite <- Hb.
      destruct (truthy payload) eqn:Ep; cbn [andb].
      - destruct (is_string m "POST" || is_string m "PUT" || is_string m "PATCH").
        + rewrite (Hd' eq_refl). tauto.
        + split; [discriminate | intros [_ H]; discriminate H].
      - split; [discriminate | intros [H _]; discriminate H]. }
    assert (Hnone : (if truthy payload
                        && (is_string m "POST" || is_string m "PUT" || is_string m "PATCH")
                     then Some (default payload VNull) else None) = None
                    <-> truthy payload = false
                        \/ (m <> VStr "POST" /\ m <> VStr "PUT" /\ m <> VStr "PATCH")).
    { destruct (truthy payload) eqn:Ep; cbn [andb]; [|tauto].
      destruct (is_string m "POST" || is_string m "PUT" || is_string m "PATCH") eqn:Em.
      - pose proof (proj1 Hb eq_refl) as Hm.
        split; [discriminate|]. intros [H|H]; [discriminate H | tauto].
      - split; [|reflexivity]. intros _. right.
        repeat split; intros H; assert (false = true) as F by (apply Hb; auto);
          discriminate F. }
    split; [reflexivity|]. split; [exact Hsome|]. split; [exact Hnone|]. split.
    + intros Hm Hp. assert (m = VStr "POST") as Em by (unfold m, or; rewrite Hm; reflexivity).
      split; [exact Em|]. apply Hsome. auto.
    + intros H. apply Hnone. right.
      assert (m = VStr "GET" \/ m = VStr "DELETE") as Em.
      { unfold m, or. destruct H as [H|H]; apply is_string_eq in H; rewrite H; auto. }
      destruct Em as [-> | ->]; repeat split; discriminate.
Qed.

(** *** Omitted arguments *)


(** *** Listing keys *)

Lemma key_summary_defined (k : value) :
  nullish k = false -> key_summary k = inr (summary_of k).
Proof. destruct k; try discriminate; reflexivity. Qed.

Lemma key_summaries_defined (items : list value) :
  Forall (fun k => nullish k = false) items ->
  map_result key_summary items = inr (map summary_of items).
Proof.
  induction 1 as [|k items Hk _ IH]; [reflexivity|].
  cbn [map_result map]. rewrite (key_summary_defined _ Hk). cbn [and_then].
  rewrite IH. reflexivity.
Qed.

Lemma list_keys_reply (c : kp_client) (fs : list (string * value)) (st : process S)
    (resp : value) (s' : S) :
  kp_request w c getKeys (kp_params env key_protect_list_keys fs) (remote st) = (inr resp, s') ->
  fst (list_keys env w c (VObj fs) st)
  = and_then (key_summaries resp) (fun keys =>
    inr (text_result (Json (VObj [("total", VNum (Z.of_nat (length keys)));
                                  ("keys", VArr keys)])))).
Proof.
  intros H. unfold list_keys, bind, eval, kp, ret. cbn [prop].
  cbn [kp_params] in H. rewrite H.
  destruct (key_summaries resp); reflexivity.
Qed.

(** X10. What [key_protect_list_keys] reports.  When the backend's
    response has no [resources], the tool returns a total of 0 and no
    keys; when [resources] is an array of keys, the total is the length of
    the array and the keys are the summaries of its elements, one for one
    and in order; anything else in [resources] is an error. *)
Theorem list_keys_reports_every_key :
  forall (fs : list (string * value)) (st st1 : process S) (c : kp_client)
         (resp resources : value) (s' : S),
    getKeyProtectClient env w st = (inr (Some c), st1) ->
    kp_request w c getKeys (kp_params env key_protect_list_keys fs) (remote st)
    = (inr resp, s') ->
    result_prop resp "resources" = inr resources ->
    (nullish resources = true ->
     fst (call_tool rt env w "key_protect_list_keys" (VObj fs) st)
     = inr (text_result (Json (VObj [("total", VNum 0); ("keys", VArr [])]))))
    /\ (forall items,
          resources = VArr items ->
          Forall (fun k => nullish k = false) items ->
          fst (call_tool rt env w "key_protect_list_keys" (VObj fs) st)
          = inr (text_result (Json (VObj
              [("total", VNum (Z.of_nat (length items)));
               ("keys", VArr (map summary_of items))]))))
    /\ (nullish resources = false -> (forall items, resources <> VArr items) ->
        fst (call_tool rt env w "key_protect_list_keys" (VObj fs) st)
        = inr (text_result
                 (Str "Error: response.result.resources?.map is not a function"))).
Proof.
  intros fs st st1 c resp resources s' Hc Hk Hres.
  rewrite (call_tool_kp "key_protect_list_keys" key_protect_list_keys _ _ _ _ eq_refl Hc).
  destruct (getKeyProtectClient_ready _ _ _ Hc) as (_ & Hr & _). rewrite <- Hr in Hk.
  pose proof (list_keys_reply c fs st1 resp s' Hk) as H. cbn [kp_handler].
  unfold key_summaries in H. rewrite Hres in H. cbn [and_then] in H.
  split; [|split].
  - intros Hn. apply caught_fst. rewrite H.
    destruct resources; try discriminate Hn; reflexivity.
  - intros items -> Hall. apply caught_fst. rewrite H.
    rewrite (key_summaries_defined _ Hall). cbn [and_then].
    rewrite length_map. reflexivity.
  - intros Hn Hna.
    destruct (list_keys env w c (VObj fs) st1) as [[e|r] st2]; cbn [fst caught] in *.
    + destruct resources; try discriminate Hn;
        try (injection H as ->; reflexivity).
      elim (Hna items). reflexivity.
    + destruct resources; try discriminate Hn; try discriminate H.
      elim (Hna items). reflexivity.
Qed.


(** *** The client handle, request by request *)

(** X11. The Key Protect client is created on first use and not before.
    A request whose name does not start with [key_protect_] leaves the
    handle as it is.  The first [key_protect_] request of a configured
    process creates the client from the configuration, whatever the rest of
    the request does; when the constructor throws, the request returns
    [Error: ] and the constructor's message, and the process is unchanged
    (so the next request tries again). *)
Theorem client_is_created_on_first_use :
  forall (n : string) (args : value) (st : process S),
    (startsWith n "key_protect_" = false ->
     keyProtectClient (snd (call_tool rt env w n args st)) = keyProtectClient st)
    /\ (startsWith n "key_protect_" = true ->
        keyProtectClient st = None ->
        kp_configured env = true ->
        (new_client w (configured_client env) = None ->
         keyProtectClient (snd (call_tool rt env w n args st))
         = Some (configured_client env))
        /\ (forall e,
              new_client w (configured_client env) = Some e ->
              call_tool rt env w n args st
              = (inr (text_result (Str ("Error: " ++ message e))), st))).
Proof.
  intros n args st. split.
  - intros Hp. unfold call_tool, try_catch, call_tool_body, key_protect_block.
    rewrite Hp. unfold bind at 1. cbn [ret]. unfold bind.
    pose proof (zos_connect_block_keeps n args st) as Hz.
    destruct (zos_connect_block rt env w n args st) as [[e|[r|]] st']; exact Hz.
  - intros Hp Hn Hc. unfold kp_configured in Hc. split.
    + intros Hnew.
      assert (getKeyProtectClient env w st
              = (inr (Some (configured_client env)),
                 {| keyProtectClient := Some (configured_client env);
                    remote := remote st; calls := calls st |})) as Hget.
      { unfold getKeyProtectClient. rewrite Hn, Hc.
        fold (configured_client env). rewrite Hnew. reflexivity. }
      unfold call_tool, try_catch, call_tool_body, key_protect_block.
      rewrite Hp. unfold bind. rewrite Hget.
      destruct (kp_case n) as [t|].
      * match goal with
        | |- context [kp_handler env w t ?c args ?s] =>
            pose proof (kp_handler_keeps t c args s) as Hk;
            destruct (kp_handler env w t c args s) as [[e|r] st']
        end; exact Hk.
      * cbn [ret].
        match goal with
        | |- context [zos_connect_block rt env w n args ?s] =>
            pose proof (zos_connect_block_keeps n args s) as Hz;
            destruct (zos_connect_block rt env w n args s) as [[e|[r|]] st']
        end; exact Hz.
    + intros e Hnew.
      assert (getKeyProtectClient env w st = (inl e, st)) as Hget.
      { unfold getKeyProtectClient. rewrite Hn, Hc.
        fold (configured_client env). rewrite Hnew. reflexivity. }
      unfold call_tool, try_catch, call_tool_body, key_protect_block.
      rewrite Hp. unfold bind. rewrite Hget. reflexivity.
Qed.

Lemma call_tool_unconfigured_step (n : string) (args : value) (st : process S) :
  kp_configured env = false -> keyProtectClient st = None ->
  keyProtectClient (snd (call_tool rt env w n args st)) = None
  /\ (calls (snd (call_tool rt env w n args st)) = calls st
      \/ exists req,
           calls (snd (call_tool rt env w n args st)) = (calls st ++ [Fetch req])%list).
Proof.
  intros Hc Hn. split.
  - destruct (call_tool_creates_at_most n args st) as [->|(_ & Hk & _)]; congruence.
  - destruct (call_tool_one_call n args st) as [E|(ev & E & H)]; [left; exact E|].
    destruct H as [(t & params & Ht & -> & _) | (_ & _ & endpoint & m & b & -> & _)].
    + rewrite (call_tool_kp_unconfigured n args st (kp_case_prefix _ _ Ht)
                 (getKeyProtectClient_unconfigured st Hn Hc)) in E.
      cbn [snd] in E. left. rewrite (call_tool_kp_unconfigured n args st
        (kp_case_prefix _ _ Ht) (getKeyProtectClient_unconfigured st Hn Hc)).
      reflexivity.
    + right. eauto.
Qed.

(** X12. Without the Key Protect configuration the key-custody backend is
    never contacted: over any session no client is created and no SDK call
    is issued; every call of the session is a request to the gateway. *)
Theorem unconfigured_key_protect_is_never_contacted :
  forall (requests : list (string * value)) (st : process S),
    kp_configured env = false ->
    client_coherent env st ->
    keyProtectClient (serve rt env w requests st) = None
    /\ exists l,
         calls (serve rt env w requests st) = (calls st ++ l)%list
         /\ forallb is_fetch l = true.
Proof.
  intros requests st Hc Hst.
  assert (keyProtectClient st = None) as Hn
      by (destruct Hst as [H|[H _]]; [exact H | congruence]).
  clear Hst. revert st Hn.
  induction requests as [|[n args] rest IH]; intros st Hn.
  - split; [exact Hn|]. exists []. rewrite app_nil_r. split; reflexivity.
  - cbn [serve].
    destruct (call_tool_unconfigured_step n args st Hc Hn) as [Hn' Hcalls].
    destruct (IH _ Hn') as (Hk & l & E & Hl). split; [exact Hk|].
    destruct Hcalls as [E1|(req & E1)]; rewrite E1 in E.
    + exists l. split; assumption.
    + exists (Fetch req :: l). rewrite <- app_assoc in E. split; [exact E|].
      cbn [forallb is_fetch andb]. exact Hl.
Qed.

(** *** Additional authenticated data *)

Lemma aad_of_body (aad : value) (k : string) (v : value) :
  k <> "aad" ->
  lookup "aad" (set_if aad [(k, v)] "aad" aad) = if truthy aad then aad else VUndef.
Proof.
  intros Hk. unfold set_if. destruct (truthy aad); cbn [set_prop lookup];
    destruct (String.eqb_spec k "aad"); try contradiction; [|reflexivity].
  cbn [lookup]. destruct (String.eqb_spec k "aad"); [contradiction | reflexivity].
Qed.

(** X13. The [aad] argument reaches the backend unchanged and alike on
    both sides: a wrap and an unwrap with the same [aad] send bodies with
    the same [aad] property, which is the argument itself when it is truthy
    (any array, the empty one included) and is absent when the argument is
    omitted, [null] or empty text. *)
Theorem aad_is_forwarded_alike :
  forall (wrap_args unwrap_args : list (string * value)) (aad : value)
         (st st1 : process S) (c : kp_client),
    getKeyProtectClient env w st = (inr (Some c), st1) ->
    lookup "aad" wrap_args = aad ->
    lookup "aad" unwrap_args = aad ->
    exists wrapBody unwrapBody,
      calls (snd (call_tool rt env w "key_protect_wrap_key" (VObj wrap_args) st))
      = (calls st
         ++ [KpCall wrapKey
               (VObj [("id", lookup "key_id" wrap_args);
                      ("bluemixInstance", bluemixInstance env);
                      ("keyActionWrapBody", VObj wrapBody)])])%list
      /\ calls (snd (call_tool rt env w "key_protect_unwrap_key" (VObj unwrap_args) st))
         = (calls st
            ++ [KpCall unwrapKey
                  (VObj [("id", lookup "key_id" unwrap_args);
                         ("bluemixInstance", bluemixInstance env);
                         ("keyActionUnwrapBody", VObj unwrapBody)])])%list
      /\ lookup "aad" wrapBody = lookup "aad" unwrapBody
      /\ lookup "aad" wrapBody = (if truthy aad then aad else VUndef)
      /\ (forall items, aad = VArr items -> lookup "aad" wrapBody = VArr items).
Proof.
  intros wrap_args unwrap_args aad st st1 c Hc Hw Hu.
  eexists _, _. split; [|split].
  - exact (proj1 (call_tool_kp_run "key_protect_wrap_key" key_protect_wrap_key
                    wrap_args st st1 c eq_refl Hc)).
  - exact (proj1 (call_tool_kp_run "key_protect_unwrap_key" key_protect_unwrap_key
                    unwrap_args st st1 c eq_refl Hc)).
  - rewrite Hw, Hu, !aad_of_body by discriminate.
    split; [reflexivity|]. split; [reflexivity|]. intros items ->. reflexivity.
Qed.

(** *** Reading one key, creating one, paging *)

Lemma get_key_reply (c : kp_client) (fs : list (string * value)) (st : process S)
    (resp : value) (s' : S) :
  kp_request w c getKey (kp_params env key_protect_get_key fs) (remote st) = (inr resp, s') ->
  fst (get_key env w c (VObj fs) st)
  = and_then (result_prop resp "resources") (fun resources =>
    inr (text_result (Json (if nullish resources then VUndef else index0 resources)))).
Proof.
  intros H. unfold get_key, bind, eval, kp, ret. cbn [prop].
  cbn [kp_params] in H. rewrite H. unfold first_resource, result_prop.
  destruct (prop resp "result") as [e|result]; cbn [and_then]; [reflexivity|].
  destruct (prop result "resources") as [e|resources]; cbn [and_then]; [reflexivity|].
  destruct (nullish resources); reflexivity.
Qed.

(** X16. [key_protect_get_key] returns the first element of the
    backend's [resources] and ignores the others; when [resources] is
    absent or empty, the payload it serialises is [undefined]. *)
Theorem get_key_returns_the_first_resource :
  forall (fs : list (string * value)) (st st1 : process S) (c : kp_client)
         (resp resources : value) (s' : S),
    getKeyProtectClient env w st = (inr (Some c), st1) ->
    kp_request w c getKey (kp_params env key_protect_get_key fs) (remote st) = (inr resp, s') ->
    result_prop resp "resources" = inr resources ->
    (forall key others,
       resources = VArr (key :: others) ->
       fst (call_tool rt env w "key_protect_get_key" (VObj fs) st)
       = inr (text_result (Json key)))
    /\ (nullish resources = true \/ resources = VArr [] ->
        fst (call_tool rt env w "key_protect_get_key" (VObj fs) st)
        = inr (text_result (Json VUndef))).
Proof.
  intros fs st st1 c resp resources s' Hc Hk Hres.
  rewrite (call_tool_kp "key_protect_get_key" key_protect_get_key _ _ _ _ eq_refl Hc).
  destruct (getKeyProtectClient_ready _ _ _ Hc) as (_ & Hr & _). rewrite <- Hr in Hk.
  pose proof (get_key_reply c fs st1 resp s' Hk) as H. rewrite Hres in H.
  cbn [and_then] in H. cbn [kp_handler]. split.
  - intros key others ->. apply caught_fst. exact H.
  - intros [Hn | ->]; apply caught_fst; rewrite H; [rewrite Hn|]; reflexivity.
Qed.

(** X17. The requested key type reaches the backend through
    [extractable] alone: creating a [root_key] and creating a key of any
    other type with [extractable] falsy, the other arguments being equal,
    are the same request with the same outcome. *)
Theorem key_type_is_sent_as_extractable_only :
  forall (fs1 fs2 : list (string * value)) (st : process S),
    lookup "name" fs1 = lookup "name" fs2 ->
    lookup "description" fs1 = lookup "description" fs2 ->
    lookup "payload" fs1 = lookup "payload" fs2 ->
    is_string (lookup "type" fs1) "root_key" = true ->
    is_string (lookup "type" fs2) "root_key" = false ->
    truthy (lookup "extractable" fs2) = false ->
    call_tool rt env w "key_protect_create_key" (VObj fs1) st
    = call_tool rt env w "key_protect_create_key" (VObj fs2) st.
Proof.
  intros fs1 fs2 st Hn Hd Hp H1 H2 Hx. apply call_tool_ext.
  - intros t c st1 Ht. vm_compute in Ht. injection Ht as <-.
    cbn [kp_handler]. unfold create_key, bind, eval. cbn [prop].
    rewrite Hn, Hd, Hp, H1, H2.
    assert (or (lookup "extractable" fs2) (VBool false) = VBool false) as ->
        by (unfold or; rewrite Hx; reflexivity).
    reflexivity.
  - intros t st1 Ht. vm_compute in Ht. discriminate Ht.
Qed.

(** X18. Paging numbers other than zero reach the backend unchanged:
    a non-zero [limit] and any [offset] that are numbers are sent as they
    were given (negative ones too: there is no range check). *)
Theorem list_keys_passes_paging_through :
  forall (fs : list (string * value)) (limit offset : Z) (st st1 : process S)
         (c : kp_client),
    getKeyProtectClient env w st = (inr (Some c), st1) ->
    lookup "limit" fs = VNum limit -> limit <> 0%Z ->
    lookup "offset" fs = VNum offset ->
    calls (snd (call_tool rt env w "key_protect_list_keys" (VObj fs) st))
    = (calls st
       ++ [KpCall getKeys
             (VObj [("bluemixInstance", bluemixInstance env);
                    ("limit", VNum limit);
                    ("offset", VNum offset);
                    ("state", lookup "state" fs)])])%list.
Proof.
  intros fs limit offset st st1 c Hc Hl Hnz Ho.
  rewrite (proj1 (call_tool_kp_run "key_protect_list_keys" key_protect_list_keys
                    fs st st1 c eq_refl Hc)).
  cbn [kp_method_of kp_params]. rewrite Hl, Ho, (or_nonzero _ _ Hnz).
  unfold or. cbn [truthy]. destruct (Z.eqb_spec offset 0) as [->|_]; reflexivity.
Qed.


End Properties.

(** *** Repeated placeholders *)

Lemma startsWith_app (s b : string) : startsWith (s ++ b) s = true.
Proof.
  induction s as [|x s IH]; [destruct b; reflexivity|].
  cbn [append startsWith]. rewrite Ascii.eqb_refl. exact IH.
Qed.

Lemma drop_app (s b : string) : drop (String.length s) (s ++ b) = b.
Proof. induction s as [|x s IH]; [reflexivity | exact IH]. Qed.

Lemma replace_unfold (s pat rep : string) :
  replace s pat rep
  = if startsWith s pat then rep ++ drop (String.length pat) s
    else match s with
         | EmptyString => EmptyString
         | String c s' => String c (replace s' pat rep)
         end.
Proof. destruct s; reflexivity. Qed.

(** The first occurrence of the pattern is replaced: the one before which
    no occurrence starts. *)
Lemma replace_first (a b pat rep : string) :
  (forall i, i < String.length a -> startsWith (drop i (a ++ pat ++ b)) pat = false) ->
  replace (a ++ pat ++ b) pat rep = a ++ rep ++ b.
Proof.
  induction a as [|c a IH]; intros H.
  - cbn [append]. rewrite replace_unfold, startsWith_app, drop_app. reflexivity.
  - rewrite replace_unfold.
    pose proof (H 0 (Nat.lt_0_succ _)) as H0. cbn [drop] in H0. rewrite H0.
    cbn [append]. f_equal. apply IH. intros i Hi.
    apply (H (Datatypes.S i)). cbn [String.length]. lia.
Qed.

(** C7, evaluated at a path that repeats a placeholder: only the first
    [{id}] is replaced, where replacing every occurrence would give
    another path. *)
Theorem repeated_placeholder_is_replaced_once :
  call_service_path (VStr "accounts") (VStr "/{id}/history/{id}")
    (VObj [("id", VNum 7)])
  = inr "/zosConnect/services/accounts/7/history/{id}"
  /\ encoded (VNum 7) = inr "7"
  /\ replaceAll "/zosConnect/services/accounts/{id}/history/{id}" "{id}" "7"
     = "/zosConnect/services/accounts/7/history/7".
Proof. repeat split; reflexivity. Qed.

(** *** Resolving distinct placeholders *)

Lemma append_assoc (a b c : string) : (a ++ b) ++ c = a ++ (b ++ c).
Proof. induction a as [|x a IH]; [reflexivity|]. cbn [append]. rewrite IH. reflexivity. Qed.

Lemma has_char_app (c : ascii) (a b : string) :
  has_char c (a ++ b) = has_char c a || has_char c b.
Proof.
  induction a as [|x a IH]; [reflexivity|].
  cbn [append has_char]. rewrite IH, orb_assoc. reflexivity.
Qed.

Lemma brace_free_spec (s : string) :
  brace_free s = true <-> has_char "{" s = false /\ has_char "}" s = false.
Proof.
  unfold brace_free. rewrite andb_true_iff, !negb_true_iff. reflexivity.
Qed.

Lemma hex_digit_brace_free (n : N) :
  Ascii.eqb "{" (hex_digit n) = false /\ Ascii.eqb "}" (hex_digit n) = false.
Proof.
  unfold hex_digit. generalize (N.to_nat n). intros k.
  do 16 (destruct k as [|k]; [split; reflexivity|]). split; reflexivity.
Qed.

(** An encoded value holds no brace. *)
Lemma percent_encode_brace_free (s : string) :
  brace_free (percent_encode s) = true.
Proof.
  apply brace_free_spec.
  induction s as [|c s [IH1 IH2]]; [split; reflexivity|].
  cbn [percent_encode]. destruct (uri_unreserved c) eqn:E.
  - cbn [has_char]. rewrite IH1, IH2.
    destruct (Ascii.eqb_spec "{" c) as [<-|_]; [discriminate E|].
    destruct (Ascii.eqb_spec "}" c) as [<-|_]; [discriminate E|].
    split; reflexivity.
  - cbn [has_char].
    destruct (hex_digit_brace_free (N_of_ascii c / 16)) as [-> ->].
    destruct (hex_digit_brace_free (N_of_ascii c mod 16)) as [-> ->].
    rewrite IH1, IH2. split; reflexivity.
Qed.

(** The scan for a placeholder steps over text without an opening brace. *)
Lemma replace_skip (s x pat rep : string) :
  has_char "{" s = false ->
  replace (s ++ x) (String "{" pat) rep = s ++ replace x (String "{" pat) rep.
Proof.
  induction s as [|c s IH]; intros H; [reflexivity|].
  cbn [has_char] in H. apply orb_false_iff in H. destruct H as [Hc Hs].
  cbn [append replace startsWith]. rewrite Hc. cbn [andb]. rewrite (IH Hs). reflexivity.
Qed.

(** Two placeholder names without a closing brace match only when equal. *)
Lemma placeholder_mismatch (k k' rest : string) :
  has_char "}" k = false -> has_char "}" k' = false -> k' <> k ->
  startsWith (k' ++ "}" ++ rest) (k ++ "}") = false.
Proof.
  revert k'. induction k as [|a k IH]; intros k' Hk Hk' Hne.
  - destruct k' as [|b k']; [contradiction|].
    cbn [has_char] in Hk'. apply orb_false_iff in Hk'. destruct Hk' as [Hb _].
    cbn [append startsWith]. rewrite Hb. reflexivity.
  - cbn [has_char] in Hk. apply orb_false_iff in Hk. destruct Hk as [Ha Hk].
    destruct k' as [|b k'].
    + cbn [append startsWith]. rewrite eqb_sym, Ha. reflexivity.
    + cbn [has_char] in Hk'. apply orb_false_iff in Hk'. destruct Hk' as [Hb Hk'].
      cbn [append startsWith].
      destruct (Ascii.eqb_spec a b) as [->|_]; [|reflexivity].
      cbn [andb]. apply IH; [assumption..|]. congruence.
Qed.

Lemma fill1_absent (key rep : string) (t : list piece) :
  ~ In key (holes t) -> fill1 key rep t = t.
Proof.
  induction t as [|[s|k] t IH]; intros H; [reflexivity| |].
  - cbn [fill1]. rewrite IH; [reflexivity | exact H].
  - cbn [fill1 holes] in *. destruct (String.eqb_spec k key) as [->|_].
    + elim H. left. reflexivity.
    + rewrite IH; [reflexivity|]. intros Hin. apply H. right. exact Hin.
Qed.

(** One step of the loop on a well-formed template: [replace] finds the
    placeholder of [key], if there is one, and nothing else. *)
Lemma replace_render (key rep : string) (t : list piece) :
  well_formed t -> brace_free key = true ->
  replace (render t) ("{" ++ key ++ "}") rep = render (fill1 key rep t).
Proof.
  intros [Hok Hnd] Hkey. apply brace_free_spec in Hkey. destruct Hkey as [Hk1 Hk2].
  change ("{" ++ key ++ "}") with (String "{" (key ++ "}")).
  induction t as [|[s|k] t IH].
  - reflexivity.
  - inversion Hok as [|? ? Hs Hok']; subst. cbn [piece_text] in Hs.
    apply brace_free_spec in Hs. destruct Hs as [Hs _].
    cbn [render fill1 holes] in *. rewrite (replace_skip _ _ _ _ Hs), (IH Hok' Hnd).
    reflexivity.
  - inversion Hok as [|? ? Hs Hok']; subst. cbn [piece_text] in Hs.
    apply brace_free_spec in Hs. destruct Hs as [Hs1 Hs2].
    cbn [holes] in Hnd. inversion Hnd as [|? ? Hnotin Hnd']; subst.
    cbn [render fill1].
    destruct (String.eqb_spec k key) as [->|Hne].
    + change ("{" ++ key ++ "}" ++ render t) with (String "{" (key ++ "}" ++ render t)).
      replace (String "{" (key ++ "}" ++ render t))
        with (String "{" (key ++ "}") ++ render t)
        by (cbn [append]; rewrite append_assoc; reflexivity).
      rewrite replace_unfold, startsWith_app, drop_app.
      cbn [render]. rewrite (fill1_absent _ _ _ Hnotin). reflexivity.
    + change ("{" ++ k ++ "}" ++ render t) with (String "{" (k ++ "}" ++ render t)).
      rewrite replace_unfold. cbn [startsWith].
      rewrite (placeholder_mismatch key k (render t) Hk2 Hs2 Hne).
      cbn [andb]. rewrite Ascii.eqb_refl. cbn [andb].
      rewrite (replace_skip _ _ _ _ Hs1).
      change ("}" ++ render t) with (String "}" (render t)).
      rewrite replace_unfold. cbn [startsWith andb Ascii.eqb Bool.eqb].
      rewrite (IH Hok' Hnd'). reflexivity.
Qed.

Lemma holes_fill1 (key rep : string) (t : list piece) :
  holes (fill1 key rep t) = filter (fun k => negb (k =? key)) (holes t).
Proof.
  induction t as [|[s|k] t IH]; [reflexivity | exact IH |].
  cbn [fill1 holes filter]. destruct (k =? key); cbn [negb holes]; rewrite IH; reflexivity.
Qed.

Lemma fill1_pieces_ok (key rep : string) (t : list piece) :
  Forall (fun p => brace_free (piece_text p) = true) t ->
  brace_free rep = true ->
  Forall (fun p => brace_free (piece_text p) = true) (fill1 key rep t).
Proof.
  intros H Hrep. induction t as [|p t IH]; [constructor|].
  inversion H as [|? ? Hp Ht]; subst.
  destruct p as [s|k]; cbn [fill1]; constructor; auto.
  destruct (k =? key); assumption.
Qed.

Lemma fill1_well_formed (key rep : string) (t : list piece) :
  well_formed t -> brace_free rep = true -> well_formed (fill1 key rep t).
Proof.
  intros [Hok Hnd] Hrep. split.
  - apply fill1_pieces_ok; assumption.
  - rewrite holes_fill1. apply NoDup_filter. exact Hnd.
Qed.

(** An encoded value holds no brace. *)
Lemma encoded_brace_free (v : value) (text : string) :
  encoded v = inr text -> brace_free text = true.
Proof.
  unfold encoded, encodeURIComponent.
  destruct (to_string v) as [e|s]; cbn [and_then]; [discriminate|].
  destruct (lone_surrogate s); [discriminate|].
  intros E. assert (text = percent_encode s) as -> by congruence.
  apply percent_encode_brace_free.
Qed.

(** The loop on a well-formed template fills the placeholders. *)
Lemma substitute_render (params : list (string * value)) (texts : list (string * string))
    (t : list piece) :
  well_formed t ->
  Forall (fun kv => brace_free (fst kv) = true) params ->
  encode_all params = inr texts ->
  substitute params (render t) = inr (render (fill texts t)).
Proof.
  intros Hwf Hp. revert t texts Hwf.
  induction Hp as [|[key v] rest Hk _ IH]; intros t texts Hwf He.
  - cbn [encode_all] in He. assert (texts = []) as -> by congruence. reflexivity.
  - rewrite substitute_step. cbn [encode_all] in He.
    destruct (encoded v) as [e|text] eqn:Ev; cbn [and_then] in *; [discriminate|].
    destruct (encode_all rest) as [e|texts'] eqn:Er; cbn [and_then] in He; [discriminate|].
    assert (texts = (key, text) :: texts') as -> by congruence.
    cbn [fill]. cbn [fst] in Hk.
    rewrite (replace_render _ _ _ Hwf Hk). apply IH; [|reflexivity].
    apply fill1_well_formed; [exact Hwf | exact (encoded_brace_free _ _ Ev)].
Qed.

Lemma encode_all_keys (params : list (string * value)) (texts : list (string * string)) :
  encode_all params = inr texts -> map fst texts = map fst params.
Proof.
  revert texts. induction params as [|[key v] rest IH]; intros texts He;
    cbn [encode_all] in He.
  - assert (texts = []) as -> by congruence. reflexivity.
  - destruct (encoded v) as [e|text]; cbn [and_then] in He; [discriminate|].
    destruct (encode_all rest) as [e|texts']; cbn [and_then] in He; [discriminate|].
    assert (texts = (key, text) :: texts') as -> by congruence.
    cbn [map fst]. rewrite (IH _ eq_refl). reflexivity.
Qed.

Lemma encode_all_brace_free (params : list (string * value))
    (texts : list (string * string)) :
  encode_all params = inr texts ->
  Forall (fun kt => brace_free (snd kt) = true) texts.
Proof.
  revert texts. induction params as [|[key v] rest IH]; intros texts He;
    cbn [encode_all] in He.
  - assert (texts = []) as -> by congruence. constructor.
  - destruct (encoded v) as [e|text] eqn:Ev; cbn [and_then] in He; [discriminate|].
    destruct (encode_all rest) as [e|texts']; cbn [and_then] in He; [discriminate|].
    assert (texts = (key, text) :: texts') as -> by congruence.
    constructor; [exact (encoded_brace_free _ _ Ev) | exact (IH _ eq_refl)].
Qed.

Lemma holes_fill (texts : list (string * string)) (t : list piece) :
  holes (fill texts t)
  = filter (fun k => negb (existsb (String.eqb k) (map fst texts))) (holes t).
Proof.
  revert t. induction texts as [|[key v] rest IH]; intros t.
  - cbn [fill map existsb negb]. induction (holes t) as [|k l IHl]; [reflexivity|].
    cbn [filter]. rewrite <- IHl. reflexivity.
  - cbn [fill map existsb fst]. rewrite IH, holes_fill1.
    induction (holes t) as [|k l IHl]; [reflexivity|].
    cbn [filter]. destruct (k =? key); cbn [negb orb filter]; rewrite IHl; reflexivity.
Qed.

Lemma fill_pieces_ok (texts : list (string * string)) (t : list piece) :
  Forall (fun kt => brace_free (snd kt) = true) texts ->
  Forall (fun p => brace_free (piece_text p) = true) t ->
  Forall (fun p => brace_free (piece_text p) = true) (fill texts t).
Proof.
  intros Ht. revert t.
  induction Ht as [|[key text] rest Hk _ IH]; intros t H; [exact H|].
  cbn [fill]. apply IH. apply fill1_pieces_ok; [exact H | exact Hk].
Qed.

Lemma render_without_holes (t : list piece) :
  Forall (fun p => brace_free (piece_text p) = true) t -> holes t = [] ->
  brace_free (render t) = true.
Proof.
  intros H. induction t as [|p t IH]; intros Hh; [reflexivity|].
  inversion H as [|? ? Hp Hok]; subst.
  destruct p as [s|k]; [|discriminate Hh].
  cbn [render holes piece_text] in *. specialize (IH Hok Hh).
  apply brace_free_spec in Hp. apply brace_free_spec in IH. apply brace_free_spec.
  rewrite !has_char_app. destruct Hp as [-> ->], IH as [-> ->]. split; reflexivity.
Qed.

(** X4. Template resolution, where it holds.  When the endpoint that the
    template literal of [zos_connect_call_service] builds is a template
    whose placeholders are distinct and whose text and names hold no
    brace, and [path_params] is an object whose keys hold no brace and name
    every placeholder, then: when every value converts to a string and
    encodes, the endpoint after the loop is the template with each
    placeholder replaced by its encoded value, and no brace is left in it;
    and when the conversion or the encoding of a value throws, the loop
    throws that error and there is no endpoint. *)
Theorem distinct_placeholders_are_all_resolved :
  forall (t : list piece) (params : list (string * value))
         (service_name operation : value) (name_text operation_text : string),
    to_string service_name = inr name_text ->
    to_string (or operation (VStr "/")) = inr operation_text ->
    "/zosConnect/services/" ++ name_text ++ operation_text = render t ->
    well_formed t ->
    Forall (fun kv => brace_free (fst kv) = true) params ->
    (forall key, In key (holes t) -> In key (map fst params)) ->
    match encode_all params with
    | inr texts =>
        call_service_path service_name operation (VObj params)
        = inr (render (fill texts t))
        /\ holes (fill texts t) = []
        /\ has_char "{" (render (fill texts t)) = false
        /\ has_char "}" (render (fill texts t)) = false
    | inl e => call_service_path service_name operation (VObj params) = inl e
    end.
Proof.
  intros t params service_name operation name_text operation_text Hn Ho Ht Hwf Hp Hall.
  unfold call_service_path. rewrite Hn, Ho. cbn [truthy entries and_then]. rewrite Ht.
  destruct (encode_all params) as [e|texts] eqn:He.
  - exact (substitute_throws _ _ _ He).
  - assert (holes (fill texts t) = []) as Hh.
    { rewrite holes_fill, (encode_all_keys _ _ He).
      induction (holes t) as [|k l IH]; [reflexivity|].
      cbn [filter].
      assert (existsb (String.eqb k) (map fst params) = true) as ->.
      { apply existsb_exists. exists k. split; [|apply String.eqb_refl].
        apply Hall. left. reflexivity. }
      cbn [negb]. apply IH. intros key Hin. apply Hall. right. exact Hin. }
    split; [|split; [exact Hh|]].
    + exact (substitute_render _ _ _ Hwf Hp He).
    + apply brace_free_spec. apply render_without_holes; [|exact Hh].
      apply fill_pieces_ok; [exact (encode_all_brace_free _ _ He) | exact (proj1 Hwf)].
Qed.


(** *** The tool list and the two [switch] statements *)

(** X14. The tool list and the handler agree: the listed names are
    pairwise distinct, and a name is listed exactly when one of the two
    [switch] statements has a [case] for it (a listed tool is never
    answered with [Unknown tool], and no [case] is unlisted). *)
Theorem tool_list_matches_the_cases :
  NoDup tool_names
  /\ forall n,
       In n tool_names
       <-> ((exists t, kp_case n = Some t) \/ (exists t, zos_case n = Some t)).
Proof.
  split.
  - cbn.
    repeat (constructor;
            [cbn; intros H; repeat (destruct H as [H|H]; [discriminate H|]); exact H|]).
    constructor.
  - intros n. split; [apply in_tool_names|].
    intros [[t H]|[t H]]; [exact (kp_case_in _ _ H) | exact (zos_case_in _ _ H)].
Qed.

(** *** The two integrations are independent *)

(** X15. The outcome of a [key_protect_] request does not depend on the
    z/OS Connect configuration, and the outcome of a [zos_connect_]
    request does not depend on the Key Protect configuration: two
    environments that agree on the variables of one integration give its
    requests the same result and the same process. *)
Theorem integrations_are_independent :
  forall (S : Type) (rt : runtime) (w : world S) (env1 env2 : environment)
         (n : string) (args : value) (st : process S),
    (startsWith n "key_protect_" = true ->
     IBM_CLOUD_API_KEY env1 = IBM_CLOUD_API_KEY env2 ->
     KEY_PROTECT_INSTANCE_ID env1 = KEY_PROTECT_INSTANCE_ID env2 ->
     env_KEY_PROTECT_URL env1 = env_KEY_PROTECT_URL env2 ->
     call_tool rt env1 w n args st = call_tool rt env2 w n args st)
    /\ (startsWith n "zos_connect_" = true ->
        ZOS_CONNECT_URL env1 = ZOS_CONNECT_URL env2 ->
        ZOS_CONNECT_USERNAME env1 = ZOS_CONNECT_USERNAME env2 ->
        ZOS_CONNECT_PASSWORD env1 = ZOS_CONNECT_PASSWORD env2 ->
        call_tool rt env1 w n args st = call_tool rt env2 w n args st).
Proof.
  intros S rt w [k1 i1 u1 z1 zu1 zp1] [k2 i2 u2 z2 zu2 zp2] n args st.
  cbn [IBM_CLOUD_API_KEY KEY_PROTECT_INSTANCE_ID env_KEY_PROTECT_URL ZOS_CONNECT_URL
       ZOS_CONNECT_USERNAME ZOS_CONNECT_PASSWORD].
  split.
  - intros Hp <- <- <-.
    assert (startsWith n "zos_connect_" = false) as Hz.
    { destruct (startsWith n "zos_connect_") eqn:Ez; [|reflexivity].
      rewrite (prefixes_disjoint _ Ez) in Hp. discriminate Hp. }
    unfold call_tool, try_catch, call_tool_body, zos_connect_block. rewrite Hz.
    reflexivity.
  - intros Hp <- <- <-.
    unfold call_tool, try_catch, call_tool_body, key_protect_block.
    rewrite (prefixes_disjoint _ Hp). reflexivity.
Qed.


(** ** The properties on the sample deployment *)

Lemma sample_client_ready :
  getKeyProtectClient Sample.config Sample.backends Sample.start
  = (inr (Some Sample.client), Sample.with_client).
Proof. reflexivity. Qed.

(** C1 as stated fails: a [keyVersion] given to the unwrap tool does not
    reach the backend.  The one call issued carries the key id, the
    instance and the ciphertext only, whatever version the caller names. *)
Lemma unwrap_drops_keyVersion :
  calls (snd (Sample.run "key_protect_unwrap_key" (VObj (Sample.unwrap_dek (VStr "1")))))
  = [KpCall unwrapKey
       (VObj [("id", VStr "root-1"); ("bluemixInstance", VStr "instance-1");
              ("keyActionUnwrapBody",
               VObj [("ciphertext", VStr "1:c2VjcmV0LWRlaw==")])])]
  /\ prop (kp_params Sample.config key_protect_unwrap_key (Sample.unwrap_dek (VStr "1")))
         "keyVersion" = inr VUndef
  /\ kp_params Sample.config key_protect_unwrap_key (Sample.unwrap_dek (VStr "1"))
     = kp_params Sample.config key_protect_unwrap_key (Sample.unwrap_dek (VStr "2")).
Proof. repeat split; reflexivity. Qed.

Lemma unwrap_round_trip_on_sample :
  fst (call_tool Sample.node Sample.config Sample.backends "key_protect_wrap_key"
         (VObj Sample.wrap_dek) Sample.start)
  = inr (text_result (Json (VObj [("message", VStr "Key wrapped successfully");
                                  ("ciphertext", VStr "1:c2VjcmV0LWRlaw==");
                                  ("keyVersion", VObj [("id", VStr "1")])])))
  /\ remote Sample.rotated = 2%Z
  /\ fst (call_tool Sample.node Sample.config Sample.backends "key_protect_unwrap_key"
            (VObj (Sample.unwrap_dek (VStr "no such version"))) Sample.rotated)
     = inr (text_result (Json (VObj [("message", VStr "Key unwrapped successfully");
                                     ("plaintext", Sample.dek);
                                     ("keyVersion", VObj [("id", VStr "1")])]))).
Proof.
  destruct (unwrap_round_trip_is_the_backends Sample.node Sample.config Sample.backends
              Sample.client (VStr "root-1") Sample.dek VUndef (VStr "no such version")
              (VStr "1:c2VjcmV0LWRlaw==") (VObj [("id", VStr "1")])
              (VObj [("id", VStr "1")])
              (VObj [("result",
                      VObj [("ciphertext", VStr "1:c2VjcmV0LWRlaw==");
                            ("keyVersion", VObj [("id", VStr "1")])])])
              (VObj [("result",
                      VObj [("plaintext", Sample.dek);
                            ("keyVersion", VObj [("id", VStr "1")])])])
              Sample.start Sample.with_client Sample.rotated Sample.rotated 1%Z 2%Z
              eq_refl eq_refl eq_refl eq_refl eq_refl eq_refl eq_refl eq_refl)
    as (Hw & Hu & _).
  split; [exact Hw|]. split; [reflexivity | exact Hu].
Defined.



(** A path parameter that cannot be encoded: the loop throws, nothing is
    sent and the caller gets the message of the [URIError]. *)
Example lone_surrogate_value_sends_nothing :
  Sample.run "zos_connect_call_service"
    (VObj (Sample.customer_call (VObj [("id", VStr lone_d800)])))
  = (inr (text_result (Str "Error: URI malformed")), Sample.start).
Proof. reflexivity. Qed.

(** C3 as stated fails: wrapping under the standard key [std-1] is not
    stopped before the network; the call is issued and it is the backend
    that rejects it. *)
Lemma wrap_with_standard_key_calls_backend :
  Sample.run "key_protect_wrap_key"
    (VObj [("key_id", VStr "std-1"); ("plaintext", Sample.dek)])
  = (inr (text_result (Str "Error: Bad Request: the key is not a root key")),
     {| keyProtectClient := Some Sample.client;
        remote := 1%Z;
        calls :=
          [KpCall wrapKey
             (VObj [("id", VStr "std-1"); ("bluemixInstance", VStr "instance-1");
                    ("keyActionWrapBody", VObj [("plaintext", Sample.dek)])])] |}).
Proof. reflexivity. Qed.

Lemma key_type_is_left_to_the_backend_on_sample :
  calls (snd (Sample.run "key_protect_rotate_key" (VObj [("key_id", VStr "std-1")])))
  = [KpCall rotateKey
       (VObj [("id", VStr "std-1"); ("bluemixInstance", VStr "instance-1")])]
  /\ fst (Sample.run "key_protect_rotate_key" (VObj [("key_id", VStr "std-1")]))
     = inr (text_result (Str "Error: Bad Request: the key is not a root key")).
Proof.
  destruct (key_type_is_left_to_the_backend Sample.node Sample.config Sample.backends
              "key_protect_rotate_key" key_protect_rotate_key
              [("key_id", VStr "std-1")] Sample.start Sample.with_client Sample.client
              (or_intror (or_intror (or_introl eq_refl))) eq_refl eq_refl)
    as (_ & Hcalls & Herr).
  split; [exact Hcalls|].
  exact (Herr (Error "Bad Request: the key is not a root key") eq_refl).
Defined.

(** C4 as stated fails: [key_protect_get_key] without its required
    [key_id] is not rejected; the SDK is called with [id] undefined. *)
Lemma missing_required_field_reaches_backend :
  option_map (fun t => schema_violation t (VObj [])) (find_tool "key_protect_get_key")
  = Some (Some "key_id")
  /\ Sample.run "key_protect_get_key" (VObj [])
     = (inr (text_result (Str "Error: Not Found: key could not be found")),
        {| keyProtectClient := Some Sample.client;
           remote := 1%Z;
           calls :=
             [KpCall getKey
                (VObj [("bluemixInstance", VStr "instance-1"); ("id", VUndef)])] |}).
Proof. split; reflexivity. Qed.

Lemma arguments_are_not_validated_on_sample :
  option_map (fun t => schema_violation t (VObj [("limit", VStr "many")]))
    (find_tool "key_protect_list_keys")
  = Some (Some "limit")
  /\ ((exists t,
         kp_case "key_protect_list_keys" = Some t
         /\ calls (snd (Sample.run "key_protect_list_keys" (VObj [("limit", VStr "many")])))
            = [KpCall (kp_method_of t)
                 (kp_params Sample.config t [("limit", VStr "many")])])
      \/ (exists t,
            zos_case "key_protect_list_keys" = Some t
            /\ match zos_request Sample.node Sample.config t [("limit", VStr "many")] with
               | inr req =>
                   calls (snd (Sample.run "key_protect_list_keys"
                                 (VObj [("limit", VStr "many")])))
                   = [Fetch req]
               | inl e =>
                   Sample.run "key_protect_list_keys" (VObj [("limit", VStr "many")])
                   = (inr (text_result (Str ("Error: " ++ message e))), Sample.start)
               end)).
Proof.
  split; [reflexivity|].
  apply (arguments_are_not_validated Sample.node Sample.config Sample.backends
           "key_protect_list_keys" [("limit", VStr "many")] Sample.start).
  - left. reflexivity.
  - intros _. exists Sample.client, Sample.with_client. reflexivity.
  - intros _. reflexivity.
Defined.

(** C6 as stated fails: with Key Protect not configured, a name that is
    not in the tool list but starts with [key_protect_] gets the
    configuration diagnostic, and its name is not echoed. *)
Lemma unknown_prefixed_name_gets_configuration_diagnostic :
  ~ In "key_protect_frobnicate" tool_names
  /\ call_tool Sample.node Sample.no_config Sample.backends "key_protect_frobnicate"
       (VObj []) Sample.start
     = (inr (text_result (Str kp_not_configured)), Sample.start)
  /\ Str kp_not_configured <> Str ("Unknown tool: " ++ "key_protect_frobnicate").
Proof.
  split; [|split].
  - cbn. intros H. repeat (destruct H as [H|H]; [discriminate H|]). exact H.
  - reflexivity.
  - discriminate.
Qed.

Lemma unknown_tool_echoes_name_on_sample :
  exists st1,
    call_tool Sample.node Sample.config Sample.backends "key_protect_frobnicate"
      (VObj []) Sample.start
    = (inr (text_result (Str "Unknown tool: key_protect_frobnicate")), st1)
    /\ remote st1 = remote Sample.start /\ calls st1 = calls Sample.start.
Proof.
  apply (unknown_tool_echoes_name Sample.node Sample.config Sample.backends
           "key_protect_frobnicate" (VObj []) Sample.start).
  - cbn. intros H. repeat (destruct H as [H|H]; [discriminate H|]). exact H.
  - intros _. exists Sample.client, Sample.with_client. reflexivity.
  - intros H. discriminate H.
Defined.

(** C8 as stated fails in its second half: the record returned for a new
    root key has no [extractable] field, and its [type] is the media type
    that the backend reports, not a root-key marker. *)
Lemma created_key_record_has_no_extractable_field :
  fst (Sample.run "key_protect_create_key" (VObj Sample.create_root_key))
  = inr (text_result (Json (VObj
      [("message", VStr ("Key " ++ dquote ++ "k1" ++ dquote ++ " created successfully"));
       ("key",
        VObj [("id", VStr "new-1"); ("name", VStr "k1");
              ("type", VStr "application/vnd.ibm.kms.key+json");
              ("crn", VStr "crn:v1:bluemix:public:kms:us-south:a/1:instance-1:key:new-1")])])))
  /\ lookup "extractable"
       [("id", VStr "new-1"); ("name", VStr "k1");
        ("type", VStr "application/vnd.ibm.kms.key+json");
        ("crn", VStr "crn:v1:bluemix:public:kms:us-south:a/1:instance-1:key:new-1")]
     = VUndef.
Proof. split; reflexivity. Qed.

Lemma root_key_is_sent_not_extractable_on_sample :
  lookup "extractable" (keyResource_of Sample.create_root_key) = VBool false
  /\ calls (snd (Sample.run "key_protect_create_key" (VObj Sample.create_root_key)))
     = [KpCall createKey
          (VObj [("bluemixInstance", VStr "instance-1");
                 ("keyCreateBody",
                  VObj [("metadata",
                         VObj [("collectionType", VStr "application/vnd.ibm.kms.key+json");
                               ("collectionTotal", VNum 1)]);
                        ("resources",
                         VArr [VObj [("type", VStr "application/vnd.ibm.kms.key+json");
                                     ("name", VStr "k1");
                                     ("extractable", VBool false)]])])])].
Proof.
  destruct (root_key_is_sent_not_extractable Sample.node Sample.config Sample.backends
              Sample.create_root_key Sample.start Sample.with_client Sample.client
              eq_refl eq_refl)
    as (Hx & Hcalls & _).
  split; [exact Hx | exact Hcalls].
Defined.

(** C5 on a deployment whose backend answers a lookup without a key: the
    content item has no text. *)
Lemma lookup_without_result_on_sample :
  fst (call_tool Sample.node Sample.config Cases.bare_backends "key_protect_get_key"
         (VObj [("key_id", VStr "gone")]) Sample.start)
  = inr (text_result (Json VUndef))
  /\ fst (call_tool Sample.node Sample.config Cases.bare_backends
            "key_protect_get_key_policies" (VObj [("key_id", VStr "gone")]) Sample.start)
     = inr (text_result (Json VUndef))
  /\ is_text (Json VUndef) = false.
Proof.
  destruct (lookup_without_result_returns_no_text Sample.node Sample.config
              Cases.bare_backends [("key_id", VStr "gone")] Sample.start
              Sample.with_client Sample.client eq_refl)
    as (Hkey & Hpolicies & Htext & _).
  split; [exact (Hkey (VObj [("result", VObj [])]) 1%Z eq_refl eq_refl)|].
  split; [exact (Hpolicies (VObj [("status", VNum 204)]) 1%Z eq_refl eq_refl)|].
  exact Htext.
Defined.

(** On the same deployment the sibling tool [key_protect_list_keys] guards
    against the missing list ([|| []]) and returns a text. *)
Example list_keys_without_resources_returns_text :
  fst (call_tool Sample.node Sample.config
         {| new_client := fun _ => None;
            kp_request := fun _ _ _ version => (inr (VObj [("result", VObj [])]), version);
            fetch := Sample.gateway |}
         "key_protect_list_keys" (VObj []) Sample.start)
  = inr (text_result (Json (VObj [("total", VNum 0); ("keys", VArr [])]))).
Proof. reflexivity. Qed.

Lemma configuration_check_precedes_name_check_on_sample :
  call_tool Sample.node Sample.no_config Sample.backends "key_protect_frobnicate"
    (VObj []) Sample.start
  = (inr (text_result (Str kp_not_configured)), Sample.start)
  /\ call_tool Sample.node Sample.no_config Sample.backends "zos_connect_frobnicate"
       (VObj []) Sample.start
     = (inr (text_result (Str zos_not_configured)), Sample.start).
Proof.
  split.
  - apply (configuration_check_precedes_name_check Sample.node Sample.no_config
             Sample.backends "key_protect_frobnicate" (VObj []) Sample.start);
      try reflexivity.
    + cbn. intros H. repeat (destruct H as [H|H]; [discriminate H|]). exact H.
    + left. reflexivity.
  - apply (configuration_check_precedes_name_check Sample.node Sample.no_config
             Sample.backends "zos_connect_frobnicate" (VObj []) Sample.start);
      try reflexivity.
    + cbn. intros H. repeat (destruct H as [H|H]; [discriminate H|]). exact H.
    + left. reflexivity.
Defined.

(** C9 on the sample deployment: [limit = 0] leaves the process as
    [limit = 100]. *)
Lemma list_keys_limit_zero_on_sample :
  calls (snd (Sample.run "key_protect_list_keys"
                (VObj [("limit", VNum 0); ("offset", VNum 0)])))
  = [KpCall getKeys
       (VObj [("bluemixInstance", VStr "instance-1"); ("limit", VNum 100);
              ("offset", VNum 0); ("state", VUndef)])].
Proof. reflexivity. Qed.

(** C7 on the sample deployment: the second [{id}] stays in the URL. *)
Lemma repeated_placeholder_on_sample :
  calls (snd (Sample.run "zos_connect_call_service"
                (VObj [("service_name", VStr "accounts");
                       ("operation", VStr "/{id}/history/{id}");
                       ("method", VStr "GET");
                       ("path_params", VObj [("id", VNum 7)])])))
  = [Fetch {| url := "https://mainframe:9443/zosConnect/services/accounts/7/history/{id}";
              method := VStr "GET";
              headers := [("Content-Type", "application/json");
                          ("Accept", "application/json");
                          ("Authorization", "Basic dXNlcjpwYXNz")];
              body := None |}].
Proof. reflexivity. Qed.

(** ** Further properties on the sample deployments *)

Lemma distinct_placeholders_on_sample :
  (call_service_path (VStr "accounts") (VStr "/customers/{id}/orders/{order}")
     (VObj [("order", VNum 1000000000000000000000); ("id", VStr "a b/c")])
   = inr "/zosConnect/services/accounts/customers/a%20b%2Fc/orders/1e%2B21"
   /\ has_char "{" "/zosConnect/services/accounts/customers/a%20b%2Fc/orders/1e%2B21"
      = false
   /\ has_char "}" "/zosConnect/services/accounts/customers/a%20b%2Fc/orders/1e%2B21"
      = false)
  /\ call_service_path (VStr "accounts") (VStr "/customers/{id}/orders/{order}")
       (VObj [("order", VNum 5); ("id", VStr lone_d800)])
     = inl (URIError "URI malformed").
Proof.
  assert (well_formed Cases.order_path) as Hwf.
  { split.
    - repeat constructor.
    - cbn. repeat constructor; cbn; intuition discriminate. }
  assert (forall params : list (string * value),
            map fst params = ["order"; "id"] ->
            Forall (fun kv : string * value => brace_free (fst kv) = true) params) as Hkeys.
  { intros params Hp. apply Forall_forall. intros [k v] Hin.
    apply (in_map fst) in Hin. rewrite Hp in Hin. cbn in Hin.
    destruct Hin as [<-|[<-|[]]]; reflexivity. }
  assert (forall key, In key (holes Cases.order_path) -> In key ["order"; "id"]) as Hall.
  { cbn. intros key [<-|[<-|[]]]; auto. }
  pose proof (distinct_placeholders_are_all_resolved Cases.order_path
                [("order", VNum 1000000000000000000000); ("id", VStr "a b/c")]
                (VStr "accounts") (VStr "/customers/{id}/orders/{order}")
                "accounts" "/customers/{id}/orders/{order}"
                eq_refl eq_refl eq_refl Hwf
                (Hkeys [("order", VNum 1000000000000000000000); ("id", VStr "a b/c")]
                   eq_refl)
                Hall) as H1.
  pose proof (distinct_placeholders_are_all_resolved Cases.order_path
                [("order", VNum 5); ("id", VStr lone_d800)]
                (VStr "accounts") (VStr "/customers/{id}/orders/{order}")
                "accounts" "/customers/{id}/orders/{order}"
                eq_refl eq_refl eq_refl Hwf
                (Hkeys [("order", VNum 5); ("id", VStr lone_d800)] eq_refl)
                Hall) as H2.
  vm_compute in H1. vm_compute in H2.
  split; [|exact H2].
  destruct H1 as (H1 & _ & H3 & H4).
  split; [exact H1|]. split; [exact H3 | exact H4].
Defined.

Lemma declared_defaults_on_sample :
  call_tool Sample.node Sample.config Sample.backends "key_protect_list_keys"
    (VObj [("offset", VNum 20); ("limit", VNum 100)]) Sample.start
  = call_tool Sample.node Sample.config Sample.backends "key_protect_list_keys"
      (VObj [("offset", VNum 20)]) Sample.start.
Proof.
  apply (declared_defaults_are_applied Sample.node Sample.config Sample.backends
           "key_protect_list_keys" "limit"
           {| name := "key_protect_list_keys";
              properties := [("limit", with_default TNumber (VNum 100));
                             ("offset", with_default TNumber (VNum 0));
                             ("state", plain (TArray TNumber))];
              required := [] |}
           (with_default TNumber (VNum 100)) (VNum 100)
           [("offset", VNum 20)] Sample.start).
  - reflexivity.
  - left. reflexivity.
  - reflexivity.
  - reflexivity.
Defined.

Lemma gateway_failure_on_sample :
  fst (call_tool Sample.node Sample.config Cases.troubled_backends "zos_connect_health"
         (VObj []) Sample.start)
  = inr (text_result (Str "Error: fetch failed"))
  /\ fst (call_tool Sample.node Sample.config Cases.troubled_backends
            "zos_connect_list_apis" (VObj []) Sample.start)
     = inr (text_result (Str "Error: z/OS Connect error 503: Service Unavailable")).
Proof.
  split.
  - refine (proj1 (gateway_failure_is_reported_as_error Sample.node Sample.config
                     Cases.troubled_backends "zos_connect_health" zos_connect_health
                     [] Sample.start _ eq_refl eq_refl eq_refl)
              (TypeError "fetch failed") eq_refl).
  - refine (proj2 (gateway_failure_is_reported_as_error Sample.node Sample.config
                     Cases.troubled_backends "zos_connect_list_apis" zos_connect_list_apis
                     [] Sample.start _ eq_refl eq_refl eq_refl)
              _ "Service Unavailable" eq_refl eq_refl eq_refl).
Defined.

Lemma content_type_on_sample :
  fst (call_tool Sample.node Sample.config Cases.troubled_backends
         "zos_connect_list_services" (VObj []) Sample.start)
  = inr (text_result (Json (VObj
      [("requested", VStr "https://mainframe:9443/zosConnect/services")])))
  /\ fst (call_tool Sample.node Sample.config Cases.troubled_backends
            "zos_connect_get_service" (VObj [("service_name", VStr "legacy")])
            Sample.start)
     = inr (text_result (Json (VStr "RC=0"))).
Proof.
  split.
  - refine (proj1 (content_type_decides_json_or_text Sample.node Sample.config
                     Cases.troubled_backends "zos_connect_list_services"
                     zos_connect_list_services [] Sample.start _ _
                     eq_refl eq_refl eq_refl eq_refl eq_refl)
              "application/json; charset=utf-8" _ eq_refl eq_refl eq_refl).
  - refine (proj2 (content_type_decides_json_or_text Sample.node Sample.config
                     Cases.troubled_backends "zos_connect_get_service"
                     zos_connect_get_service [("service_name", VStr "legacy")]
                     Sample.start _ _ eq_refl eq_refl eq_refl eq_refl eq_refl)
              "RC=0" (or_intror (ex_intro _ "text/plain" (conj eq_refl eq_refl)))
              eq_refl).
Defined.

Lemma get_with_payload_has_no_body_on_sample :
  calls (snd (Sample.run "zos_connect_call_service"
                (VObj [("service_name", VStr "accounts"); ("method", VStr "GET");
                       ("payload", VObj [("id", VNum 7)])])))
  = [Fetch {| url := "https://mainframe:9443/zosConnect/services/accounts/";
              method := VStr "GET";
              headers := [("Content-Type", "application/json");
                          ("Accept", "application/json");
                          ("Authorization", "Basic dXNlcjpwYXNz")];
              body := None |}].
Proof.
  exact (proj1 (request_method_and_body Sample.node Sample.config Sample.backends
                  "zos_connect_call_service" zos_connect_call_service
                  [("service_name", VStr "accounts"); ("method", VStr "GET");
                   ("payload", VObj [("id", VNum 7)])]
                  Sample.start _ eq_refl eq_refl eq_refl)).
Defined.


Lemma list_keys_on_sample :
  fst (Sample.run "key_protect_list_keys" (VObj []))
  = inr (text_result (Json (VObj
      [("total", VNum 2);
       ("keys", VArr [summary_of (Sample.key_resource "root-1" "kek" false);
                      summary_of (Sample.key_resource "std-1" "dek" true)])]))).
Proof.
  apply (proj1 (proj2 (list_keys_reports_every_key Sample.node Sample.config
                         Sample.backends [] Sample.start Sample.with_client
                         Sample.client _ _ 1%Z eq_refl eq_refl eq_refl))
           [Sample.key_resource "root-1" "kek" false;
            Sample.key_resource "std-1" "dek" true]).
  - reflexivity.
  - repeat constructor.
Defined.

Lemma client_on_first_use_on_sample :
  keyProtectClient (snd (Sample.run "zos_connect_health" (VObj []))) = None
  /\ keyProtectClient (snd (Sample.run "key_protect_frobnicate" (VObj [])))
     = Some Sample.client
  /\ call_tool Sample.node Sample.config Cases.rejecting_backends "key_protect_list_keys"
       (VObj []) Sample.start
     = (inr (text_result (Str "Error: apikey property is invalid")), Sample.start).
Proof.
  split; [|split].
  - exact (proj1 (client_is_created_on_first_use Sample.node Sample.config Sample.backends
                    "zos_connect_health" (VObj []) Sample.start) eq_refl).
  - exact (proj1 (proj2 (client_is_created_on_first_use Sample.node Sample.config
                           Sample.backends "key_protect_frobnicate" (VObj [])
                           Sample.start) eq_refl eq_refl eq_refl) eq_refl).
  - exact (proj2 (proj2 (client_is_created_on_first_use Sample.node Sample.config
                           Cases.rejecting_backends "key_protect_list_keys" (VObj [])
                           Sample.start) eq_refl eq_refl eq_refl)
             (Error "apikey property is invalid") eq_refl).
Defined.

Lemma unconfigured_key_protect_on_sample :
  keyProtectClient
    (serve Sample.node Cases.gateway_only Sample.backends
       [("key_protect_list_keys", VObj []);
        ("zos_connect_health", VObj []);
        ("key_protect_wrap_key", VObj Sample.wrap_dek)]
       Sample.start)
  = None
  /\ exists l,
       calls (serve Sample.node Cases.gateway_only Sample.backends
                [("key_protect_list_keys", VObj []);
                 ("zos_connect_health", VObj []);
                 ("key_protect_wrap_key", VObj Sample.wrap_dek)]
                Sample.start)
       = (calls Sample.start ++ l)%list
       /\ forallb is_fetch l = true.
Proof.
  apply (unconfigured_key_protect_is_never_contacted Sample.node Cases.gateway_only
           Sample.backends).
  - reflexivity.
  - left. reflexivity.
Defined.

Lemma empty_aad_is_forwarded_on_sample :
  exists wrapBody unwrapBody,
    calls (snd (Sample.run "key_protect_wrap_key"
                  (VObj [("key_id", VStr "root-1"); ("plaintext", Sample.dek);
                         ("aad", VArr [])])))
    = (calls Sample.start
       ++ [KpCall wrapKey
             (VObj [("id", VStr "root-1");
                    ("bluemixInstance", bluemixInstance Sample.config);
                    ("keyActionWrapBody", VObj wrapBody)])])%list
    /\ calls (snd (Sample.run "key_protect_unwrap_key"
                     (VObj [("key_id", VStr "root-1");
                            ("ciphertext", VStr "1:c2VjcmV0LWRlaw==");
                            ("aad", VArr [])])))
       = (calls Sample.start
          ++ [KpCall unwrapKey
                (VObj [("id", VStr "root-1");
                       ("bluemixInstance", bluemixInstance Sample.config);
                       ("keyActionUnwrapBody", VObj unwrapBody)])])%list
    /\ lookup "aad" wrapBody = lookup "aad" unwrapBody
    /\ lookup "aad" wrapBody = VArr []
    /\ (forall items, VArr [] = VArr items -> lookup "aad" wrapBody = VArr items).
Proof.
  exact (aad_is_forwarded_alike Sample.node Sample.config Sample.backends
           [("key_id", VStr "root-1"); ("plaintext", Sample.dek); ("aad", VArr [])]
           [("key_id", VStr "root-1"); ("ciphertext", VStr "1:c2VjcmV0LWRlaw==");
            ("aad", VArr [])]
           (VArr []) Sample.start Sample.with_client Sample.client
           eq_refl eq_refl eq_refl).
Defined.

Lemma integrations_independent_on_sample :
  call_tool Sample.node Sample.config Sample.backends "key_protect_get_key"
    (VObj [("key_id", VStr "root-1")]) Sample.start
  = call_tool Sample.node Cases.key_protect_only Sample.backends "key_protect_get_key"
      (VObj [("key_id", VStr "root-1")]) Sample.start
  /\ call_tool Sample.node Sample.no_config Sample.backends "zos_connect_health"
       (VObj []) Sample.start
     = call_tool Sample.node Cases.key_protect_only Sample.backends "zos_connect_health"
         (VObj []) Sample.start.
Proof.
  split.
  - exact (proj1 (integrations_are_independent Z Sample.node Sample.backends
                    Sample.config Cases.key_protect_only "key_protect_get_key"
                    (VObj [("key_id", VStr "root-1")]) Sample.start)
             eq_refl eq_refl eq_refl eq_refl).
  - exact (proj2 (integrations_are_independent Z Sample.node Sample.backends
                    Sample.no_config Cases.key_protect_only "zos_connect_health"
                    (VObj []) Sample.start)
             eq_refl eq_refl eq_refl eq_refl).
Defined.

Lemma get_key_on_sample :
  fst (Sample.run "key_protect_get_key" (VObj [("key_id", VStr "root-1")]))
  = inr (text_result (Json (Sample.key_resource "root-1" "kek" false))).
Proof.
  exact (proj1 (get_key_returns_the_first_resource Sample.node Sample.config
                  Sample.backends [("key_id", VStr "root-1")] Sample.start
                  Sample.with_client Sample.client _ _ 1%Z eq_refl eq_refl eq_refl)
           (Sample.key_resource "root-1" "kek" false) [] eq_refl).
Defined.

Lemma standard_key_without_extractable_is_the_root_key_request :
  Sample.run "key_protect_create_key" (VObj Sample.create_root_key)
  = Sample.run "key_protect_create_key"
      (VObj [("type", VStr "standard_key"); ("name", VStr "k1")]).
Proof.
  exact (key_type_is_sent_as_extractable_only Sample.node Sample.config Sample.backends
           Sample.create_root_key [("type", VStr "standard_key"); ("name", VStr "k1")]
           Sample.start eq_refl eq_refl eq_refl eq_refl eq_refl eq_refl).
Defined.

Lemma paging_on_sample :
  calls (snd (Sample.run "key_protect_list_keys"
                (VObj [("limit", VNum 25); ("offset", VNum 50)])))
  = [KpCall getKeys
       (VObj [("bluemixInstance", VStr "instance-1"); ("limit", VNum 25);
              ("offset", VNum 50); ("state", VUndef)])].
Proof.
  apply (list_keys_passes_paging_through Sample.node Sample.config Sample.backends
           [("limit", VNum 25); ("offset", VNum 50)] 25 50 Sample.start
           Sample.with_client Sample.client); try reflexivity.
  discriminate.
Defined.

Lemma client_is_reused_on_sample :
  keyProtectClient
    (serve Sample.node Sample.config Sample.backends
       [("key_protect_list_keys", VObj []); ("zos_connect_health", VObj []);
        ("key_protect_rotate_key", VObj [("key_id", VStr "root-1")])]
       Sample.with_client)
  = Some Sample.client.
Proof.
  exact (serve_reuses_client Sample.node Sample.config Sample.backends
           [("key_protect_list_keys", VObj []); ("zos_connect_health", VObj []);
            ("key_protect_rotate_key", VObj [("key_id", VStr "root-1")])]
           Sample.with_client Sample.client eq_refl).
Defined.

(** With the value that the README gives for [ZOS_CONNECT_URL], which
    already ends in [/zosConnect], the path segment is doubled. *)
Example readme_base_url_doubles_the_path :
  url (fetch_request
         {| IBM_CLOUD_API_KEY := None; KEY_PROTECT_INSTANCE_ID := None;
            env_KEY_PROTECT_URL := None;
            ZOS_CONNECT_URL := Some "https://your-mainframe:9443/zosConnect";
            ZOS_CONNECT_USERNAME := None; ZOS_CONNECT_PASSWORD := None |}
         "/zosConnect/services" (VStr "GET") VNull)
  = "https://your-mainframe:9443/zosConnect/zosConnect/services".
Proof. reflexivity. Qed.
